(** * The WebGPU execution backend of onnxruntime-web

    A shallow embedding of [js/web/lib/wasm/jsep/backend-webgpu.ts] (the
    JSEP backend: program cache, command batching, kernel registry, [run])
    and of [js/web/lib/onnxjs/backends/backend-webgpu.ts] (the older onnxjs
    backend: [initialize] and command batching), with the properties the
    design document states about them.

    The backend object is a record that every method takes and returns;
    a method that can throw returns a [Completion].  JavaScript [Map]s are
    [gmap]s, arrays are lists, nullable fields are options. *)

From stdpp Require Import base option list gmap strings pretty.
From Stdlib Require Import ZArith Lia.

Set Default Proof Using "Type".

(** ** JavaScript values *)

(** A JavaScript value used as an output index: either an integer or a
    value for which [Number.isInteger] is false (a fraction, NaN, an
    infinity, or the [undefined] read past the end of an array). *)
Inductive JsNumber :=
| JsInt (z : Z)
| JsNonInteger.

Definition Number_isInteger (n : JsNumber) : bool :=
  match n with JsInt _ => true | JsNonInteger => false end.

(** Every [throw new Error(...)] of the two files, one constructor per
    message, plus the errors that come from the collaborators. *)
Inductive Error :=
| InputSizeMustBeEqualTo (n : nat)         (* `Input size must be equal to ${n}.` *)
| NoGpuDataForInput (data : Z)             (* `no GPU data for input: ${data}` *)
| OutputSizeMustBeEqualTo (n : nat)        (* `Output size must be equal to ${n}.` *)
| InvalidOutputIndex (index : JsNumber)    (* `Invalid output index: ${index}` *)
| NoGpuDataForOutput (data : Z)            (* `no GPU data for output: ${data}` *)
| KernelNotImplemented (name : string)     (* `kernel not implemented: ${name}` *)
| KernelNotCreated (kernelId : Z)          (* `kernel not created: ${kernelId}` *)
| KernelCalledRecursively (name : string)  (* `kernel "${name}" is not allowed to be called recursively` *)
| WebGpuNotAvailable                       (* 'WebGpuBackend: WebGPU is not available.' *)
| FailedToGetGpuAdapter                    (* 'WebGpuBackend: Failed to get GPU adapter.' *)
| ReleasingUnknownData (id : Z)            (* the buffer registry's release of an unknown id *)
| TypeError (what : string)                (* a property read on null or undefined *)
| OtherError (what : string).              (* anything a callback or the platform throws *)

Inductive Completion (A : Type) :=
| Normal (v : A)
| Abrupt (e : Error).
Arguments Normal {A} v.
Arguments Abrupt {A} e.

Definition isNormal {A} (c : Completion A) : bool :=
  match c with Normal _ => true | Abrupt _ => false end.

(** The error taxonomy of the design document (section 7), as a
    classification of the messages above. *)
Inductive ErrorKind :=
| DeviceUnavailable
| NotImplemented
| ShapeMismatch
| NotFound
| ConcurrencyViolation
| Unclassified.

Definition errorKind (e : Error) : ErrorKind :=
  match e with
  | InputSizeMustBeEqualTo _ | OutputSizeMustBeEqualTo _ | InvalidOutputIndex _ => ShapeMismatch
  | NoGpuDataForInput _ | NoGpuDataForOutput _ | KernelNotCreated _ | ReleasingUnknownData _ => NotFound
  | KernelNotImplemented _ => NotImplemented
  | KernelCalledRecursively _ => ConcurrencyViolation
  | WebGpuNotAvailable | FailedToGetGpuAdapter => DeviceUnavailable
  | TypeError _ | OtherError _ => Unclassified
  end.

(** ** Tensors and GPU data *)

Definition GpuDataType := Z.

Record TensorView := {
  data : Z;
  dataType : Z;
  dims : list Z;
}.

Record GpuData := {
  type : GpuDataType;
  id : Z;
}.

(** ** The device (the part of the WebGPU API the backend drives)

    A command encoder is a handle; what has been recorded into it lives in
    the device.  A compute pass encoder is a handle that remembers the
    command encoder it was begun on, so that ending the pass or recording a
    dispatch reaches that encoder whatever the backend's fields say. *)

Inductive GPUCommand :=
| BeginComputePass
| DispatchWorkgroups (pipeline : nat) (inputs outputs : list Z) (groups : Z * Z * Z)
| EndPass.

Definition GPUCommandBuffer := list GPUCommand.
Definition GPUCommandEncoder := nat.
Definition GPUComputePassEncoder := nat.

Record GPULimits := {
  maxComputeWorkgroupStorageSize : Z;
  maxComputeWorkgroupsPerDimension : Z;
  maxStorageBufferBindingSize : Z;
}.

Record GPUDeviceDescriptor := {
  requiredLimits : GPULimits;
  requiredFeatures : list string;
}.

Record GPUDevice := {
  limits : GPULimits;
  features : list string;
  encoders : gmap nat (list GPUCommand);
  nextEncoder : nat;
  queue : list (list GPUCommandBuffer);
  querySets : nat;
}.

Definition setEncoders (e : gmap nat (list GPUCommand)) (d : GPUDevice) : GPUDevice :=
  {| limits := limits d; features := features d; encoders := e;
     nextEncoder := nextEncoder d; queue := queue d; querySets := querySets d |}.

Definition record (h : nat) (c : GPUCommand) (d : GPUDevice) : GPUDevice :=
  setEncoders (alter (λ cs, cs ++ [c]) h (encoders d)) d.

Definition createCommandEncoder (d : GPUDevice) : GPUCommandEncoder * GPUDevice :=
  (nextEncoder d,
   {| limits := limits d; features := features d;
      encoders := <[nextEncoder d := []]> (encoders d);
      nextEncoder := S (nextEncoder d); queue := queue d; querySets := querySets d |}).

Definition beginComputePass (h : GPUCommandEncoder) (d : GPUDevice)
  : GPUComputePassEncoder * GPUDevice :=
  (h, record h BeginComputePass d).

Definition passEnd (p : GPUComputePassEncoder) (d : GPUDevice) : GPUDevice :=
  record p EndPass d.

Definition dispatchWorkgroups (p : GPUComputePassEncoder) (pipeline : nat)
    (inputs outputs : list Z) (groups : Z * Z * Z) (d : GPUDevice) : GPUDevice :=
  record p (DispatchWorkgroups pipeline inputs outputs groups) d.

Definition recorded (h : GPUCommandEncoder) (d : GPUDevice) : GPUCommandBuffer :=
  default [] (encoders d !! h).

Definition finish (h : GPUCommandEncoder) (d : GPUDevice) : GPUCommandBuffer * GPUDevice :=
  (recorded h d, setEncoders (delete h (encoders d)) d).

Definition submit (buffers : list GPUCommandBuffer) (d : GPUDevice) : GPUDevice :=
  {| limits := limits d; features := features d; encoders := encoders d;
     nextEncoder := nextEncoder d; queue := queue d ++ [buffers];
     querySets := querySets d |}.

Definition createQuerySet (d : GPUDevice) : GPUDevice :=
  {| limits := limits d; features := features d; encoders := encoders d;
     nextEncoder := nextEncoder d; queue := queue d;
     querySets := S (querySets d) |}.

(** ** The buffer registry ([./webgpu/gpu-data-manager]) *)

Record CachedData := {
  cachedType : GpuDataType;
  originalSize : Z;
}.

(** Modelled from the spec: the class [GpuDataManager] is imported, not
    defined, by the backend.  Section 4.1: buffers are identified by an
    opaque integer id; [create] returns a live buffer under an id no live
    buffer has; [release] makes the buffer unavailable, keeps its memory
    pending until the next flush, and is an error on an unknown id;
    [get] is a pure read. *)
Record GpuDataManager := {
  storageCache : gmap Z CachedData;
  buffersPending : list Z;
}.

Definition gdm_get (i : Z) (m : GpuDataManager) : option GpuData :=
  (λ c, {| type := cachedType c; id := i |}) <$> storageCache m !! i.

Definition gdm_create (size : Z) (m : GpuDataManager) : GpuData * GpuDataManager :=
  let i := fresh (dom (storageCache m)) in
  ({| type := 0%Z; id := i |},
   {| storageCache := <[i := {| cachedType := 0%Z; originalSize := size |}]> (storageCache m);
      buffersPending := buffersPending m |}).

Definition gdm_release (i : Z) (m : GpuDataManager) : Completion Z * GpuDataManager :=
  match storageCache m !! i with
  | None => (Abrupt (ReleasingUnknownData i), m)
  | Some c =>
      (Normal (originalSize c),
       {| storageCache := delete i (storageCache m);
          buffersPending := buffersPending m ++ [i] |})
  end.

Definition gdm_refreshPendingBuffers (m : GpuDataManager) : GpuDataManager :=
  {| storageCache := storageCache m; buffersPending := [] |}.

Definition live (i : Z) (m : GpuDataManager) : Prop := is_Some (storageCache m !! i).

(** ** Programs and the program cache ([./webgpu/types], [./webgpu/program-manager]) *)

Record ProgramMetadata := {
  name : string;
  cacheHint : option string;
  inputTypes : list GpuDataType;
}.

Record OutputInfo := {
  outDataType : Z;
  outDims : list Z;
}.

Record ProgramInfo := {
  metadata : ProgramMetadata;
  outputs : list OutputInfo;
  dispatchGroup : list TensorView → Z * Z * Z;
}.

(** [ProgramInfoLoader | ProgramInfo]: a loader has the metadata and a
    [get] function, told apart by [typeof program.get === 'function'].
    [get] and [dispatchGroup] are taken as functions that return: a
    program whose callbacks throw is outside the model. *)
Inductive Program :=
| Loader (m : ProgramMetadata) (get : unit → ProgramInfo)
| Info (p : ProgramInfo).

Definition programMetadata (p : Program) : ProgramMetadata :=
  match p with Loader m _ => m | Info p => metadata p end.

Record Artifact := {
  programInfo : ProgramInfo;
  computePipeline : nat;
}.

(** Modelled from the spec: the class [ProgramManager] is imported, not
    defined, by the backend.  Section 4.2: [getArtifact] is a pure read of
    a map from fingerprint to compiled program, [setArtifact] inserts,
    [build] compiles.  Each compilation yields a new pipeline; the number
    of compilations so far names it.  The manager also keeps the pipelines
    it was asked to run, oldest first, and the pending-dispatch threshold
    of section 4.5 step 6. *)
Record ProgramManager := {
  repo : gmap string Artifact;
  builds : nat;
  dispatched : list nat;
  flushThreshold : nat;
}.

Definition getArtifact (key : string) (pm : ProgramManager) : option Artifact :=
  repo pm !! key.

Definition setArtifact (key : string) (a : Artifact) (pm : ProgramManager) : ProgramManager :=
  {| repo := <[key := a]> (repo pm); builds := builds pm;
     dispatched := dispatched pm; flushThreshold := flushThreshold pm |}.

Definition build (p : ProgramInfo) (pm : ProgramManager) : Artifact * ProgramManager :=
  ({| programInfo := p; computePipeline := builds pm |},
   {| repo := repo pm; builds := S (builds pm);
      dispatched := dispatched pm; flushThreshold := flushThreshold pm |}).

Definition noteDispatch (a : Artifact) (pm : ProgramManager) : ProgramManager :=
  {| repo := repo pm; builds := builds pm;
     dispatched := dispatched pm ++ [computePipeline a];
     flushThreshold := flushThreshold pm |}.

(** [getProgramInfoUniqueKey] *)
Definition join (sep : string) (parts : list string) : string := String.concat sep parts.

Definition truthy (s : option string) : bool :=
  match s with Some s => negb (String.eqb s "") | None => false end.

Definition getProgramInfoUniqueKey (programInfo : ProgramMetadata)
    (inputTensorShapes : list (list Z)) (inputGpuDataTypes : list GpuDataType) : string :=
  let inputTensorShapesToString :=
    join "_" (map (λ d, join "," (map pretty d)) inputTensorShapes) in
  let inputGpuDataTypesToString := join "_" (map pretty inputGpuDataTypes) in
  let key := name programInfo in
  let key :=
    if truthy (cacheHint programInfo)
    then key +:+ "[" +:+ default "" (cacheHint programInfo) +:+ "]"
    else key in
  key +:+ ":" +:+ inputTensorShapesToString +:+ ";" +:+ inputGpuDataTypesToString.

(** ** Kernels *)

(** The two output factories that [ComputeContext.compute] hands to [run]
    ([createKernelOutput] and [createTemporaryOutput]).  They obtain
    buffers from the buffer registry and may throw. *)
Record ComputeContext := {
  createKernelOutput : Z → Z → list Z → GpuDataManager → Completion TensorView * GpuDataManager;
  createTemporaryOutput : Z → list Z → GpuDataManager → Completion TensorView * GpuDataManager;
}.

(** What a kernel entry does, as the backend sees it: it returns a status
    or throws; or it calls [context.compute], which calls [run], and goes
    on with what that returned or threw; or it invokes a kernel instance
    and goes on with what that returned or threw. *)
Inductive KernelBody :=
| Return (status : Z)
| Raise (e : Error)
| Compute (program : Program) (inputs : list TensorView) (outputIndices : list JsNumber)
    (k : Completion (list TensorView) → KernelBody)
| Invoke (kernelId : Z) (context : ComputeContext) (k : Completion Z → KernelBody).

Definition Attribute := string.
Definition AttributeParser := Attribute → Completion Attribute.
Definition RunFunction := ComputeContext → Attribute → KernelBody.

(** [[string, RunFunction, [((attribute: unknown) => unknown) | undefined, unknown]]] *)
Definition KernelInfo := (string * RunFunction * (option AttributeParser * Attribute))%type.

(** ** The JSEP backend *)

(** [temporaryData] has no initialiser in the class and [initialize] does
    not assign it: it is [undefined] ([None]) until the first
    [computeKernel] assigns [[]] to it. *)
Record WebGpuBackend := {
  device : GPUDevice;
  gpuDataManager : GpuDataManager;
  programManager : ProgramManager;
  temporaryData : option (list GpuData);
  currentKernelId : option Z;
  kernelPersistentData : gmap (option Z) (list GpuData);
  kernels : gmap Z KernelInfo;
  commandEncoder : option GPUCommandEncoder;
  computePassEncoder : option GPUComputePassEncoder;
  pendingDispatchNumber : nat;
  profilingEnabled : bool;
  profilingQuerySet : option nat;
}.

Definition withDevice (x : GPUDevice) (s : WebGpuBackend) : WebGpuBackend :=
  {| device := x; gpuDataManager := gpuDataManager s; programManager := programManager s;
     temporaryData := temporaryData s; currentKernelId := currentKernelId s;
     kernelPersistentData := kernelPersistentData s; kernels := kernels s;
     commandEncoder := commandEncoder s; computePassEncoder := computePassEncoder s;
     pendingDispatchNumber := pendingDispatchNumber s;
     profilingEnabled := profilingEnabled s; profilingQuerySet := profilingQuerySet s |}.

Definition withGpuDataManager (x : GpuDataManager) (s : WebGpuBackend) : WebGpuBackend :=
  {| device := device s; gpuDataManager := x; programManager := programManager s;
     temporaryData := temporaryData s; currentKernelId := currentKernelId s;
     kernelPersistentData := kernelPersistentData s; kernels := kernels s;
     commandEncoder := commandEncoder s; computePassEncoder := computePassEncoder s;
     pendingDispatchNumber := pendingDispatchNumber s;
     profilingEnabled := profilingEnabled s; profilingQuerySet := profilingQuerySet s |}.

Definition withProgramManager (x : ProgramManager) (s : WebGpuBackend) : WebGpuBackend :=
  {| device := device s; gpuDataManager := gpuDataManager s; programManager := x;
     temporaryData := temporaryData s; currentKernelId := currentKernelId s;
     kernelPersistentData := kernelPersistentData s; kernels := kernels s;
     commandEncoder := commandEncoder s; computePassEncoder := computePassEncoder s;
     pendingDispatchNumber := pendingDispatchNumber s;
     profilingEnabled := profilingEnabled s; profilingQuerySet := profilingQuerySet s |}.

Definition withTemporaryData (x : option (list GpuData)) (s : WebGpuBackend) : WebGpuBackend :=
  {| device := device s; gpuDataManager := gpuDataManager s; programManager := programManager s;
     temporaryData := x; currentKernelId := currentKernelId s;
     kernelPersistentData := kernelPersistentData s; kernels := kernels s;
     commandEncoder := commandEncoder s; computePassEncoder := computePassEncoder s;
     pendingDispatchNumber := pendingDispatchNumber s;
     profilingEnabled := profilingEnabled s; profilingQuerySet := profilingQuerySet s |}.

Definition withCurrentKernelId (x : option Z) (s : WebGpuBackend) : WebGpuBackend :=
  {| device := device s; gpuDataManager := gpuDataManager s; programManager := programManager s;
     temporaryData := temporaryData s; currentKernelId := x;
     kernelPersistentData := kernelPersistentData s; kernels := kernels s;
     commandEncoder := commandEncoder s; computePassEncoder := computePassEncoder s;
     pendingDispatchNumber := pendingDispatchNumber s;
     profilingEnabled := profilingEnabled s; profilingQuerySet := profilingQuerySet s |}.

Definition withKernelPersistentData (x : gmap (option Z) (list GpuData)) (s : WebGpuBackend)
  : WebGpuBackend :=
  {| device := device s; gpuDataManager := gpuDataManager s; programManager := programManager s;
     temporaryData := temporaryData s; currentKernelId := currentKernelId s;
     kernelPersistentData := x; kernels := kernels s;
     commandEncoder := commandEncoder s; computePassEncoder := computePassEncoder s;
     pendingDispatchNumber := pendingDispatchNumber s;
     profilingEnabled := profilingEnabled s; profilingQuerySet := profilingQuerySet s |}.

Definition withKernels (x : gmap Z KernelInfo) (s : WebGpuBackend) : WebGpuBackend :=
  {| device := device s; gpuDataManager := gpuDataManager s; programManager := programManager s;
     temporaryData := temporaryData s; currentKernelId := currentKernelId s;
     kernelPersistentData := kernelPersistentData s; kernels := x;
     commandEncoder := commandEncoder s; computePassEncoder := computePassEncoder s;
     pendingDispatchNumber := pendingDispatchNumber s;
     profilingEnabled := profilingEnabled s; profilingQuerySet := profilingQuerySet s |}.

Definition withCommandEncoder (x : option GPUCommandEncoder) (s : WebGpuBackend) : WebGpuBackend :=
  {| device := device s; gpuDataManager := gpuDataManager s; programManager := programManager s;
     temporaryData := temporaryData s; currentKernelId := currentKernelId s;
     kernelPersistentData := kernelPersistentData s; kernels := kernels s;
     commandEncoder := x; computePassEncoder := computePassEncoder s;
     pendingDispatchNumber := pendingDispatchNumber s;
     profilingEnabled := profilingEnabled s; profilingQuerySet := profilingQuerySet s |}.

Definition withComputePassEncoder (x : option GPUComputePassEncoder) (s : WebGpuBackend)
  : WebGpuBackend :=
  {| device := device s; gpuDataManager := gpuDataManager s; programManager := programManager s;
     temporaryData := temporaryData s; currentKernelId := currentKernelId s;
     kernelPersistentData := kernelPersistentData s; kernels := kernels s;
     commandEncoder := commandEncoder s; computePassEncoder := x;
     pendingDispatchNumber := pendingDispatchNumber s;
     profilingEnabled := profilingEnabled s; profilingQuerySet := profilingQuerySet s |}.

Definition withPendingDispatchNumber (x : nat) (s : WebGpuBackend) : WebGpuBackend :=
  {| device := device s; gpuDataManager := gpuDataManager s; programManager := programManager s;
     temporaryData := temporaryData s; currentKernelId := currentKernelId s;
     kernelPersistentData := kernelPersistentData s; kernels := kernels s;
     commandEncoder := commandEncoder s; computePassEncoder := computePassEncoder s;
     pendingDispatchNumber := x;
     profilingEnabled := profilingEnabled s; profilingQuerySet := profilingQuerySet s |}.

(** *** Command batching *)

Definition getCommandEncoder (s : WebGpuBackend) : GPUCommandEncoder * WebGpuBackend :=
  match commandEncoder s with
  | Some e => (e, s)
  | None =>
      let '(e, d) := createCommandEncoder (device s) in
      (e, withCommandEncoder (Some e) (withDevice d s))
  end.

Definition getComputePassEncoder (s : WebGpuBackend) : GPUComputePassEncoder * WebGpuBackend :=
  match computePassEncoder s with
  | Some p => (p, s)
  | None =>
      let '(e, s1) := getCommandEncoder s in
      let '(p, d) := beginComputePass e (device s1) in
      (p, withComputePassEncoder (Some p) (withDevice d s1))
  end.

Definition endComputePass (s : WebGpuBackend) : WebGpuBackend :=
  match computePassEncoder s with
  | Some p => withComputePassEncoder None (withDevice (passEnd p (device s)) s)
  | None => s
  end.

Definition flush (s : WebGpuBackend) : WebGpuBackend :=
  let s1 := endComputePass s in
  let '(e, s2) := getCommandEncoder s1 in
  let '(buffer, d) := finish e (device s2) in
  let s3 := withDevice (submit [buffer] d) s2 in
  let s4 := withGpuDataManager (gdm_refreshPendingBuffers (gpuDataManager s3)) s3 in
  let s5 := withCommandEncoder None s4 in
  withPendingDispatchNumber 0 s5.

(** Modelled from the spec: [ProgramManager.run] is not in the backend
    file.  Section 4.5, steps 5 and 6: record the dispatch into the
    current compute pass, binding input and output buffers; increment the
    pending-dispatch counter; if it crosses the flush threshold, flush. *)
Definition programManager_run (a : Artifact) (inputs outputs : list GpuData)
    (groups : Z * Z * Z) (s : WebGpuBackend) : WebGpuBackend :=
  let '(p, s1) := getComputePassEncoder s in
  let s2 := withDevice (dispatchWorkgroups p (computePipeline a)
                          (map id inputs) (map id outputs) groups (device s1)) s1 in
  let s3 := withProgramManager (noteDispatch a (programManager s2)) s2 in
  let s4 := withPendingDispatchNumber (S (pendingDispatchNumber s3)) s3 in
  if (flushThreshold (programManager s4) <=? pendingDispatchNumber s4)%nat
  then flush s4 else s4.

(** *** [run] *)

(** The first loop of [run]: the GPU data of every input, or the first
    input that has none. *)
Fixpoint inputGpuData (m : GpuDataManager) (inputs : list TensorView)
  : Completion (list GpuData) :=
  match inputs with
  | [] => Normal []
  | t :: rest =>
      match gdm_get (data t) m with
      | None => Abrupt (NoGpuDataForInput (data t))
      | Some gpuData =>
          match inputGpuData m rest with
          | Normal inputDatas => Normal (gpuData :: inputDatas)
          | Abrupt e => Abrupt e
          end
      end
  end.

Definition resolveProgramInfo (artifact : option Artifact) (program : Program) : ProgramInfo :=
  match artifact with
  | Some a => programInfo a
  | None => match program with Loader _ get => get () | Info p => p end
  end.

Definition validatedOutputIndices (outputIndices : list JsNumber) (info : ProgramInfo)
  : list JsNumber :=
  match outputIndices with
  | [] => imap (λ i _, JsInt (Z.of_nat i)) (outputs info)
  | _ => outputIndices
  end.

(** [!Number.isInteger(x) || x < -2 || x >= count] *)
Definition invalidOutputIndex (count : nat) (index : JsNumber) : bool :=
  negb (Number_isInteger index) ||
  match index with
  | JsInt z => (z <? -2)%Z || (Z.of_nat count <=? z)%Z
  | JsNonInteger => false
  end.

Definition indexValue (index : JsNumber) : Z :=
  match index with JsInt z => z | JsNonInteger => 0%Z end.

(** [this.temporaryData.push(gpuData)]: a TypeError while the field is
    [undefined]. *)
Definition pushTemporary (gpuData : GpuData) (s : WebGpuBackend) : Completion WebGpuBackend :=
  match temporaryData s with
  | None => Abrupt (TypeError "push")
  | Some tracked => Normal (withTemporaryData (Some (tracked ++ [gpuData])) s)
  end.

Definition pushPersistent (gpuData : GpuData) (s : WebGpuBackend) : WebGpuBackend :=
  let persistentData := default [] (kernelPersistentData s !! currentKernelId s) in
  withKernelPersistentData
    (<[currentKernelId s := persistentData ++ [gpuData]]> (kernelPersistentData s)) s.

(** The body of the second loop of [run], for the output [o] and the
    index [validatedOutputIndices[i]]. *)
Definition createOutput (count : nat) (o : OutputInfo) (index : JsNumber)
    (createKernelOutput : Z → Z → list Z → GpuDataManager → Completion TensorView * GpuDataManager)
    (createTemporaryOutput : Z → list Z → GpuDataManager → Completion TensorView * GpuDataManager)
    (s : WebGpuBackend) : Completion (TensorView * GpuData) * WebGpuBackend :=
  if invalidOutputIndex count index then (Abrupt (InvalidOutputIndex index), s) else
  let isTemporary := (indexValue index =? -2)%Z in
  let isPersistent := (indexValue index =? -1)%Z in
  let '(created, m) :=
    if isTemporary || isPersistent
    then createTemporaryOutput (outDataType o) (outDims o) (gpuDataManager s)
    else createKernelOutput (indexValue index) (outDataType o) (outDims o) (gpuDataManager s) in
  let s1 := withGpuDataManager m s in
  match created with
  | Abrupt e => (Abrupt e, s1)
  | Normal tensorView =>
      match gdm_get (data tensorView) m with
      | None => (Abrupt (NoGpuDataForOutput (data tensorView)), s1)
      | Some gpuData =>
          match (if isTemporary then pushTemporary gpuData s1 else Normal s1) with
          | Abrupt e => (Abrupt e, s1)
          | Normal s2 =>
              let s3 := if isPersistent then pushPersistent gpuData s2 else s2 in
              (Normal (tensorView, gpuData), s3)
          end
      end
  end.

(** The second loop of [run], over [programInfo.outputs]; [indices] is
    what is left of [validatedOutputIndices] ([validatedOutputIndices[i]]
    is its head, a non-integer when the array has ended). *)
Fixpoint createOutputs (count : nat) (outs : list OutputInfo) (indices : list JsNumber)
    (createKernelOutput : Z → Z → list Z → GpuDataManager → Completion TensorView * GpuDataManager)
    (createTemporaryOutput : Z → list Z → GpuDataManager → Completion TensorView * GpuDataManager)
    (s : WebGpuBackend) : Completion (list TensorView * list GpuData) * WebGpuBackend :=
  match outs with
  | [] => (Normal ([], []), s)
  | o :: outs' =>
      match createOutput count o (hd JsNonInteger indices)
              createKernelOutput createTemporaryOutput s with
      | (Abrupt e, s1) => (Abrupt e, s1)
      | (Normal (tensorView, gpuData), s1) =>
          match createOutputs count outs' (tl indices)
                  createKernelOutput createTemporaryOutput s1 with
          | (Normal (outputTensorViews, outputDatas), s2) =>
              (Normal (tensorView :: outputTensorViews, gpuData :: outputDatas), s2)
          | (Abrupt e, s2) => (Abrupt e, s2)
          end
      end
  end.

(** [if (!artifact) { artifact = build(programInfo); setArtifact(key, artifact); }] *)
Definition ensureArtifact (artifact : option Artifact) (key : string) (info : ProgramInfo)
    (s : WebGpuBackend) : Artifact * WebGpuBackend :=
  match artifact with
  | Some a => (a, s)
  | None =>
      let '(a, pm) := build info (programManager s) in
      (a, withProgramManager (setArtifact key a pm) s)
  end.

Definition run (program : Program) (inputs : list TensorView) (outputIndices : list JsNumber)
    (createKernelOutput : Z → Z → list Z → GpuDataManager → Completion TensorView * GpuDataManager)
    (createTemporaryOutput : Z → list Z → GpuDataManager → Completion TensorView * GpuDataManager)
    (s : WebGpuBackend) : Completion (list TensorView) * WebGpuBackend :=
  let arity := length (inputTypes (programMetadata program)) in
  if negb (length inputs =? arity)%nat then (Abrupt (InputSizeMustBeEqualTo arity), s) else
  match inputGpuData (gpuDataManager s) inputs with
  | Abrupt e => (Abrupt e, s)
  | Normal inputDatas =>
      let key := getProgramInfoUniqueKey (programMetadata program)
                   (map dims inputs) (map type inputDatas) in
      let artifact := getArtifact key (programManager s) in
      let info := resolveProgramInfo artifact program in
      let validated := validatedOutputIndices outputIndices info in
      if negb (length validated =? length (outputs info))%nat
      then (Abrupt (OutputSizeMustBeEqualTo (length (outputs info))), s) else
      match createOutputs (length (outputs info)) (outputs info) validated
              createKernelOutput createTemporaryOutput s with
      | (Abrupt e, s1) => (Abrupt e, s1)
      | (Normal (outputTensorViews, outputDatas), s1) =>
          let '(a, s2) := ensureArtifact artifact key info s1 in
          (Normal outputTensorViews,
           programManager_run a inputDatas outputDatas
             (dispatchGroup (programInfo a) inputs) s2)
      end
  end.

(** *** Buffers and kernels *)

Definition alloc (size : Z) (s : WebGpuBackend) : Z * WebGpuBackend :=
  let '(d, m) := gdm_create size (gpuDataManager s) in (id d, withGpuDataManager m s).

Definition free (ptr : Z) (s : WebGpuBackend) : Completion Z * WebGpuBackend :=
  let '(r, m) := gdm_release ptr (gpuDataManager s) in (r, withGpuDataManager m s).

(** [WEBGPU_OP_RESOLVE_RULES] is imported; [createKernel] takes it as
    [rules]. *)
Definition createKernel (rules : string → option (RunFunction * option AttributeParser))
    (name : string) (kernelId : Z) (attribute : Attribute) (s : WebGpuBackend)
  : Completion unit * WebGpuBackend :=
  match rules name with
  | None => (Abrupt (KernelNotImplemented name), s)
  | Some op =>
      (Normal tt, withKernels (<[kernelId := (name, fst op, (snd op, attribute))]> (kernels s)) s)
  end.

(** [for (const data of ...) { this.gpuDataManager.release(data.id); }]:
    the loop ends at the first release that throws. *)
Fixpoint releaseEach (datas : list GpuData) (m : GpuDataManager)
  : Completion unit * GpuDataManager :=
  match datas with
  | [] => (Normal tt, m)
  | d :: rest =>
      match gdm_release (id d) m with
      | (Abrupt e, m') => (Abrupt e, m')
      | (Normal _, m') => releaseEach rest m'
      end
  end.

Definition releaseKernel (kernelId : Z) (s : WebGpuBackend) : Completion unit * WebGpuBackend :=
  match kernelPersistentData s !! Some kernelId with
  | Some persistentData =>
      match releaseEach persistentData (gpuDataManager s) with
      | (Abrupt e, m) => (Abrupt e, withGpuDataManager m s)
      | (Normal _, m) =>
          let s1 := withGpuDataManager m s in
          let s2 := withKernelPersistentData (delete (Some kernelId) (kernelPersistentData s1)) s1 in
          (Normal tt, withKernels (delete kernelId (kernels s2)) s2)
      end
  | None => (Normal tt, withKernels (delete kernelId (kernels s)) s)
  end.

(** A kernel entry at work.  [invoke] is [computeKernel] for the kernel
    invocations the entry makes. *)
Fixpoint runKernelBody
    (invoke : Z → ComputeContext → WebGpuBackend → option (Completion Z * WebGpuBackend))
    (context : ComputeContext) (body : KernelBody) (s : WebGpuBackend)
  : option (Completion Z * WebGpuBackend) :=
  match body with
  | Return status => Some (Normal status, s)
  | Raise e => Some (Abrupt e, s)
  | Compute program inputs outputIndices k =>
      let '(r, s1) := run program inputs outputIndices
                        (createKernelOutput context) (createTemporaryOutput context) s in
      runKernelBody invoke context (k r) s1
  | Invoke kernelId context' k =>
      match invoke kernelId context' s with
      | None => None
      | Some (r, s1) => runKernelBody invoke context (k r) s1
      end
  end.

(** The [finally] block of [computeKernel]; [for (... of undefined)] is a
    TypeError. *)
Definition releaseTemporaryData (s : WebGpuBackend) : Completion unit * WebGpuBackend :=
  match temporaryData s with
  | None => (Abrupt (TypeError "iterator"), s)
  | Some tracked =>
      match releaseEach tracked (gpuDataManager s) with
      | (Abrupt e, m) => (Abrupt e, withGpuDataManager m s)
      | (Normal _, m) =>
          (Normal tt,
           withCurrentKernelId None (withTemporaryData (Some []) (withGpuDataManager m s)))
      end
  end.

(** [if (attributes[0]) { attributes[1] = attributes[0](attributes[1]);
    attributes[0] = undefined; }]: the attribute the entry gets, and the
    backend with the kernel's attribute array updated. *)
Definition parseAttributes (kernelId : Z) (kernel : KernelInfo) (s : WebGpuBackend)
  : Completion (Attribute * WebGpuBackend) :=
  let '(name, kernelEntry, attributes) := kernel in
  match attributes with
  | (Some parse, attribute) =>
      match parse attribute with
      | Abrupt e => Abrupt e
      | Normal attribute' =>
          Normal (attribute',
                  withKernels (<[kernelId := (name, kernelEntry, (None, attribute'))]> (kernels s)) s)
      end
  | (None, attribute) => Normal (attribute, s)
  end.

Definition kernelName (kernel : KernelInfo) : string := kernel.1.1.
Definition kernelEntry (kernel : KernelInfo) : RunFunction := kernel.1.2.

(** [computeKernel].  [fuel] bounds the depth of kernel invocations made
    from inside kernel entries; [None] means it ran out. *)
Fixpoint computeKernel (fuel : nat) (kernelId : Z) (context : ComputeContext)
    (s : WebGpuBackend) : option (Completion Z * WebGpuBackend) :=
  match fuel with
  | O => None
  | S fuel' =>
      match kernels s !! kernelId with
      | None => Some (Abrupt (KernelNotCreated kernelId), s)
      | Some kernel =>
          match currentKernelId s with
          | Some _ => Some (Abrupt (KernelCalledRecursively (kernelName kernel)), s)
          | None =>
              let s1 := withCurrentKernelId (Some kernelId) s in
              match parseAttributes kernelId kernel s1 with
              | Abrupt e => Some (Abrupt e, s1)
              | Normal (attribute, s2) =>
                  let s3 := withTemporaryData (Some []) s2 in
                  match runKernelBody (computeKernel fuel') context
                          (kernelEntry kernel context attribute) s3 with
                  | None => None
                  | Some (r, s4) =>
                      match releaseTemporaryData s4 with
                      | (Abrupt e, s5) => Some (Abrupt e, s5)
                      | (Normal _, s5) => Some (r, s5)
                      end
                  end
              end
          end
      end
  end.

(** *** [initialize] *)

(** What [initialize] asks of the platform.  [navigator_gpu] is
    [navigator.gpu] ([None] when it is absent) together with what its
    [requestAdapter()] resolves to (an adapter or null) or rejects with;
    an adapter's [requestDevice] resolves to a device or rejects.  An
    awaited promise that rejects is a throw at the [await]. *)
Record GPUAdapter := {
  adapterLimits : GPULimits;
  adapterFeatures : list string;
  requestDevice : GPUDeviceDescriptor → Completion GPUDevice;
}.

Record Platform := {
  navigator_gpu : option (Completion (option GPUAdapter));
  profilingMode : string;
}.

Definition hasFeature (feature : string) (adapter : GPUAdapter) : bool :=
  bool_decide (feature ∈ adapterFeatures adapter).

Definition deviceDescriptor (adapter : GPUAdapter) (timestampQuery : bool) : GPUDeviceDescriptor :=
  {| requiredLimits :=
       {| maxComputeWorkgroupStorageSize := maxComputeWorkgroupStorageSize (adapterLimits adapter);
          maxComputeWorkgroupsPerDimension := maxComputeWorkgroupsPerDimension (adapterLimits adapter);
          maxStorageBufferBindingSize := maxStorageBufferBindingSize (adapterLimits adapter) |};
     requiredFeatures := if timestampQuery then ["timestamp-query"] else [] |}.

(** [initialize] of the JSEP backend, on a backend object just
    constructed: the result is the object once its fields are assigned;
    [temporaryData] is not among them.  [threshold] is the constant of the
    program manager's file. *)
Definition initialize (threshold : nat) (p : Platform) : Completion WebGpuBackend :=
  match navigator_gpu p with
  | None => Abrupt WebGpuNotAvailable
  | Some (Abrupt e) => Abrupt e
  | Some (Normal None) => Abrupt FailedToGetGpuAdapter
  | Some (Normal (Some adapter)) =>
      let profiling := hasFeature "timestamp-query" adapter && String.eqb (profilingMode p) "default" in
      match requestDevice adapter (deviceDescriptor adapter profiling) with
      | Abrupt e => Abrupt e
      | Normal d =>
          Normal
            {| device := if profiling then createQuerySet d else d;
               gpuDataManager := {| storageCache := ∅; buffersPending := [] |};
               programManager := {| repo := ∅; builds := 0; dispatched := [];
                                    flushThreshold := threshold |};
               temporaryData := None;
               currentKernelId := None;
               kernelPersistentData := ∅;
               kernels := ∅;
               commandEncoder := None;
               computePassEncoder := None;
               pendingDispatchNumber := 0;
               profilingEnabled := profiling;
               profilingQuerySet := if profiling then Some (querySets d) else None |}
      end
  end.

(** ** The onnxjs backend *)

Module Onnxjs.

Record WebGpuBackend := {
  device : GPUDevice;
  gpuDataManager : GpuDataManager;
  commandEncoder : option GPUCommandEncoder;
  computePassEncoder : option GPUComputePassEncoder;
  pendingDispatchNumber : nat;
  supportProfiling : bool;
  querySet : option nat;
}.

Definition withDevice (x : GPUDevice) (s : WebGpuBackend) : WebGpuBackend :=
  {| device := x; gpuDataManager := gpuDataManager s; commandEncoder := commandEncoder s;
     computePassEncoder := computePassEncoder s;
     pendingDispatchNumber := pendingDispatchNumber s;
     supportProfiling := supportProfiling s; querySet := querySet s |}.

Definition withCommandEncoder (x : option GPUCommandEncoder) (s : WebGpuBackend)
  : WebGpuBackend :=
  {| device := device s; gpuDataManager := gpuDataManager s; commandEncoder := x;
     computePassEncoder := computePassEncoder s;
     pendingDispatchNumber := pendingDispatchNumber s;
     supportProfiling := supportProfiling s; querySet := querySet s |}.

Definition withComputePassEncoder (x : option GPUComputePassEncoder) (s : WebGpuBackend)
  : WebGpuBackend :=
  {| device := device s; gpuDataManager := gpuDataManager s;
     commandEncoder := commandEncoder s; computePassEncoder := x;
     pendingDispatchNumber := pendingDispatchNumber s;
     supportProfiling := supportProfiling s; querySet := querySet s |}.

Definition withPendingDispatchNumber (x : nat) (s : WebGpuBackend) : WebGpuBackend :=
  {| device := device s; gpuDataManager := gpuDataManager s;
     commandEncoder := commandEncoder s; computePassEncoder := computePassEncoder s;
     pendingDispatchNumber := x;
     supportProfiling := supportProfiling s; querySet := querySet s |}.

(** The [try] block of [initialize], on a backend object just
    constructed; the logger calls and
    [setMaxComputeWorkgroupsPerDimension], which set state outside the
    backend object, are left out. *)
Definition initializeBody (p : Platform) : Completion (bool * option WebGpuBackend) :=
  match navigator_gpu p with
  | None => Normal (false, None)
  | Some (Abrupt e) => Abrupt e
  | Some (Normal None) => Normal (false, None)
  | Some (Normal (Some adapter)) =>
      let profiling := hasFeature "timestamp-query" adapter in
      match requestDevice adapter (deviceDescriptor adapter profiling) with
      | Abrupt e => Abrupt e
      | Normal d =>
          Normal (true,
                  Some {| device := if profiling then createQuerySet d else d;
                          gpuDataManager := {| storageCache := ∅; buffersPending := [] |};
                          commandEncoder := None;
                          computePassEncoder := None;
                          pendingDispatchNumber := 0;
                          supportProfiling := profiling;
                          querySet := if profiling then Some (querySets d) else None |})
      end
  end.

(** [try { ... } catch (e) { Logger.warning(...); return false; }] *)
Definition initialize (p : Platform) : Completion (bool * option WebGpuBackend) :=
  match initializeBody p with
  | Abrupt _ => Normal (false, None)
  | Normal r => Normal r
  end.

Definition getCommandEncoder (s : WebGpuBackend) : GPUCommandEncoder * WebGpuBackend :=
  match commandEncoder s with
  | Some e => (e, s)
  | None =>
      let '(e, d) := createCommandEncoder (device s) in
      (e, withCommandEncoder (Some e) (withDevice d s))
  end.

Definition getComputePassEncoder (s : WebGpuBackend) : GPUComputePassEncoder * WebGpuBackend :=
  match computePassEncoder s with
  | Some p => (p, s)
  | None =>
      let '(e, s1) := getCommandEncoder s in
      let '(p, d) := beginComputePass e (device s1) in
      (p, withComputePassEncoder (Some p) (withDevice d s1))
  end.

Definition endComputePass (s : WebGpuBackend) : WebGpuBackend :=
  match computePassEncoder s with
  | Some p => withComputePassEncoder None (withDevice (passEnd p (device s)) s)
  | None => s
  end.

(** [this.commandEncoder!.finish()] reads [finish] on null when no
    command encoder is open. *)
Definition flush (s : WebGpuBackend) : Completion unit * WebGpuBackend :=
  let s1 := endComputePass s in
  match commandEncoder s1 with
  | None => (Abrupt (TypeError "commandEncoder is null"), s1)
  | Some e =>
      let '(buffer, d) := finish e (device s1) in
      let s2 := withDevice (submit [buffer] d) s1 in
      let s3 := withCommandEncoder None s2 in
      (Normal tt, withPendingDispatchNumber 0 s3)
  end.

End Onnxjs.

(** ** Predicates of the statements *)

Definition keepsLive (m m' : GpuDataManager) : Prop := ∀ i, live i m → live i m'.

(** The buffers tracked as temporary: none while the field is
    [undefined]. *)
Definition tracked (s : WebGpuBackend) : list GpuData := default [] (temporaryData s).

(** The buffers tracked as temporary are distinct and live. *)
Definition tempsLive (s : WebGpuBackend) : Prop :=
  NoDup (map id (tracked s))
  ∧ ∀ d, d ∈ tracked s → live (id d) (gpuDataManager s).

(** What the statements ask of the output factories of a context:
    creating an output releases no buffer, and a temporary output is a
    buffer that was not live before. *)
Record WellBehaved (context : ComputeContext) : Prop := {
  kernelOutput_keeps : ∀ i t d m r m',
    createKernelOutput context i t d m = (r, m') → keepsLive m m';
  temporaryOutput_keeps : ∀ t d m r m',
    createTemporaryOutput context t d m = (r, m') → keepsLive m m';
  temporaryOutput_fresh : ∀ t d m tensorView m',
    createTemporaryOutput context t d m = (Normal tensorView, m') → ¬ live (data tensorView) m;
}.

(** From [s] to [s'] the bookkeeping only grew: same executing marker and
    kernels, live buffers still live, the tracked temporaries extended by
    buffers that were not live in [s], every kernel's persistent list
    extended. *)
Definition grows (s s' : WebGpuBackend) : Prop :=
  currentKernelId s' = currentKernelId s
  ∧ kernels s' = kernels s
  ∧ keepsLive (gpuDataManager s) (gpuDataManager s')
  ∧ (∃ more, temporaryData s' = (λ l, l ++ more) <$> temporaryData s
             ∧ ∀ d, d ∈ more → ¬ live (id d) (gpuDataManager s))
  ∧ (∀ k l, kernelPersistentData s !! k = Some l →
            ∃ more, kernelPersistentData s' !! k = Some (l ++ more)).

(** The recording session and the program cache are those of [s]. *)
Definition sameSession (s s' : WebGpuBackend) : Prop :=
  device s' = device s
  ∧ programManager s' = programManager s
  ∧ commandEncoder s' = commandEncoder s
  ∧ computePassEncoder s' = computePassEncoder s
  ∧ pendingDispatchNumber s' = pendingDispatchNumber s.

(** A call a kernel entry makes into the backend: the arguments, the
    backend before it, what it returned or threw, the backend after it. *)
Inductive Call :=
| RunCall (program : Program) (inputs : list TensorView) (outputIndices : list JsNumber)
    (before : WebGpuBackend) (r : Completion (list TensorView)) (after : WebGpuBackend)
| InvokeCall (kernelId : Z) (context : ComputeContext)
    (before : WebGpuBackend) (r : Completion Z) (after : WebGpuBackend).

Definition callBefore (c : Call) : WebGpuBackend :=
  match c with RunCall _ _ _ s _ _ | InvokeCall _ _ s _ _ => s end.

Definition callAfter (c : Call) : WebGpuBackend :=
  match c with RunCall _ _ _ _ _ s | InvokeCall _ _ _ _ s => s end.

(** [Makes invoke context body s c]: the kernel entry [body], started in
    the state [s], makes the call [c] at some point of its execution. *)
Inductive Makes
    (invoke : Z → ComputeContext → WebGpuBackend → option (Completion Z * WebGpuBackend))
    (context : ComputeContext) : KernelBody → WebGpuBackend → Call → Prop :=
| makes_run program inputs outputIndices k s r s1 :
    run program inputs outputIndices
      (createKernelOutput context) (createTemporaryOutput context) s = (r, s1) →
    Makes invoke context (Compute program inputs outputIndices k) s
      (RunCall program inputs outputIndices s r s1)
| makes_invoke kernelId context' k s r s1 :
    invoke kernelId context' s = Some (r, s1) →
    Makes invoke context (Invoke kernelId context' k) s
      (InvokeCall kernelId context' s r s1)
| makes_after_run program inputs outputIndices k s r s1 c :
    run program inputs outputIndices
      (createKernelOutput context) (createTemporaryOutput context) s = (r, s1) →
    Makes invoke context (k r) s1 c →
    Makes invoke context (Compute program inputs outputIndices k) s c
| makes_after_invoke kernelId context' k s r s1 c :
    invoke kernelId context' s = Some (r, s1) →
    Makes invoke context (k r) s1 c →
    Makes invoke context (Invoke kernelId context' k) s c.

(** A context whose outputs are buffers it creates in the registry. *)
Definition freshOutput (dataType : Z) (dims : list Z) (m : GpuDataManager)
  : Completion TensorView * GpuDataManager :=
  let '(d, m') := gdm_create (foldr Z.mul 4%Z dims) m in
  (Normal {| data := id d; dataType := dataType; dims := dims |}, m').

Definition allocatingContext : ComputeContext :=
  {| createKernelOutput := λ _, freshOutput; createTemporaryOutput := freshOutput |}.

(** The design document's words for the output slots a caller may
    request of a program with [n] declared outputs: a declared index 0,
    ..., n-1, or one of the two markers, -2 (temporary) and -1
    (persistent).  Any other value is outside the declared range. *)
Definition withinDeclaredRange (n : nat) (index : JsNumber) : Prop :=
  ∃ z, index = JsInt z ∧ (-2 ≤ z < Z.of_nat n)%Z.

Definition outsideDeclaredRange (n : nat) (index : JsNumber) : Prop :=
  ∀ z, index = JsInt z → (z < -2)%Z ∨ (Z.of_nat n ≤ z)%Z.

(** The claim's words for a [run] without requested slots: one kernel
    output per declared output, requested with the indices i, i+1, ... in
    declaration order, each from the registry the one before left. *)
Fixpoint kernelOutputsInOrder
    (createKernelOutput : Z → Z → list Z → GpuDataManager → Completion TensorView * GpuDataManager)
    (i : nat) (outs : list OutputInfo) (m : GpuDataManager)
  : Completion (list TensorView) * GpuDataManager :=
  match outs with
  | [] => (Normal [], m)
  | o :: outs' =>
      match createKernelOutput (Z.of_nat i) (outDataType o) (outDims o) m with
      | (Abrupt e, m') => (Abrupt e, m')
      | (Normal tensorView, m') =>
          match kernelOutputsInOrder createKernelOutput (S i) outs' m' with
          | (Abrupt e, m'') => (Abrupt e, m'')
          | (Normal tensorViews, m'') => (Normal (tensorView :: tensorViews), m'')
          end
      end
  end.

(** ** Well-formed recordings *)

(** How a sequence of recorded commands stands as compute passes, read
    from the left with [inPass] telling whether a pass is open:
    [Some false] when every pass begun is ended, [Some true] when the last
    pass is still open, [None] when a pass begins inside a pass or a
    dispatch or an end comes outside one. *)
Fixpoint passState (inPass : bool) (cmds : list GPUCommand) : option bool :=
  match cmds with
  | [] => Some inPass
  | BeginComputePass :: rest => if inPass then None else passState true rest
  | DispatchWorkgroups _ _ _ _ :: rest => if inPass then passState true rest else None
  | EndPass :: rest => if inPass then passState false rest else None
  end.

Definition closedBuffer (buffer : GPUCommandBuffer) : Prop :=
  passState false buffer = Some false.

(** The recording session of a backend whose device is [d] and whose
    fields [commandEncoder] and [computePassEncoder] are [encoder] and
    [pass]: every command buffer submitted so far is closed; without an
    encoder no pass is open; the open encoder is recording in the device,
    and either no pass is open and what it recorded is closed, or the open
    pass was begun on it and is the one pass open in what it recorded. *)
Definition sessionOK (d : GPUDevice) (encoder : option GPUCommandEncoder)
    (pass : option GPUComputePassEncoder) : Prop :=
  Forall (Forall closedBuffer) (queue d)
  ∧ match encoder with
    | None => pass = None
    | Some e =>
        ∃ cmds, encoders d !! e = Some cmds
                ∧ ((pass = None ∧ passState false cmds = Some false)
                   ∨ (pass = Some e ∧ passState false cmds = Some true))
    end.

Definition backendSessionOK (s : WebGpuBackend) : Prop :=
  sessionOK (device s) (commandEncoder s) (computePassEncoder s).

Definition onnxjsSessionOK (s : Onnxjs.WebGpuBackend) : Prop :=
  sessionOK (Onnxjs.device s) (Onnxjs.commandEncoder s) (Onnxjs.computePassEncoder s).

(** ** Strings without a given character *)

From Stdlib Require Import Ascii.

Fixpoint avoids (c : ascii) (s : string) : Prop :=
  match s with
  | EmptyString => True
  | String a rest => a ≠ c ∧ avoids c rest
  end.



(** ** Output slots by marker *)

Definition indexIs (marker : Z) (index : JsNumber) : bool :=
  match index with JsInt z => (z =? marker)%Z | JsNonInteger => false end.

(** The [data] of the tensors returned for the slots whose index is
    [marker], in slot order. *)
Fixpoint markedSlots (marker : Z) (indices : list JsNumber) (views : list TensorView)
  : list Z :=
  match indices, views with
  | index :: indices', view :: views' =>
      (if indexIs marker index then [data view] else [])
      ++ markedSlots marker indices' views'
  | _, _ => []
  end.

(** [temporaryData] went from [before] to [after] by pushing buffers
    with the ids [added], in that order; while the field is [undefined]
    nothing can be pushed. *)
Definition pushed (before after : option (list GpuData)) (added : list Z) : Prop :=
  match before with
  | Some l => ∃ l', after = Some l' ∧ map id l' = map id l ++ added
  | None => after = None ∧ added = []
  end.

(** ** Sample objects *)

Definition sampleLimits : GPULimits :=
  {| maxComputeWorkgroupStorageSize := 16384;
     maxComputeWorkgroupsPerDimension := 65535;
     maxStorageBufferBindingSize := 134217728 |}.

Definition sampleDevice : GPUDevice :=
  {| limits := sampleLimits; features := []; encoders := ∅; nextEncoder := 0;
     queue := []; querySets := 0 |}.

Definition sampleAdapter : GPUAdapter :=
  {| adapterLimits := sampleLimits; adapterFeatures := [];
     requestDevice := λ _, Normal sampleDevice |}.

Definition samplePlatform : Platform :=
  {| navigator_gpu := Some (Normal (Some sampleAdapter)); profilingMode := "off" |}.

Definition noGpuPlatform : Platform :=
  {| navigator_gpu := None; profilingMode := "off" |}.

(** A backend just initialised: nothing recorded, no kernel, no buffer. *)
Definition idleBackend : WebGpuBackend :=
  {| device := sampleDevice;
     gpuDataManager := {| storageCache := ∅; buffersPending := [] |};
     programManager := {| repo := ∅; builds := 0; dispatched := []; flushThreshold := 16 |};
     temporaryData := None;
     currentKernelId := None;
     kernelPersistentData := ∅;
     kernels := ∅;
     commandEncoder := None;
     computePassEncoder := None;
     pendingDispatchNumber := 0;
     profilingEnabled := false;
     profilingQuerySet := None |}.

Definition idleOnnxjsBackend : Onnxjs.WebGpuBackend :=
  {| Onnxjs.device := sampleDevice;
     Onnxjs.gpuDataManager := {| storageCache := ∅; buffersPending := [] |};
     Onnxjs.commandEncoder := None;
     Onnxjs.computePassEncoder := None;
     Onnxjs.pendingDispatchNumber := 0;
     Onnxjs.supportProfiling := false;
     Onnxjs.querySet := None |}.

(** A backend with a recording session open: one compute pass with one
    dispatch recorded. *)
Definition recordingDevice : GPUDevice :=
  {| limits := sampleLimits; features := [];
     encoders := {[ 0 := [BeginComputePass; DispatchWorkgroups 0 [1%Z] [2%Z] (1, 1, 1)%Z] ]};
     nextEncoder := 1; queue := []; querySets := 0 |}.

Definition recordingBackend : WebGpuBackend :=
  withPendingDispatchNumber 1
    (withComputePassEncoder (Some 0) (withCommandEncoder (Some 0)
       (withDevice recordingDevice idleBackend))).

Definition recordingOnnxjsBackend : Onnxjs.WebGpuBackend :=
  Onnxjs.withPendingDispatchNumber 1
    (Onnxjs.withComputePassEncoder (Some 0) (Onnxjs.withCommandEncoder (Some 0)
       (Onnxjs.withDevice recordingDevice idleOnnxjsBackend))).

(** Two input tensors whose buffers are registered, a program with two
    inputs and one output, and two kernels: "Outer" invokes "Inner" from
    inside its entry, then runs the program into a temporary output and
    returns, or throws what [run] threw; "Inner" just returns. *)
Definition tensorA : TensorView := {| data := 1%Z; dataType := 1%Z; dims := [2; 3]%Z |}.
Definition tensorB : TensorView := {| data := 2%Z; dataType := 1%Z; dims := [2; 3]%Z |}.

Definition addInfo : ProgramInfo :=
  {| metadata := {| name := "add"; cacheHint := None; inputTypes := [0; 0]%Z |};
     outputs := [ {| outDataType := 1%Z; outDims := [2; 3]%Z |} ];
     dispatchGroup := λ _, (1, 1, 1)%Z |}.

Definition addProgram : Program := Info addInfo.

Definition outerEntry : RunFunction := λ context _,
  Invoke 2%Z context (λ _,
    Compute addProgram [tensorA; tensorB] [JsInt (-2)] (λ r,
      match r with Normal _ => Return 0%Z | Abrupt e => Raise e end)).

Definition innerEntry : RunFunction := λ _ _, Return 0%Z.

(** "OneInput" runs the two-input program on one input; "Persist" runs it
    into a persistent output.  Both throw what [run] throws. *)
Definition rethrow (r : Completion (list TensorView)) : KernelBody :=
  match r with Normal _ => Return 0%Z | Abrupt e => Raise e end.

Definition oneInputEntry : RunFunction := λ _ _,
  Compute addProgram [tensorA] [JsInt 0] rethrow.

Definition persistEntry : RunFunction := λ _ _,
  Compute addProgram [tensorA; tensorB] [JsInt (-1)] rethrow.

Definition outerKernel : KernelInfo := ("Outer", outerEntry, (None, "")).
Definition innerKernel : KernelInfo := ("Inner", innerEntry, (None, "")).
Definition oneInputKernel : KernelInfo := ("OneInput", oneInputEntry, (None, "")).
Definition persistKernel : KernelInfo := ("Persist", persistEntry, (None, "")).

Definition twoBuffers : GpuDataManager :=
  {| storageCache := {[ 1%Z := {| cachedType := 0%Z; originalSize := 24%Z |};
                        2%Z := {| cachedType := 0%Z; originalSize := 24%Z |} ]};
     buffersPending := [] |}.

Definition kernelBackend : WebGpuBackend :=
  withKernels {[ 1%Z := outerKernel; 2%Z := innerKernel;
                  3%Z := oneInputKernel; 4%Z := persistKernel ]}
    (withGpuDataManager twoBuffers idleBackend).

(** The same backend while "Outer" executes, with one buffer tracked as
    temporary. *)
Definition busyBackend : WebGpuBackend :=
  withTemporaryData (Some [ {| type := 0%Z; id := 1%Z |} ])
    (withCurrentKernelId (Some 1%Z) kernelBackend).

(** The backend after one invocation of "Outer". *)
Definition afterOuter : WebGpuBackend :=
  match computeKernel 2 1 allocatingContext kernelBackend with
  | Some (_, s') => s'
  | None => kernelBackend
  end.

(** The backend after one invocation of "Persist", and the tensor its
    [run] created. *)
Definition afterPersist : WebGpuBackend :=
  match computeKernel 2 4 allocatingContext kernelBackend with
  | Some (_, s') => s'
  | None => kernelBackend
  end.


Definition tensorC : TensorView := {| data := 3%Z; dataType := 1%Z; dims := [2; 3]%Z |}.
Definition bufferC : GpuData := {| type := 0%Z; id := 3%Z |}.

(** The backend after a first [run] of the program into kernel output 0. *)
Definition afterFirstRun : WebGpuBackend :=
  (run addProgram [tensorA; tensorB] [JsInt 0]
     (createKernelOutput allocatingContext) (createTemporaryOutput allocatingContext)
     kernelBackend).2.

(** A platform whose adapter refuses to give a device. *)
Definition refusingAdapter : GPUAdapter :=
  {| adapterLimits := sampleLimits; adapterFeatures := ["timestamp-query"];
     requestDevice := λ _, Abrupt (OtherError "device lost") |}.

Definition refusingPlatform : Platform :=
  {| navigator_gpu := Some (Normal (Some refusingAdapter)); profilingMode := "default" |}.

(** A kernel whose attribute is still to be parsed, with a parser that
    returns ["parsed"], one whose parser throws, and a table of resolve
    rules with the one kernel name "Add". *)
Definition parsingKernel : KernelInfo :=
  ("Parse", innerEntry, (Some (λ _, Normal "parsed"), "raw")).

Definition throwingKernel : KernelInfo :=
  ("Throw", innerEntry, (Some (λ _, Abrupt (OtherError "bad attribute")), "raw")).

Definition parsingBackend : WebGpuBackend :=
  withKernels (<[5%Z := parsingKernel]> (<[6%Z := throwingKernel]> (kernels kernelBackend)))
    kernelBackend.

(** A kernel whose entry throws what the parser of "Throw" throws, beside
    the kernels above. *)
Definition raisingEntry : RunFunction := λ _ _, Raise (OtherError "bad attribute").

Definition raisingKernel : KernelInfo := ("Raise", raisingEntry, (None, "raw")).

Definition raisingBackend : WebGpuBackend :=
  withKernels (<[7%Z := raisingKernel]> (kernels parsingBackend)) parsingBackend.

Definition sampleRules (name : string) : option (RunFunction * option AttributeParser) :=
  if String.eqb name "Add" then Some (persistEntry, None) else None.

(** The backend after "Persist" ran once and its persistent buffer was
    then freed by the host. *)
Definition afterFree : WebGpuBackend := (free 3 afterPersist).2.

(** * Properties *)

(** ** Command batching *)

Lemma recorded_record h c d :
  is_Some (encoders d !! h) → recorded h (record h c d) = recorded h d ++ [c].
Proof.
  intros [cs Hcs]. unfold recorded, record. simpl.
  rewrite lookup_alter_eq, Hcs. reflexivity.
Qed.

Lemma endComputePass_closed s : computePassEncoder (endComputePass s) = None.
Proof. unfold endComputePass. destruct (computePassEncoder s) eqn:E; [reflexivity | exact E]. Qed.

Lemma endComputePass_commandEncoder s :
  commandEncoder (endComputePass s) = commandEncoder s.
Proof. unfold endComputePass. destruct (computePassEncoder s); reflexivity. Qed.

Lemma endComputePass_idle s : computePassEncoder s = None → endComputePass s = s.
Proof. unfold endComputePass. intros ->. reflexivity. Qed.

Lemma endComputePass_recorded s e :
  computePassEncoder s = Some e → is_Some (encoders (device s) !! e) →
  recorded e (device (endComputePass s)) = recorded e (device s) ++ [EndPass].
Proof.
  intros Hp He. unfold endComputePass. rewrite Hp. simpl.
  unfold passEnd. apply recorded_record, He.
Qed.

Lemma endComputePass_queue s : queue (device (endComputePass s)) = queue (device s).
Proof. unfold endComputePass. destruct (computePassEncoder s); reflexivity. Qed.

Lemma flush_open s e :
  commandEncoder s = Some e →
  flush s =
  withPendingDispatchNumber 0
    (withCommandEncoder None
       (withGpuDataManager (gdm_refreshPendingBuffers (gpuDataManager s))
          (withDevice
             (submit [recorded e (device (endComputePass s))]
                (setEncoders (delete e (encoders (device (endComputePass s))))
                   (device (endComputePass s))))
             (endComputePass s)))).
Proof.
  intros He. unfold flush, getCommandEncoder.
  rewrite endComputePass_commandEncoder, He. simpl.
  unfold endComputePass. destruct (computePassEncoder s); reflexivity.
Qed.

Lemma onnxjs_endComputePass_closed s :
  Onnxjs.computePassEncoder (Onnxjs.endComputePass s) = None.
Proof.
  unfold Onnxjs.endComputePass.
  destruct (Onnxjs.computePassEncoder s) eqn:E; [reflexivity | exact E].
Qed.

Lemma onnxjs_endComputePass_commandEncoder s :
  Onnxjs.commandEncoder (Onnxjs.endComputePass s) = Onnxjs.commandEncoder s.
Proof. unfold Onnxjs.endComputePass. destruct (Onnxjs.computePassEncoder s); reflexivity. Qed.

Lemma onnxjs_endComputePass_queue s :
  queue (Onnxjs.device (Onnxjs.endComputePass s)) = queue (Onnxjs.device s).
Proof. unfold Onnxjs.endComputePass. destruct (Onnxjs.computePassEncoder s); reflexivity. Qed.

Lemma onnxjs_endComputePass_recorded s e :
  Onnxjs.computePassEncoder s = Some e → is_Some (encoders (Onnxjs.device s) !! e) →
  recorded e (Onnxjs.device (Onnxjs.endComputePass s))
  = recorded e (Onnxjs.device s) ++ [EndPass].
Proof.
  intros Hp He. unfold Onnxjs.endComputePass. rewrite Hp. simpl.
  unfold passEnd. apply recorded_record, He.
Qed.

(** The onnxjs [flush] with no command encoder open does not return: it
    reads [finish] on null. *)
Lemma onnxjs_flush_no_session s :
  Onnxjs.commandEncoder s = None → Onnxjs.computePassEncoder s = None →
  Onnxjs.flush s = (Abrupt (TypeError "commandEncoder is null"), s).
Proof.
  intros He Hp. unfold Onnxjs.flush, Onnxjs.endComputePass. rewrite Hp, He. reflexivity.
Qed.

(** C7. [flush] with a recording session open (command encoder [e] in the
    JSEP backend, [e'] in the onnxjs backend): the compute pass, if one is
    open, is ended (a pass begun on the open encoder leaves its [EndPass]
    as the last recorded command); what was recorded into the encoder is
    submitted to the device queue as one command buffer; the
    pending-dispatch counter is zero and no command encoder and no compute
    pass remain open. *)
Theorem flush_submits_and_resets
    (s : WebGpuBackend) (e : GPUCommandEncoder)
    (t : Onnxjs.WebGpuBackend) (e' : GPUCommandEncoder) :
  commandEncoder s = Some e →
  Onnxjs.commandEncoder t = Some e' →
  (queue (device (flush s))
     = queue (device s) ++ [[recorded e (device (endComputePass s))]]
   ∧ (computePassEncoder s = None → endComputePass s = s)
   ∧ (computePassEncoder s = Some e → is_Some (encoders (device s) !! e) →
      recorded e (device (endComputePass s)) = recorded e (device s) ++ [EndPass])
   ∧ computePassEncoder (flush s) = None
   ∧ pendingDispatchNumber (flush s) = 0
   ∧ commandEncoder (flush s) = None)
  ∧
  (∃ t', Onnxjs.flush t = (Normal tt, t')
   ∧ queue (Onnxjs.device t')
     = queue (Onnxjs.device t) ++ [[recorded e' (Onnxjs.device (Onnxjs.endComputePass t))]]
   ∧ (Onnxjs.computePassEncoder t = None → Onnxjs.endComputePass t = t)
   ∧ (Onnxjs.computePassEncoder t = Some e' → is_Some (encoders (Onnxjs.device t) !! e') →
      recorded e' (Onnxjs.device (Onnxjs.endComputePass t))
      = recorded e' (Onnxjs.device t) ++ [EndPass])
   ∧ Onnxjs.computePassEncoder t' = None
   ∧ Onnxjs.pendingDispatchNumber t' = 0
   ∧ Onnxjs.commandEncoder t' = None).
Proof.
  intros He He'. split.
  - rewrite (flush_open s e He). simpl.
    split; [by rewrite endComputePass_queue |].
    split; [apply endComputePass_idle |].
    split; [apply endComputePass_recorded |].
    split; [apply endComputePass_closed |].
    split; reflexivity.
  - unfold Onnxjs.flush.
    rewrite onnxjs_endComputePass_commandEncoder, He'. simpl.
    eexists. split; [reflexivity |]. simpl.
    split; [by rewrite onnxjs_endComputePass_queue |].
    split; [unfold Onnxjs.endComputePass; by intros -> |].
    split; [apply onnxjs_endComputePass_recorded |].
    split; [apply onnxjs_endComputePass_closed |].
    split; reflexivity.
Qed.

(** C4, as the code has it.  In the JSEP backend, [flush] with no
    recording session open (no command encoder, hence no compute pass)
    opens a command encoder, finishes it at once and submits the resulting
    command buffer, which holds no command; it refreshes the pending
    buffers of the buffer registry; afterwards no session is open, the
    pending-dispatch counter is zero, and the kernels, the executing
    marker, the tracked buffers and the program cache are as before. *)
Theorem flush_without_session (s : WebGpuBackend) :
  commandEncoder s = None →
  computePassEncoder s = None →
  queue (device (flush s)) = queue (device s) ++ [[[]]]
  ∧ gpuDataManager (flush s) = gdm_refreshPendingBuffers (gpuDataManager s)
  ∧ commandEncoder (flush s) = None
  ∧ computePassEncoder (flush s) = None
  ∧ pendingDispatchNumber (flush s) = 0
  ∧ kernels (flush s) = kernels s
  ∧ currentKernelId (flush s) = currentKernelId s
  ∧ temporaryData (flush s) = temporaryData s
  ∧ kernelPersistentData (flush s) = kernelPersistentData s
  ∧ programManager (flush s) = programManager s.
Proof.
  intros He Hp. unfold flush, endComputePass, getCommandEncoder.
  rewrite Hp, He. simpl. unfold recorded. simpl.
  rewrite lookup_insert_eq. simpl. rewrite Hp. repeat split.
Qed.

Lemma flush_submits_and_resets_witness :
  queue (device (flush recordingBackend))
    = [[[BeginComputePass; DispatchWorkgroups 0 [1%Z] [2%Z] (1, 1, 1)%Z; EndPass]]]
  ∧ pendingDispatchNumber (flush recordingBackend) = 0
  ∧ commandEncoder (flush recordingBackend) = None
  ∧ fst (Onnxjs.flush recordingOnnxjsBackend) = Normal tt.
Proof.
  pose proof (flush_submits_and_resets recordingBackend 0 recordingOnnxjsBackend 0
                eq_refl eq_refl) as [(Hq & _ & Hr & _ & Hn & Hc) (t' & Ht & _)].
  split; [| split; [exact Hn | split; [exact Hc | by rewrite Ht]]].
  rewrite Hq, (Hr eq_refl); [reflexivity |].
  vm_compute. eauto.
Defined.

Lemma flush_without_session_witness :
  queue (device (flush idleBackend)) = [[[]]] ∧ commandEncoder (flush idleBackend) = None.
Proof.
  pose proof (flush_without_session idleBackend eq_refl eq_refl) as (Hq & _ & Hc & _).
  split; [exact Hq | exact Hc].
Defined.

(** C4 as stated fails: on a backend with no recording session open,
    [flush] makes a submission to the device queue, so the state is not
    what it was. *)
Lemma idle_flush_submits :
  commandEncoder idleBackend = None
  ∧ computePassEncoder idleBackend = None
  ∧ queue (device idleBackend) = []
  ∧ queue (device (flush idleBackend)) = [[[]]]
  ∧ flush idleBackend ≠ idleBackend.
Proof.
  repeat split.
  intros H. apply (f_equal (λ s, queue (device s))) in H. vm_compute in H. discriminate.
Qed.

(** ** The buffer registry *)

Lemma live_dom i m : live i m ↔ i ∈ dom (storageCache m).
Proof. unfold live. by rewrite elem_of_dom. Qed.

Lemma gdm_get_Some i m d : gdm_get i m = Some d → live i m ∧ id d = i.
Proof.
  unfold gdm_get, live. destruct (storageCache m !! i) eqn:E; simpl; [| done].
  intros [= <-]. eauto.
Qed.

Lemma gdm_get_live i m : live i m → is_Some (gdm_get i m).
Proof. unfold gdm_get, live. intros [c ->]. simpl. eauto. Qed.

Lemma gdm_create_fresh size m : ¬ live (id (gdm_create size m).1) m.
Proof. rewrite live_dom. simpl. apply is_fresh. Qed.

Lemma gdm_create_live size m : live (id (gdm_create size m).1) (gdm_create size m).2.
Proof. unfold live. simpl. rewrite lookup_insert_eq. eauto. Qed.

Lemma gdm_create_keeps size m : keepsLive m (gdm_create size m).2.
Proof.
  intros i Hi. unfold live in *. simpl.
  destruct (decide (fresh (dom (storageCache m)) = i)) as [-> | Hne].
  - rewrite lookup_insert_eq. eauto.
  - by rewrite lookup_insert_ne.
Qed.

Lemma keepsLive_refl m : keepsLive m m.
Proof. intros i Hi. exact Hi. Qed.

Lemma keepsLive_trans m1 m2 m3 : keepsLive m1 m2 → keepsLive m2 m3 → keepsLive m1 m3.
Proof. intros H1 H2 i Hi. eauto. Qed.

Lemma releaseEach_ok datas m :
  NoDup (map id datas) →
  (∀ d, d ∈ datas → live (id d) m) →
  ∃ m', releaseEach datas m = (Normal tt, m')
        ∧ (∀ d, d ∈ datas → ¬ live (id d) m')
        ∧ (∀ i, i ∉ map id datas → storageCache m' !! i = storageCache m !! i).
Proof.
  revert m. induction datas as [| d datas IH]; intros m Hnd Hlive.
  - exists m. split; [reflexivity |]. split; [| done].
    intros d Hd. by apply elem_of_nil in Hd.
  - simpl in Hnd. apply NoDup_cons in Hnd as [Hnotin Hnd].
    destruct (Hlive d) as [c Hc]; [left |].
    simpl. unfold gdm_release. rewrite Hc.
    set (m1 := {| storageCache := delete (id d) (storageCache m);
                  buffersPending := buffersPending m ++ [id d] |}).
    destruct (IH m1 Hnd) as (m' & Hrel & Hgone & Hsame).
    + intros d' Hd'. unfold live. simpl.
      rewrite lookup_delete_ne.
      * apply Hlive. by right.
      * intros Heq. apply Hnotin. rewrite Heq. apply list_elem_of_fmap. eauto.
    + exists m'. split; [exact Hrel |]. split.
      * intros d' Hd'. apply elem_of_cons in Hd' as [-> | Hd']; [| by apply Hgone].
        unfold live. rewrite Hsame; [| exact Hnotin]. simpl.
        rewrite lookup_delete_eq. by intros [? ?].
      * intros i Hi. apply not_elem_of_cons in Hi as [Hne Hi].
        rewrite Hsame; [| exact Hi]. simpl. by rewrite lookup_delete_ne.
Qed.

(** ** What the batching methods leave alone *)

Lemma getCommandEncoder_frame s :
  let s' := (getCommandEncoder s).2 in
  gpuDataManager s' = gpuDataManager s ∧ programManager s' = programManager s
  ∧ temporaryData s' = temporaryData s ∧ currentKernelId s' = currentKernelId s
  ∧ kernels s' = kernels s ∧ kernelPersistentData s' = kernelPersistentData s
  ∧ pendingDispatchNumber s' = pendingDispatchNumber s.
Proof. unfold getCommandEncoder. destruct (commandEncoder s); simpl; repeat split. Qed.

Lemma getComputePassEncoder_frame s :
  let s' := (getComputePassEncoder s).2 in
  gpuDataManager s' = gpuDataManager s ∧ programManager s' = programManager s
  ∧ temporaryData s' = temporaryData s ∧ currentKernelId s' = currentKernelId s
  ∧ kernels s' = kernels s ∧ kernelPersistentData s' = kernelPersistentData s
  ∧ pendingDispatchNumber s' = pendingDispatchNumber s.
Proof.
  unfold getComputePassEncoder. destruct (computePassEncoder s); simpl; [repeat split |].
  pose proof (getCommandEncoder_frame s) as H.
  destruct (getCommandEncoder s) as [e s1]. simpl in *. exact H.
Qed.

Lemma flush_frame s :
  storageCache (gpuDataManager (flush s)) = storageCache (gpuDataManager s)
  ∧ programManager (flush s) = programManager s
  ∧ temporaryData (flush s) = temporaryData s
  ∧ currentKernelId (flush s) = currentKernelId s
  ∧ kernels (flush s) = kernels s
  ∧ kernelPersistentData (flush s) = kernelPersistentData s.
Proof.
  unfold flush.
  pose proof (getCommandEncoder_frame (endComputePass s)) as H.
  destruct (getCommandEncoder (endComputePass s)) as [e s2]. simpl in *.
  destruct H as (-> & -> & -> & -> & -> & -> & _).
  unfold endComputePass. destruct (computePassEncoder s); simpl; repeat split.
Qed.

Lemma programManager_run_frame a inputs outputs groups s :
  let s' := programManager_run a inputs outputs groups s in
  storageCache (gpuDataManager s') = storageCache (gpuDataManager s)
  ∧ programManager s' = noteDispatch a (programManager s)
  ∧ temporaryData s' = temporaryData s
  ∧ currentKernelId s' = currentKernelId s
  ∧ kernels s' = kernels s
  ∧ kernelPersistentData s' = kernelPersistentData s.
Proof.
  unfold programManager_run.
  pose proof (getComputePassEncoder_frame s) as H.
  destruct (getComputePassEncoder s) as [p s1]. simpl in *.
  destruct H as (Hg & Hp & Ht & Hc & Hk & Hd & _).
  match goal with |- context [if ?b then _ else _] => destruct b end.
  - match goal with |- context [flush ?x] => pose proof (flush_frame x) as Hf end.
    simpl in Hf. destruct Hf as (-> & -> & -> & -> & -> & ->).
    rewrite Hg, Hp, Ht, Hc, Hk, Hd. repeat split.
  - simpl. rewrite Hg, Hp, Ht, Hc, Hk, Hd. repeat split.
Qed.

(** ** [run] only adds to the bookkeeping *)

Lemma extend_nil {A} (o : option (list A)) : (λ l, l ++ []) <$> o = o.
Proof. destruct o; simpl; [by rewrite app_nil_r | done]. Qed.

Lemma extend_app {A} (o : option (list A)) t1 t2 :
  (λ l, l ++ t2) <$> ((λ l, l ++ t1) <$> o) = (λ l, l ++ (t1 ++ t2)) <$> o.
Proof. destruct o; simpl; [by rewrite app_assoc | done]. Qed.

Lemma tracked_assigned s l : temporaryData s = Some l → tracked s = l.
Proof. unfold tracked. by intros ->. Qed.

Lemma tracked_extend s s' more :
  temporaryData s' = (λ l, l ++ more) <$> temporaryData s →
  ∃ more', tracked s' = tracked s ++ more' ∧ ∀ d, d ∈ more' → d ∈ more.
Proof.
  unfold tracked. intros ->. destruct (temporaryData s); simpl.
  - by exists more.
  - exists []. split; [done |]. intros d Hd. by apply elem_of_nil in Hd.
Qed.

Lemma grows_refl s : grows s s.
Proof.
  repeat split; [apply keepsLive_refl | |].
  - exists []. split; [by rewrite extend_nil |]. intros d Hd. by apply elem_of_nil in Hd.
  - intros k l Hl. exists []. by rewrite app_nil_r.
Qed.

Lemma grows_trans s1 s2 s3 : grows s1 s2 → grows s2 s3 → grows s1 s3.
Proof.
  intros (Hc1 & Hk1 & Hl1 & (t1 & Ht1 & Hf1) & Hp1) (Hc2 & Hk2 & Hl2 & (t2 & Ht2 & Hf2) & Hp2).
  split; [congruence |]. split; [congruence |].
  split; [eapply keepsLive_trans; eauto |]. split.
  - exists (t1 ++ t2). split; [by rewrite Ht2, Ht1, extend_app |].
    intros d Hd. apply elem_of_app in Hd as [Hd | Hd]; [by apply Hf1 |].
    intros Hlive. apply (Hf2 d Hd). by apply Hl1.
  - intros k l Hl. destruct (Hp1 k l Hl) as [m1 Hm1].
    destruct (Hp2 k _ Hm1) as [m2 Hm2]. exists (m1 ++ m2). by rewrite app_assoc.
Qed.

Lemma grows_same s s1 s2 :
  grows s s1 →
  storageCache (gpuDataManager s2) = storageCache (gpuDataManager s1) →
  temporaryData s2 = temporaryData s1 →
  currentKernelId s2 = currentKernelId s1 →
  kernels s2 = kernels s1 →
  kernelPersistentData s2 = kernelPersistentData s1 →
  grows s s2.
Proof.
  intros (Hc & Hk & Hl & Ht & Hp) Hg' Ht' Hc' Hk' Hp'.
  unfold grows, keepsLive, live in *. rewrite Hg', Ht', Hc', Hk', Hp'. done.
Qed.

Lemma tempsLive_same s1 s2 :
  tempsLive s1 →
  storageCache (gpuDataManager s2) = storageCache (gpuDataManager s1) →
  temporaryData s2 = temporaryData s1 →
  tempsLive s2.
Proof. unfold tempsLive, tracked, live. intros H Hg Ht. by rewrite Hg, Ht. Qed.

Lemma grows_temporaryData s s' d : grows s s' → d ∈ tracked s → d ∈ tracked s'.
Proof.
  intros (_ & _ & _ & (more & Hmore & _) & _) Hd.
  destruct (tracked_extend _ _ _ Hmore) as (more' & -> & _). apply elem_of_app. by left.
Qed.

Lemma grows_assigned s s' : grows s s' → is_Some (temporaryData s) → is_Some (temporaryData s').
Proof. intros (_ & _ & _ & (more & -> & _) & _) [l ->]. simpl. eauto. Qed.

Lemma createOutput_grows context count o index s r s' :
  WellBehaved context → tempsLive s →
  createOutput count o index (createKernelOutput context) (createTemporaryOutput context) s
    = (r, s') →
  tempsLive s' ∧ grows s s' ∧ sameSession s s'.
Proof.
  intros HW [Hnd Hlive]. unfold createOutput.
  destruct (invalidOutputIndex count index).
  { intros [= <- <-]. split; [done |]. split; [apply grows_refl | repeat split]. }
  set (isT := (indexValue index =? -2)%Z). set (isP := (indexValue index =? -1)%Z).
  assert (Hexcl : isT = true → isP = false).
  { unfold isT, isP. intros H%Z.eqb_eq. rewrite H. reflexivity. }
  destruct (if isT || isP
            then createTemporaryOutput context (outDataType o) (outDims o) (gpuDataManager s)
            else createKernelOutput context (indexValue index) (outDataType o) (outDims o)
                   (gpuDataManager s)) as [created m] eqn:Hcall.
  assert (Hkeep : keepsLive (gpuDataManager s) m).
  { destruct (isT || isP).
    - eapply temporaryOutput_keeps; eauto.
    - eapply kernelOutput_keeps; eauto. }
  assert (Hbase : tempsLive (withGpuDataManager m s)
                  ∧ grows s (withGpuDataManager m s)
                  ∧ sameSession s (withGpuDataManager m s)).
  { split; [split; [exact Hnd | intros d Hd; simpl; by apply Hkeep, Hlive] |].
    split; [| repeat split].
    split; [reflexivity |]. split; [reflexivity |]. split; [exact Hkeep |]. split.
    - exists []. simpl. split; [by rewrite extend_nil |].
      intros d Hd. by apply elem_of_nil in Hd.
    - intros k l Hl. exists []. simpl. by rewrite app_nil_r. }
  destruct created as [tensorView | e]; [| by intros [= <- <-]].
  destruct (gdm_get (data tensorView) m) as [gpuData |] eqn:Hget; [| by intros [= <- <-]].
  apply gdm_get_Some in Hget as [Hlv Hid].
  destruct isT eqn:HT.
  - rewrite (Hexcl eq_refl). simpl in Hcall. unfold pushTemporary. simpl.
    destruct (temporaryData s) as [l |] eqn:Htemp; [| by intros [= <- <-]].
    intros [= <- <-].
    assert (Hl : tracked s = l) by by apply tracked_assigned.
    rewrite Hl in Hnd, Hlive.
    assert (Hfresh : ¬ live (id gpuData) (gpuDataManager s)).
    { rewrite Hid. eapply temporaryOutput_fresh; eauto. }
    split; [| split; [| repeat split]].
    + split; unfold tracked; simpl.
      * rewrite map_app. simpl. apply NoDup_app. split; [exact Hnd |]. split.
        -- intros i Hi Hi'. apply list_elem_of_singleton in Hi'. subst i.
           apply list_elem_of_fmap in Hi as (d & Hd1 & Hd2).
           apply Hfresh. rewrite Hd1. by apply Hlive.
        -- apply NoDup_singleton.
      * intros d Hd. apply elem_of_app in Hd as [Hd | Hd].
        -- by apply Hkeep, Hlive.
        -- apply list_elem_of_singleton in Hd. subst d. by rewrite Hid.
    + split; [reflexivity |]. split; [reflexivity |]. split; [exact Hkeep |]. split.
      * exists [gpuData]. simpl. rewrite Htemp. split; [reflexivity |].
        intros d Hd. apply list_elem_of_singleton in Hd. by subst d.
      * intros k l' Hl'. exists []. simpl. by rewrite app_nil_r.
  - intros [= <- <-]. destruct isP eqn:HP; [| exact Hbase].
    destruct Hbase as (Htl & Hgr & Hss).
    split; [exact Htl |]. split; [| exact Hss].
    destruct Hgr as (Hc & Hk & Hl & Ht & Hp).
    split; [exact Hc |]. split; [exact Hk |]. split; [exact Hl |]. split; [exact Ht |].
    intros k l Hkl. unfold pushPersistent. simpl.
    destruct (decide (currentKernelId s = k)) as [-> | Hne].
    + rewrite lookup_insert_eq, Hkl. simpl. eauto.
    + rewrite lookup_insert_ne; [| exact Hne]. exists []. by rewrite app_nil_r.
Qed.

Lemma sameSession_refl s : sameSession s s.
Proof. repeat split. Qed.

Lemma sameSession_trans s1 s2 s3 : sameSession s1 s2 → sameSession s2 s3 → sameSession s1 s3.
Proof. unfold sameSession. intros (? & ? & ? & ? & ?) (? & ? & ? & ? & ?). repeat split; congruence. Qed.

Lemma createOutputs_grows context count outs indices s r s' :
  WellBehaved context → tempsLive s →
  createOutputs count outs indices (createKernelOutput context) (createTemporaryOutput context) s
    = (r, s') →
  tempsLive s' ∧ grows s s' ∧ sameSession s s'.
Proof.
  intros HW. revert indices s r s'.
  induction outs as [| o outs IH]; intros indices s r s' Htl; simpl.
  { intros [= <- <-]. split; [done |]. split; [apply grows_refl | apply sameSession_refl]. }
  destruct (createOutput count o (hd JsNonInteger indices) (createKernelOutput context)
              (createTemporaryOutput context) s) as [r1 s1] eqn:H1.
  destruct (createOutput_grows _ _ _ _ _ _ _ HW Htl H1) as (Htl1 & Hg1 & Hs1).
  destruct r1 as [[tensorView gpuData] | e]; [| by intros [= <- <-]].
  destruct (createOutputs count outs (tl indices) (createKernelOutput context)
              (createTemporaryOutput context) s1) as [r2 s2] eqn:H2.
  destruct (IH _ _ _ _ Htl1 H2) as (Htl2 & Hg2 & Hs2).
  assert (tempsLive s2 ∧ grows s s2 ∧ sameSession s s2) as Hres.
  { split; [done |]. split; [eapply grows_trans; eauto | eapply sameSession_trans; eauto]. }
  destruct r2 as [[views datas] | e]; by intros [= <- <-].
Qed.

Lemma ensureArtifact_frame artifact key info s :
  let s' := (ensureArtifact artifact key info s).2 in
  gpuDataManager s' = gpuDataManager s ∧ temporaryData s' = temporaryData s
  ∧ currentKernelId s' = currentKernelId s ∧ kernels s' = kernels s
  ∧ kernelPersistentData s' = kernelPersistentData s.
Proof. unfold ensureArtifact. destruct artifact; simpl; repeat split. Qed.

Lemma run_grows context program inputs outputIndices s r s' :
  WellBehaved context → tempsLive s →
  run program inputs outputIndices (createKernelOutput context) (createTemporaryOutput context) s
    = (r, s') →
  tempsLive s' ∧ grows s s'.
Proof.
  intros HW Htl. unfold run.
  destruct (negb _); [intros [= <- <-]; split; [done | apply grows_refl] |].
  destruct (inputGpuData _ _) as [inputDatas | e];
    [| intros [= <- <-]; split; [done | apply grows_refl]].
  destruct (negb _); [intros [= <- <-]; split; [done | apply grows_refl] |].
  match goal with |- context [createOutputs ?c ?o ?i _ _ s] =>
    destruct (createOutputs c o i (createKernelOutput context) (createTemporaryOutput context) s)
      as [r1 s1] eqn:H1 end.
  destruct (createOutputs_grows _ _ _ _ _ _ _ HW Htl H1) as (Htl1 & Hg1 & _).
  destruct r1 as [[views datas] | e]; [| by intros [= <- <-]].
  match goal with |- context [ensureArtifact ?a ?k ?i s1] =>
    pose proof (ensureArtifact_frame a k i s1) as Hen;
    destruct (ensureArtifact a k i s1) as [a' s2] end.
  simpl in Hen. destruct Hen as (Hg & Ht & Hc & Hk & Hp).
  intros [= <- <-].
  match goal with |- context [programManager_run ?a ?i ?o ?g s2] =>
    pose proof (programManager_run_frame a i o g s2) as Hpr end.
  simpl in Hpr. destruct Hpr as (Hg' & _ & Ht' & Hc' & Hk' & Hp').
  split.
  - eapply tempsLive_same; [exact Htl1 | |]; congruence.
  - eapply grows_same; [exact Hg1 | | | | |]; congruence.
Qed.

(** ** Kernel invocations *)

Lemma computeKernel_unfold fuel kernelId context s :
  computeKernel (S fuel) kernelId context s =
  match kernels s !! kernelId with
  | None => Some (Abrupt (KernelNotCreated kernelId), s)
  | Some kernel =>
      match currentKernelId s with
      | Some _ => Some (Abrupt (KernelCalledRecursively (kernelName kernel)), s)
      | None =>
          match parseAttributes kernelId kernel (withCurrentKernelId (Some kernelId) s) with
          | Abrupt e => Some (Abrupt e, withCurrentKernelId (Some kernelId) s)
          | Normal (attribute, s2) =>
              match runKernelBody (computeKernel fuel) context
                      (kernelEntry kernel context attribute) (withTemporaryData (Some []) s2) with
              | None => None
              | Some (r, s4) =>
                  match releaseTemporaryData s4 with
                  | (Abrupt e, s5) => Some (Abrupt e, s5)
                  | (Normal _, s5) => Some (r, s5)
                  end
              end
          end
      end
  end.
Proof. reflexivity. Qed.

Lemma computeKernel_rejected fuel kernelId context s kernel cur :
  kernels s !! kernelId = Some kernel →
  currentKernelId s = Some cur →
  computeKernel (S fuel) kernelId context s
  = Some (Abrupt (KernelCalledRecursively (kernelName kernel)), s).
Proof. intros Hk Hc. simpl. by rewrite Hk, Hc. Qed.

Lemma computeKernel_busy fuel kernelId context s :
  is_Some (currentKernelId s) →
  ∃ e, computeKernel (S fuel) kernelId context s = Some (Abrupt e, s).
Proof.
  intros [cur Hc]. simpl. destruct (kernels s !! kernelId); [| eauto].
  rewrite Hc. eauto.
Qed.

Lemma grows_marker s s' : grows s s' → is_Some (currentKernelId s) → is_Some (currentKernelId s').
Proof. intros (-> & _) H. exact H. Qed.

(** A kernel entry running while the executing marker is set: it ends,
    and every call it makes sits between two [grows] steps. *)
Lemma runKernelBody_grows invoke context body s :
  WellBehaved context →
  (∀ kernelId c x, is_Some (currentKernelId x) → ∃ e, invoke kernelId c x = Some (Abrupt e, x)) →
  is_Some (currentKernelId s) → tempsLive s →
  ∃ r s', runKernelBody invoke context body s = Some (r, s')
          ∧ tempsLive s' ∧ grows s s'
          ∧ ∀ c, Makes invoke context body s c →
                 grows s (callBefore c) ∧ tempsLive (callBefore c)
                 ∧ grows (callBefore c) (callAfter c)
                 ∧ grows (callAfter c) s'.
Proof.
  intros HW Hinv. revert s.
  induction body as [status | e | program inputs outputIndices k IH | kernelId context' k IH];
    intros s Hcur Htl; simpl.
  - exists (Normal status), s.
    split; [reflexivity |]. split; [exact Htl |]. split; [apply grows_refl |].
    intros c Hc. inversion Hc.
  - exists (Abrupt e), s.
    split; [reflexivity |]. split; [exact Htl |]. split; [apply grows_refl |].
    intros c Hc. inversion Hc.
  - destruct (run program inputs outputIndices (createKernelOutput context)
                (createTemporaryOutput context) s) as [r s1] eqn:Hrun.
    destruct (run_grows _ _ _ _ _ _ _ HW Htl Hrun) as [Htl1 Hg1].
    destruct (IH r s1 (grows_marker _ _ Hg1 Hcur) Htl1) as (r' & s' & Hbody & Htl' & Hg' & Hcalls).
    exists r', s'. split; [exact Hbody |]. split; [exact Htl' |].
    split; [eapply grows_trans; eauto |].
    intros c Hc. inversion Hc; subst.
    + simpl. rewrite Hrun in *. simplify_eq. split; [apply grows_refl | done].
    + rewrite Hrun in *. simplify_eq.
      destruct (Hcalls c) as (Ha & Hb & Hd); [assumption |].
      split; [eapply grows_trans; eauto | done].
  - destruct (Hinv kernelId context' s Hcur) as [e He]. rewrite He.
    destruct (IH (Abrupt e) s Hcur Htl) as (r' & s' & Hbody & Htl' & Hg' & Hcalls).
    exists r', s'. split; [exact Hbody |]. split; [exact Htl' |]. split; [exact Hg' |].
    intros c Hc. inversion Hc; subst.
    + simpl. rewrite He in *. simplify_eq.
      split; [apply grows_refl |]. split; [exact Htl |]. split; [apply grows_refl | done].
    + rewrite He in *. simplify_eq. by apply Hcalls.
Qed.

Lemma releaseTemporaryData_ok s :
  tempsLive s ∧ is_Some (temporaryData s) →
  ∃ s', releaseTemporaryData s = (Normal tt, s')
        ∧ currentKernelId s' = None
        ∧ temporaryData s' = Some []
        ∧ (∀ d, d ∈ tracked s → ¬ live (id d) (gpuDataManager s'))
        ∧ (∀ i, i ∉ map id (tracked s) →
                storageCache (gpuDataManager s') !! i = storageCache (gpuDataManager s) !! i)
        ∧ kernels s' = kernels s
        ∧ kernelPersistentData s' = kernelPersistentData s
        ∧ sameSession s s'.
Proof.
  intros [[Hnd Hlive] [l Hl]]. unfold releaseTemporaryData. rewrite Hl.
  rewrite (tracked_assigned _ _ Hl) in *.
  destruct (releaseEach_ok _ _ Hnd Hlive) as (m' & -> & Hgone & Hsame).
  eexists. split; [reflexivity |]. simpl. repeat split; assumption.
Qed.

Lemma parseAttributes_frame kernelId kernel s attribute s2 :
  parseAttributes kernelId kernel s = Normal (attribute, s2) →
  gpuDataManager s2 = gpuDataManager s ∧ temporaryData s2 = temporaryData s
  ∧ currentKernelId s2 = currentKernelId s
  ∧ kernelPersistentData s2 = kernelPersistentData s
  ∧ sameSession s s2.
Proof.
  unfold parseAttributes. destruct kernel as [[name entry] [[parse |] attribute0]].
  - destruct (parse attribute0); [| done]. intros [= <- <-]. simpl. repeat split.
  - intros [= <- <-]. repeat split.
Qed.

(** An invocation that gets to the kernel entry: the entry ends, the
    [finally] block releases what is tracked and clears the marker. *)
Lemma computeKernel_enters fuel kernelId context s kernel attribute s2 :
  WellBehaved context →
  kernels s !! kernelId = Some kernel →
  currentKernelId s = None →
  parseAttributes kernelId kernel (withCurrentKernelId (Some kernelId) s) = Normal (attribute, s2) →
  ∃ r s4 s',
    runKernelBody (computeKernel (S fuel)) context (kernelEntry kernel context attribute)
      (withTemporaryData (Some []) s2) = Some (r, s4)
    ∧ releaseTemporaryData s4 = (Normal tt, s')
    ∧ computeKernel (S (S fuel)) kernelId context s = Some (r, s')
    ∧ (tempsLive s4 ∧ is_Some (temporaryData s4))
    ∧ grows (withTemporaryData (Some []) s2) s4
    ∧ ∀ c, Makes (computeKernel (S fuel)) context (kernelEntry kernel context attribute)
             (withTemporaryData (Some []) s2) c →
           grows (withTemporaryData (Some []) s2) (callBefore c)
           ∧ tempsLive (callBefore c)
           ∧ grows (callBefore c) (callAfter c)
           ∧ grows (callAfter c) s4.
Proof.
  intros HW Hk Hc Hparse.
  destruct (parseAttributes_frame _ _ _ _ _ Hparse) as (Hg2 & Ht2 & Hc2 & Hp2 & _).
  destruct (runKernelBody_grows (computeKernel (S fuel)) context
              (kernelEntry kernel context attribute) (withTemporaryData (Some []) s2) HW)
    as (r & s4 & Hbody & Htl4 & Hg4 & Hcalls).
  - intros kid c x Hx. by apply computeKernel_busy.
  - simpl. rewrite Hc2. simpl. eauto.
  - split; simpl; [constructor |]. intros d Hd. by apply elem_of_nil in Hd.
  - assert (Hsome4 : is_Some (temporaryData s4)) by (eapply grows_assigned; [exact Hg4 | by eexists]).
    destruct (releaseTemporaryData_ok s4 (conj Htl4 Hsome4)) as (s' & Hrel & _).
    exists r, s4, s'. split; [exact Hbody |]. split; [exact Hrel |].
    split; [| done].
    rewrite computeKernel_unfold.
    rewrite Hk, Hc, Hparse, Hbody, Hrel. reflexivity.
Qed.

(** ** Where [run] records the outputs it creates *)

Lemma createOutput_tracks count o index ck ct s tensorView gpuData s1 :
  createOutput count o index ck ct s = (Normal (tensorView, gpuData), s1) →
  id gpuData = data tensorView
  ∧ live (id gpuData) (gpuDataManager s1)
  ∧ (index = JsInt (-2) → gpuData ∈ tracked s1)
  ∧ (index = JsInt (-1) →
     ∃ l, kernelPersistentData s1 !! currentKernelId s = Some l ∧ gpuData ∈ l).
Proof.
  unfold createOutput. destruct (invalidOutputIndex count index); [done |].
  match goal with |- context [let '(_, _) := ?c in _] => destruct c as [created m] end.
  destruct created as [tv | e]; [| done].
  destruct (gdm_get (data tv) m) as [gd |] eqn:Hget; [| done].
  apply gdm_get_Some in Hget as [Hlv Hid].
  destruct index as [z |]; simpl.
  - destruct (Z.eqb_spec z (-2)) as [-> | Hne2]; simpl.
    + unfold pushTemporary. simpl. destruct (temporaryData s) as [l |]; [| done].
      intros [= <- <- <-]. split; [exact Hid |]. split; [by rewrite Hid |].
      split; [| done]. intros _. unfold tracked. simpl. apply elem_of_app. right. by left.
    + intros [= <- <- <-]. split; [exact Hid |]. split.
      { rewrite Hid. by case_match. }
      split; [intros [= ->]; done |].
      intros [= ->]. simpl. unfold pushPersistent. simpl. rewrite lookup_insert_eq.
      eexists. split; [reflexivity |]. apply elem_of_app. right. by left.
  - intros [= <- <- <-]. split; [exact Hid |]. split; [by rewrite Hid |]. split; done.
Qed.

Lemma createOutputs_tracks context count outs indices s views datas s' :
  WellBehaved context → tempsLive s →
  createOutputs count outs indices (createKernelOutput context) (createTemporaryOutput context) s
    = (Normal (views, datas), s') →
  ∀ i tensorView, views !! i = Some tensorView →
    live (data tensorView) (gpuDataManager s')
    ∧ (indices !! i = Some (JsInt (-2)) →
       ∃ d, d ∈ tracked s' ∧ id d = data tensorView)
    ∧ (indices !! i = Some (JsInt (-1)) →
       ∃ l d, kernelPersistentData s' !! currentKernelId s = Some l
              ∧ d ∈ l ∧ id d = data tensorView).
Proof.
  intros HW. revert indices s views datas s'.
  induction outs as [| o outs IH]; intros indices s views datas s' Htl; simpl.
  { intros [= <- <- <-] i tv Hi. by rewrite lookup_nil in Hi. }
  destruct (createOutput count o (hd JsNonInteger indices) (createKernelOutput context)
              (createTemporaryOutput context) s) as [r1 s1] eqn:H1.
  destruct (createOutput_grows _ _ _ _ _ _ _ HW Htl H1) as (Htl1 & Hg1 & _).
  destruct r1 as [[tv1 gd1] | e]; [| done].
  destruct (createOutputs count outs (tl indices) (createKernelOutput context)
              (createTemporaryOutput context) s1) as [r2 s2] eqn:H2.
  destruct (createOutputs_grows _ _ _ _ _ _ _ HW Htl1 H2) as (_ & Hg2 & _).
  destruct r2 as [[views2 datas2] | e]; [| done].
  intros [= <- <- <-] i tv Hi.
  destruct i as [| i]; simpl in Hi.
  - injection Hi as <-.
    destruct (createOutput_tracks _ _ _ _ _ _ _ _ _ H1) as (Hid & Hlv & Htemp & Hpers).
    split; [rewrite <- Hid; by apply Hg2 |].
    split; intros Hidx.
    + exists gd1. split; [| exact Hid].
      eapply grows_temporaryData; [exact Hg2 |]. apply Htemp.
      destruct indices; simpl in *; congruence.
    + destruct Hpers as (l & Hl & Hin); [destruct indices; simpl in *; congruence |].
      destruct Hg2 as (_ & _ & _ & _ & Hp). destruct (Hp _ _ Hl) as [more Hmore].
      exists (l ++ more), gd1. split; [exact Hmore |].
      split; [apply elem_of_app; by left | exact Hid].
  - destruct (IH _ _ _ _ _ Htl1 H2 i tv Hi) as (Hlv & Ht & Hp).
    assert (Hcur : currentKernelId s1 = currentKernelId s) by apply Hg1.
    rewrite Hcur in Hp. split; [exact Hlv |].
    destruct indices as [| idx indices]; simpl in *; [split; intros; done |].
    split; assumption.
Qed.

Lemma validatedOutputIndices_given outputIndices info i index :
  outputIndices !! i = Some index → validatedOutputIndices outputIndices info = outputIndices.
Proof. destruct outputIndices; [by rewrite lookup_nil | done]. Qed.

Lemma run_tracks context program inputs outputIndices s views s' :
  WellBehaved context → tempsLive s →
  run program inputs outputIndices (createKernelOutput context) (createTemporaryOutput context) s
    = (Normal views, s') →
  ∀ i tensorView, views !! i = Some tensorView →
    live (data tensorView) (gpuDataManager s')
    ∧ (outputIndices !! i = Some (JsInt (-2)) →
       ∃ d, d ∈ tracked s' ∧ id d = data tensorView)
    ∧ (outputIndices !! i = Some (JsInt (-1)) →
       ∃ l d, kernelPersistentData s' !! currentKernelId s = Some l
              ∧ d ∈ l ∧ id d = data tensorView).
Proof.
  intros HW Htl. unfold run.
  destruct (negb _); [done |].
  destruct (inputGpuData _ _) as [inputDatas | e]; [| done].
  destruct (negb _); [done |].
  match goal with |- context [createOutputs ?c ?o ?i _ _ s] =>
    destruct (createOutputs c o i (createKernelOutput context) (createTemporaryOutput context) s)
      as [r1 s1] eqn:H1 end.
  destruct r1 as [[views1 datas] | e]; [| done].
  match goal with |- context [ensureArtifact ?a ?k ?i s1] =>
    pose proof (ensureArtifact_frame a k i s1) as Hen;
    destruct (ensureArtifact a k i s1) as [a' s2] end.
  simpl in Hen. destruct Hen as (Hg & Ht & Hc & Hk & Hp).
  intros [= <- <-] i tv Hi.
  match goal with |- context [programManager_run ?a ?i ?o ?g s2] =>
    pose proof (programManager_run_frame a i o g s2) as Hpr end.
  simpl in Hpr. destruct Hpr as (Hg' & _ & Ht' & _ & _ & Hp').
  unfold live, tracked. rewrite Hg', Ht', Hp', Hg, Ht, Hp.
  split; [apply (createOutputs_tracks _ _ _ _ _ _ _ _ HW Htl H1 i tv Hi) |].
  split; intros Hidx;
    rewrite (validatedOutputIndices_given _ _ _ _ Hidx) in H1;
    by apply (createOutputs_tracks _ _ _ _ _ _ _ _ HW Htl H1 i tv Hi).
Qed.

Lemma Makes_run invoke context body s program inputs outputIndices x r x1 :
  Makes invoke context body s (RunCall program inputs outputIndices x r x1) →
  run program inputs outputIndices (createKernelOutput context) (createTemporaryOutput context) x
  = (r, x1).
Proof.
  remember (RunCall program inputs outputIndices x r x1) as c eqn:Hc.
  induction 1; try discriminate; auto. by injection Hc as -> -> -> -> -> ->.
Qed.

Lemma Makes_invoke invoke context body s kernelId context' x r x1 :
  Makes invoke context body s (InvokeCall kernelId context' x r x1) →
  invoke kernelId context' x = Some (r, x1).
Proof.
  remember (InvokeCall kernelId context' x r x1) as c eqn:Hc.
  induction 1; try discriminate; auto. by injection Hc as -> -> -> -> ->.
Qed.

Lemma allocatingContext_WellBehaved : WellBehaved allocatingContext.
Proof.
  split; simpl; unfold freshOutput.
  - intros _ t d m r m' [= <- <-]. apply gdm_create_keeps.
  - intros t d m r m' [= <- <-]. apply gdm_create_keeps.
  - intros t d m tv m' [= <- <-]. simpl. apply (gdm_create_fresh (foldr Z.mul 4%Z d) m).
Qed.

(** When the attribute parser throws, [computeKernel] throws what it
    threw, with the backend as it was after [this.currentKernelId =
    kernelId]. *)
Lemma computeKernel_parser_throws fuel kernelId context s name entry parse attribute e :
  kernels s !! kernelId = Some ((name, entry, (Some parse, attribute)) : KernelInfo) →
  currentKernelId s = None →
  parse attribute = Abrupt e →
  computeKernel (S fuel) kernelId context s
  = Some (Abrupt e, withCurrentKernelId (Some kernelId) s).
Proof. intros Hk Hc Hp. simpl. rewrite Hk, Hc. simpl. by rewrite Hp. Qed.

(** C2.  The cleanup of [computeKernel] does not run on every error path
    of an invocation: the attribute parser is called after the executing
    marker is set and before the [try].  On the sample backend no kernel
    is executing; the invocation of "Throw", whose parser throws, ends
    with the parser's error and with the marker still set to that
    instance, nothing else changed.  The invocation of "Raise", whose
    entry throws the same error, ends with the marker clear and the list
    of temporaries empty: the [finally] block covers the entry only. *)
Theorem parser_error_skips_the_cleanup :
  currentKernelId raisingBackend = None
  ∧ computeKernel 2 6 allocatingContext raisingBackend
    = Some (Abrupt (OtherError "bad attribute"),
            withCurrentKernelId (Some 6%Z) raisingBackend)
  ∧ currentKernelId (withCurrentKernelId (Some 6%Z) raisingBackend) = Some 6%Z
  ∧ ∃ s', computeKernel 2 7 allocatingContext raisingBackend
          = Some (Abrupt (OtherError "bad attribute"), s')
          ∧ currentKernelId s' = None
          ∧ temporaryData s' = Some [].
Proof.
  split; [reflexivity |]. split.
  { apply (computeKernel_parser_throws 1 6 allocatingContext raisingBackend
             "Throw" innerEntry (λ _, Abrupt (OtherError "bad attribute")) "raw").
    - vm_compute. reflexivity.
    - reflexivity.
    - reflexivity. }
  split; [reflexivity |].
  destruct (computeKernel_enters 0 7 allocatingContext raisingBackend raisingKernel "raw"
              (withCurrentKernelId (Some 7%Z) raisingBackend) allocatingContext_WellBehaved)
    as (r & s4 & s' & Hbody & Hrel & Hck & Htl4 & _).
  - vm_compute. reflexivity.
  - reflexivity.
  - reflexivity.
  - destruct (releaseTemporaryData_ok s4 Htl4) as (s'' & Hrel' & Hcur & Htmp & _).
    rewrite Hrel in Hrel'. injection Hrel' as <-.
    simpl in Hbody. injection Hbody as <- _.
    exists s'. split; [exact Hck |]. split; assumption.
Qed.

(** C1.  After an outer invocation that failed, a later invocation of
    another instance is rejected.  On the sample backend no kernel is
    executing and "Inner" can be invoked.  The invocation of "Throw",
    whose attribute parser throws, fails and leaves the executing marker
    set; from then on the invocation of "Inner", and of any other
    registered instance, throws the recursion error (a
    ConcurrencyViolation) although no kernel is executing. *)
Theorem failed_invocation_blocks_later_ones :
  currentKernelId parsingBackend = None
  ∧ fst <$> computeKernel 1 2 allocatingContext parsingBackend = Some (Normal 0%Z)
  ∧ ∃ s1, computeKernel 1 6 allocatingContext parsingBackend
          = Some (Abrupt (OtherError "bad attribute"), s1)
          ∧ computeKernel 1 2 allocatingContext s1
            = Some (Abrupt (KernelCalledRecursively "Inner"), s1)
          ∧ errorKind (KernelCalledRecursively "Inner") = ConcurrencyViolation
          ∧ ∀ fuel kernelId context kernel,
              kernels s1 !! kernelId = Some kernel →
              ∃ e, computeKernel (S fuel) kernelId context s1 = Some (Abrupt e, s1)
                   ∧ errorKind e = ConcurrencyViolation.
Proof.
  split; [reflexivity |]. split; [vm_compute; reflexivity |].
  exists (withCurrentKernelId (Some 6%Z) parsingBackend).
  split.
  { apply (computeKernel_parser_throws 0 6 allocatingContext parsingBackend
             "Throw" innerEntry (λ _, Abrupt (OtherError "bad attribute")) "raw").
    - vm_compute. reflexivity.
    - reflexivity.
    - reflexivity. }
  split.
  { apply (computeKernel_rejected 0 2 allocatingContext _ innerKernel 6%Z).
    - vm_compute. reflexivity.
    - reflexivity. }
  split; [reflexivity |].
  intros fuel kernelId context kernel Hk.
  exists (KernelCalledRecursively (kernelName kernel)). split; [| reflexivity].
  by apply computeKernel_rejected with 6%Z.
Qed.

(** X16.  For every invocation that gets to its kernel entry (the
    instance exists, no instance is executing, the attribute is parsed),
    with output factories that release nothing and create temporaries
    afresh: the invocation ends, whether the entry returns or throws;
    afterwards the executing marker is clear, the list of tracked
    temporaries is empty, and every buffer that was tracked as temporary
    after any [run] the entry made is released, in particular the buffer
    of every tensor [run] returned for a temporary output slot.  An
    invocation of an unknown instance, or made while an instance is
    executing, throws and leaves the backend as it was. *)
Theorem computeKernel_releases_temporaries
    (fuel : nat) (kernelId : Z) (context : ComputeContext) (s : WebGpuBackend)
    (kernel : KernelInfo) (attribute : Attribute) (s2 : WebGpuBackend) :
  WellBehaved context →
  kernels s !! kernelId = Some kernel →
  currentKernelId s = None →
  parseAttributes kernelId kernel (withCurrentKernelId (Some kernelId) s) = Normal (attribute, s2) →
  ∃ r s', computeKernel (S (S fuel)) kernelId context s = Some (r, s')
    ∧ currentKernelId s' = None
    ∧ temporaryData s' = Some []
    ∧ (∀ program inputs outputIndices x r1 x1,
        Makes (computeKernel (S fuel)) context (kernelEntry kernel context attribute)
          (withTemporaryData (Some []) s2) (RunCall program inputs outputIndices x r1 x1) →
        (∀ d, d ∈ tracked x1 → ¬ live (id d) (gpuDataManager s'))
        ∧ (∀ views i tensorView,
             r1 = Normal views →
             outputIndices !! i = Some (JsInt (-2)) →
             views !! i = Some tensorView →
             ¬ live (data tensorView) (gpuDataManager s')))
    ∧ ∀ fuel' b context' x,
        kernels x !! b = None ∨ is_Some (currentKernelId x) →
        ∃ e, computeKernel (S fuel') b context' x = Some (Abrupt e, x).
Proof.
  intros HW Hk Hc Hparse.
  destruct (computeKernel_enters fuel _ _ _ _ _ _ HW Hk Hc Hparse)
    as (r & s4 & s' & Hbody & Hrel & Hck & Htl4 & Hg4 & Hcalls).
  destruct (releaseTemporaryData_ok s4 Htl4) as (s'' & Hrel' & Hcur & Htmp & Hgone & _).
  rewrite Hrel in Hrel'. injection Hrel' as <-.
  exists r, s'. split; [exact Hck |]. split; [exact Hcur |]. split; [exact Htmp |].
  split; [| intros fuel' b context' x [Hnone | Hbusy];
            [rewrite computeKernel_unfold, Hnone; eauto | by apply computeKernel_busy]].
  intros program inputs outputIndices x r1 x1 Hmakes.
  destruct (Hcalls _ Hmakes) as (Hbefore & Htlx & Hstep & Hafter). simpl in *.
  assert (Hall : ∀ d, d ∈ tracked x1 → ¬ live (id d) (gpuDataManager s')).
  { intros d Hd. apply Hgone. eapply grows_temporaryData; eauto. }
  split; [exact Hall |].
  intros views i tv -> Hidx Hview.
  apply Makes_run in Hmakes.
  destruct (run_tracks _ _ _ _ _ _ _ HW Htlx Hmakes i tv Hview) as (_ & Ht & _).
  destruct (Ht Hidx) as (d & Hd & <-). by apply Hall.
Qed.

Lemma computeKernel_releases_temporaries_witness :
  ∃ r s', computeKernel 2 1 allocatingContext kernelBackend = Some (r, s')
          ∧ currentKernelId s' = None ∧ temporaryData s' = Some [].
Proof.
  destruct (computeKernel_releases_temporaries 0 1 allocatingContext kernelBackend
              outerKernel "" (withCurrentKernelId (Some 1%Z) kernelBackend)
              allocatingContext_WellBehaved eq_refl eq_refl eq_refl)
    as (r & s' & H1 & H2 & H3 & _ & _).
  exists r, s'. auto.
Defined.

(** X17.  While a kernel instance is executing, invoking any registered
    instance throws the recursion error (a ConcurrencyViolation) and
    leaves the backend as it was; so does every invocation an executing
    entry makes.  An outer invocation that gets to its entry (its
    attribute is parsed) ends whether the entry returns or throws, with
    the marker clear, and an invocation made after it gets to its entry
    and ends as that entry ends: when the entry returns a status, so does
    the invocation. *)
Theorem no_reentrancy
    (fuel : nat) (a : Z) (context : ComputeContext) (s : WebGpuBackend)
    (kernel : KernelInfo) (attribute : Attribute) (s2 : WebGpuBackend) :
  WellBehaved context →
  kernels s !! a = Some kernel →
  currentKernelId s = None →
  parseAttributes a kernel (withCurrentKernelId (Some a) s) = Normal (attribute, s2) →
  (∀ fuel' b context' x kernelB cur,
     kernels x !! b = Some kernelB → currentKernelId x = Some cur →
     computeKernel (S fuel') b context' x
       = Some (Abrupt (KernelCalledRecursively (kernelName kernelB)), x)
     ∧ errorKind (KernelCalledRecursively (kernelName kernelB)) = ConcurrencyViolation)
  ∧ ∃ r s', computeKernel (S (S fuel)) a context s = Some (r, s')
    ∧ (∀ b context' x r1 x1 kernelB,
         Makes (computeKernel (S fuel)) context (kernelEntry kernel context attribute)
           (withTemporaryData (Some []) s2) (InvokeCall b context' x r1 x1) →
         kernels x !! b = Some kernelB →
         r1 = Abrupt (KernelCalledRecursively (kernelName kernelB)) ∧ x1 = x)
    ∧ currentKernelId s' = None
    ∧ ∀ fuel' b context' kernelB attributeB t2 rb t4,
        WellBehaved context' →
        kernels s' !! b = Some kernelB →
        parseAttributes b kernelB (withCurrentKernelId (Some b) s') = Normal (attributeB, t2) →
        runKernelBody (computeKernel (S fuel')) context' (kernelEntry kernelB context' attributeB)
          (withTemporaryData (Some []) t2) = Some (rb, t4) →
        ∃ s'', computeKernel (S (S fuel')) b context' s' = Some (rb, s'')
               ∧ currentKernelId s'' = None.
Proof.
  intros HW Hk Hc Hparse. split.
  { intros fuel' b context' x kernelB cur Hb Hx. split; [| reflexivity].
    by apply computeKernel_rejected with cur. }
  destruct (computeKernel_enters fuel _ _ _ _ _ _ HW Hk Hc Hparse)
    as (r & s4 & s' & Hbody & Hrel & Hck & Htl4 & Hg4 & Hcalls).
  destruct (releaseTemporaryData_ok s4 Htl4) as (s'' & Hrel' & Hcur & _).
  rewrite Hrel in Hrel'. injection Hrel' as <-.
  exists r, s'. split; [exact Hck |]. split; [| split; [exact Hcur |]].
  - intros b context' x r1 x1 kernelB Hmakes Hb.
    destruct (Hcalls _ Hmakes) as (Hbefore & _). simpl in Hbefore.
    apply Makes_invoke in Hmakes.
    assert (Hx : currentKernelId x = Some a).
    { destruct Hbefore as (-> & _). simpl.
      by destruct (parseAttributes_frame _ _ _ _ _ Hparse) as (_ & _ & -> & _). }
    rewrite (computeKernel_rejected fuel b context' x kernelB a Hb Hx) in Hmakes.
    by injection Hmakes as <- <-.
  - intros fuel' b context' kernelB attributeB t2 rb t4 HW' Hb Hparse' Hbody'.
    destruct (computeKernel_enters fuel' _ _ _ _ _ _ HW' Hb Hcur Hparse')
      as (rb' & t4' & t' & Hbody'' & Hrel'' & Hck' & Htl' & _).
    rewrite Hbody' in Hbody''. injection Hbody'' as <- <-.
    exists t'. split; [exact Hck' |].
    destruct (releaseTemporaryData_ok t4 Htl') as (t'' & Hr & Hcur' & _).
    rewrite Hrel'' in Hr. by injection Hr as <-.
Qed.

Lemma no_reentrancy_witness :
  (computeKernel 1 2 allocatingContext busyBackend
   = Some (Abrupt (KernelCalledRecursively "Inner"), busyBackend))
  ∧ ∃ r s', computeKernel 2 1 allocatingContext kernelBackend = Some (r, s')
            ∧ currentKernelId s' = None
            ∧ ∃ s'', computeKernel 2 2 allocatingContext s' = Some (Normal 0%Z, s'').
Proof.
  destruct (no_reentrancy 0 1 allocatingContext kernelBackend
              outerKernel "" (withCurrentKernelId (Some 1%Z) kernelBackend)
              allocatingContext_WellBehaved eq_refl eq_refl eq_refl)
    as (Hguard & r & s' & H1 & _ & H2 & Hnext).
  assert (Hout : computeKernel 2 1 allocatingContext kernelBackend
                 = Some (Normal 0%Z, afterOuter)) by (vm_compute; reflexivity).
  rewrite Hout in H1. injection H1 as <- <-.
  split.
  - apply (Hguard 0 2%Z allocatingContext busyBackend innerKernel 1%Z eq_refl eq_refl).
  - exists (Normal 0%Z), afterOuter. split; [exact Hout |]. split; [exact H2 |].
    destruct (Hnext 0 2%Z allocatingContext innerKernel ""
                (withCurrentKernelId (Some 2%Z) afterOuter) (Normal 0%Z)
                (withTemporaryData (Some []) (withCurrentKernelId (Some 2%Z) afterOuter))
                allocatingContext_WellBehaved)
      as (s'' & Hs'' & _).
    + vm_compute. reflexivity.
    + reflexivity.
    + reflexivity.
    + exists s''. exact Hs''.
Defined.

(** The sample run of "Outer": the invocation of "Inner" from inside it
    is rejected, [run] goes through, the temporary (buffer 3) is released;
    then "Inner" can be invoked. *)
Example outer_then_inner :
  ∃ s', computeKernel 2 1 allocatingContext kernelBackend = Some (Normal 0%Z, s')
        ∧ currentKernelId s' = None
        ∧ buffersPending (gpuDataManager s') = [3%Z]
        ∧ storageCache (gpuDataManager s') !! 3%Z = None
        ∧ fst <$> computeKernel 1 2 allocatingContext s' = Some (Normal 0%Z).
Proof.
  eexists. split; [vm_compute; reflexivity |].
  repeat split; vm_compute; reflexivity.
Qed.

(** ** Input arity *)

Lemma run_input_size program inputs outputIndices ck ct s :
  length inputs ≠ length (inputTypes (programMetadata program)) →
  run program inputs outputIndices ck ct s
  = (Abrupt (InputSizeMustBeEqualTo (length (inputTypes (programMetadata program)))), s).
Proof.
  intros Hne. unfold run.
  destruct (Nat.eqb_spec (length inputs) (length (inputTypes (programMetadata program))));
    [done | reflexivity].
Qed.

(** C5.  A [run] whose number of inputs is not the program's input arity
    throws the input-size error (a ShapeMismatch) and leaves the backend
    as it was.  When a kernel entry makes that call, the invocation ends
    with the executing marker clear; when the entry lets the error
    through, the error is what the invocation throws. *)
Theorem run_input_arity_mismatch
    (fuel : nat) (kernelId : Z) (context : ComputeContext) (s : WebGpuBackend)
    (kernel : KernelInfo) (attribute : Attribute) (s2 : WebGpuBackend)
    (program : Program) (inputs : list TensorView) (outputIndices : list JsNumber) :
  WellBehaved context →
  kernels s !! kernelId = Some kernel →
  currentKernelId s = None →
  parseAttributes kernelId kernel (withCurrentKernelId (Some kernelId) s) = Normal (attribute, s2) →
  length inputs ≠ length (inputTypes (programMetadata program)) →
  let e := InputSizeMustBeEqualTo (length (inputTypes (programMetadata program))) in
  errorKind e = ShapeMismatch
  ∧ (∀ ck ct x, run program inputs outputIndices ck ct x = (Abrupt e, x))
  ∧ ∃ r s', computeKernel (S (S fuel)) kernelId context s = Some (r, s')
    ∧ currentKernelId s' = None
    ∧ (∀ x r1 x1,
         Makes (computeKernel (S fuel)) context (kernelEntry kernel context attribute)
           (withTemporaryData (Some []) s2) (RunCall program inputs outputIndices x r1 x1) →
         r1 = Abrupt e ∧ x1 = x)
    ∧ (∀ k, kernelEntry kernel context attribute = Compute program inputs outputIndices k →
            (∀ e', k (Abrupt e') = Raise e') →
            r = Abrupt e).
Proof.
  intros HW Hk Hc Hparse Hne e.
  split; [reflexivity |].
  split; [intros ck ct x; by apply run_input_size |].
  destruct (computeKernel_enters fuel _ _ _ _ _ _ HW Hk Hc Hparse)
    as (r & s4 & s' & Hbody & Hrel & Hck & Htl4 & Hg4 & Hcalls).
  destruct (releaseTemporaryData_ok s4 Htl4) as (s'' & Hrel' & Hcur & _).
  rewrite Hrel in Hrel'. injection Hrel' as <-.
  exists r, s'. split; [exact Hck |]. split; [exact Hcur |]. split.
  - intros x r1 x1 Hmakes. apply Makes_run in Hmakes.
    rewrite run_input_size in Hmakes by exact Hne. by injection Hmakes as <- <-.
  - intros k Hentry Hthrough. rewrite Hentry in Hbody. simpl in Hbody.
    rewrite run_input_size in Hbody by exact Hne.
    rewrite Hthrough in Hbody. simpl in Hbody. by injection Hbody as <- _.
Qed.

Lemma run_input_arity_mismatch_witness :
  ∃ s', computeKernel 2 3 allocatingContext kernelBackend
        = Some (Abrupt (InputSizeMustBeEqualTo 2), s')
        ∧ currentKernelId s' = None.
Proof.
  destruct (run_input_arity_mismatch 0 3 allocatingContext kernelBackend
              oneInputKernel "" (withCurrentKernelId (Some 3%Z) kernelBackend)
              addProgram [tensorA] [JsInt 0]
              allocatingContext_WellBehaved eq_refl eq_refl eq_refl)
    as (_ & _ & r & s' & H1 & H2 & _ & H3).
  - simpl. lia.
  - exists s'. rewrite H1. split; [| exact H2].
    by rewrite (H3 rethrow eq_refl (λ _, eq_refl)).
Defined.

(** ** Persistent buffers *)








(** ** Output slots *)

Lemma imap_index {A B} (f : nat → B) (l : list A) :
  imap (λ i _, f i) l = map f (seq 0 (length l)).
Proof.
  revert f. induction l as [| x l IH]; intros f; [reflexivity |].
  simpl. f_equal. rewrite <- seq_shift, map_map. apply (IH (f ∘ S)).
Qed.

Lemma validatedOutputIndices_default info :
  validatedOutputIndices [] info
  = validatedOutputIndices
      (map (λ i, JsInt (Z.of_nat i)) (seq 0 (length (outputs info)))) info.
Proof.
  unfold validatedOutputIndices at 1. rewrite imap_index.
  unfold validatedOutputIndices. by destruct (outputs info).
Qed.

Lemma createOutput_frame count o index ck ct s r s' :
  createOutput count o index ck ct s = (r, s') →
  sameSession s s' ∧ currentKernelId s' = currentKernelId s ∧ kernels s' = kernels s.
Proof.
  unfold createOutput. destruct (invalidOutputIndex count index).
  { intros [= <- <-]. repeat split. }
  match goal with |- context [let '(_, _) := ?c in _] => destruct c as [created m] end.
  destruct created as [tv | e]; [| intros [= <- <-]; repeat split].
  destruct (gdm_get (data tv) m); [| intros [= <- <-]; repeat split].
  destruct (indexValue index =? -2)%Z; simpl.
  - unfold pushTemporary. simpl.
    destruct (temporaryData s); intros [= <- <-]; repeat case_match; repeat split.
  - intros [= <- <-]. repeat case_match; repeat split.
Qed.

Lemma createOutputs_frame count outs indices ck ct s r s' :
  createOutputs count outs indices ck ct s = (r, s') →
  sameSession s s' ∧ currentKernelId s' = currentKernelId s ∧ kernels s' = kernels s.
Proof.
  revert indices s r s'. induction outs as [| o outs IH]; intros indices s r s'; simpl.
  { intros [= <- <-]. repeat split. }
  destruct (createOutput count o (hd JsNonInteger indices) ck ct s) as [r1 s1] eqn:H1.
  destruct (createOutput_frame _ _ _ _ _ _ _ _ H1) as (Hs1 & Hc1 & Hk1).
  destruct r1 as [[tv gd] | e]; [| by intros [= <- <-]].
  destruct (createOutputs count outs (tl indices) ck ct s1) as [r2 s2] eqn:H2.
  destruct (IH _ _ _ _ H2) as (Hs2 & Hc2 & Hk2).
  assert (sameSession s s2 ∧ currentKernelId s2 = currentKernelId s ∧ kernels s2 = kernels s).
  { split; [eapply sameSession_trans; eauto |]. split; congruence. }
  destruct r2 as [[views datas] | e]; by intros [= <- <-].
Qed.

Lemma validatedOutputIndices_nonempty outputIndices info :
  outputIndices ≠ [] → validatedOutputIndices outputIndices info = outputIndices.
Proof. by destruct outputIndices. Qed.

Lemma createOutput_invalid count o index ck ct s :
  invalidOutputIndex count index = true →
  createOutput count o index ck ct s = (Abrupt (InvalidOutputIndex index), s).
Proof. intros H. unfold createOutput. by rewrite H. Qed.

Lemma invalidOutputIndex_outside n index :
  invalidOutputIndex n index = true ↔ outsideDeclaredRange n index.
Proof.
  unfold invalidOutputIndex, outsideDeclaredRange. destruct index as [z |]; simpl.
  - rewrite orb_true_iff, Z.ltb_lt, Z.leb_le. split.
    + intros H z' [= <-]. exact H.
    + intros H. by apply H.
  - split; [intros _ z [=] | done].
Qed.

Lemma invalidOutputIndex_within n index :
  invalidOutputIndex n index = false ↔ withinDeclaredRange n index.
Proof.
  unfold invalidOutputIndex, withinDeclaredRange. destruct index as [z |]; simpl.
  - rewrite orb_false_iff, Z.ltb_ge, Z.leb_gt. split.
    + intros H. exists z. split; [done | lia].
    + intros (z' & [= <-] & H). lia.
  - split; [done | intros (z & [=] & _)].
Qed.

Lemma createOutput_assigned count o index ck ct s r s' :
  createOutput count o index ck ct s = (r, s') →
  is_Some (temporaryData s) → is_Some (temporaryData s').
Proof.
  unfold createOutput. destruct (invalidOutputIndex count index); [by intros [= _ <-] |].
  match goal with |- context [let '(_, _) := ?c in _] => destruct c as [created m] end.
  destruct created as [tv | e]; [| by intros [= _ <-]].
  destruct (gdm_get (data tv) m); [| by intros [= _ <-]].
  destruct (indexValue index =? -2)%Z; simpl.
  - unfold pushTemporary. simpl.
    destruct (temporaryData s); intros [= _ <-] Hs.
    + repeat case_match; simpl; eauto.
    + by destruct Hs.
  - intros [= _ <-]. by repeat case_match.
Qed.

Lemma createOutputs_assigned count outs indices ck ct s r s' :
  createOutputs count outs indices ck ct s = (r, s') →
  is_Some (temporaryData s) → is_Some (temporaryData s').
Proof.
  revert indices s r s'. induction outs as [| o outs IH]; intros indices s r s'; simpl.
  { by intros [= _ <-]. }
  destruct (createOutput count o (hd JsNonInteger indices) ck ct s) as [r1 s1] eqn:H1.
  intros H Hs. pose proof (createOutput_assigned _ _ _ _ _ _ _ _ H1 Hs) as Hs1.
  destruct r1 as [[tv gd] | e]; [| by injection H as _ <-].
  destruct (createOutputs count outs (tl indices) ck ct s1) as [r2 s2] eqn:H2.
  pose proof (IH _ _ _ _ H2 Hs1) as Hs2.
  destruct r2 as [[views datas] | e]; by injection H as _ <-.
Qed.

(** With factories that deliver registered tensors, an index within the
    declared range gets its output, unless it is the temporary marker
    while [temporaryData] is still [undefined]. *)
Lemma createOutput_delivered count o index ck ct s :
  (∀ i t d m, ∃ tv m', ck i t d m = (Normal tv, m') ∧ live (data tv) m') →
  (∀ t d m, ∃ tv m', ct t d m = (Normal tv, m') ∧ live (data tv) m') →
  invalidOutputIndex count index = false →
  is_Some (temporaryData s) ∨ index ≠ JsInt (-2) →
  ∃ tv gd s', createOutput count o index ck ct s = (Normal (tv, gd), s').
Proof.
  intros Hck Hct Hvalid Hpush. unfold createOutput. rewrite Hvalid.
  destruct (Z.eqb_spec (indexValue index) (-2)) as [H2 | H2]; simpl.
  - destruct (Hct (outDataType o) (outDims o) (gpuDataManager s)) as (tv & m' & -> & Hlive).
    destruct (gdm_get_live _ _ Hlive) as [gd ->].
    unfold pushTemporary. simpl.
    destruct Hpush as [[l ->] | Hne]; [rewrite H2; simpl; eauto |].
    destruct index as [z |]; simpl in *; [congruence | done].
  - destruct ((indexValue index =? -1)%Z).
    + destruct (Hct (outDataType o) (outDims o) (gpuDataManager s)) as (tv & m' & -> & Hlive).
      destruct (gdm_get_live _ _ Hlive) as [gd ->]. eauto.
    + destruct (Hck (indexValue index) (outDataType o) (outDims o) (gpuDataManager s))
        as (tv & m' & -> & Hlive).
      destruct (gdm_get_live _ _ Hlive) as [gd ->]. eauto.
Qed.

Lemma createOutputs_invalid count outs indices ck ct s :
  length indices = length outs →
  Exists (λ index, invalidOutputIndex count index = true) indices →
  ∃ e s', createOutputs count outs indices ck ct s = (Abrupt e, s')
    ∧ ((∀ i t d m, ∃ tv m', ck i t d m = (Normal tv, m') ∧ live (data tv) m') →
       (∀ t d m, ∃ tv m', ct t d m = (Normal tv, m') ∧ live (data tv) m') →
       is_Some (temporaryData s) ∨ JsInt (-2) ∉ indices →
       ∃ index, index ∈ indices ∧ invalidOutputIndex count index = true
                ∧ e = InvalidOutputIndex index).
Proof.
  revert indices s. induction outs as [| o outs IH]; intros indices s Hlen Hex.
  { destruct indices; [by apply Exists_nil in Hex | done]. }
  destruct indices as [| index indices]; [done |]. simpl in Hlen. injection Hlen as Hlen.
  simpl. destruct (invalidOutputIndex count index) eqn:Hinv.
  - rewrite createOutput_invalid by exact Hinv.
    exists (InvalidOutputIndex index), s. split; [reflexivity |].
    intros _ _ _. exists index. split; [by left | done].
  - apply Exists_cons in Hex as [Hex | Hex]; [congruence |].
    destruct (createOutput count o index ck ct s) as [r1 s1] eqn:H1.
    destruct r1 as [[tv gd] | e].
    + destruct (IH indices s1 Hlen Hex) as (e & s' & -> & Hwhich).
      exists e, s'. split; [reflexivity |].
      intros Hck Hct Hpush. destruct (Hwhich Hck Hct) as (idx & Hin & Hbad & ->).
      { destruct Hpush as [Hs | Hno].
        - left. by eapply createOutput_assigned.
        - right. intros Hin. apply Hno. by right. }
      exists idx. split; [by right | done].
    + exists e, s1. split; [reflexivity |].
      intros Hck Hct Hpush.
      destruct (createOutput_delivered count o index ck ct s Hck Hct Hinv) as (? & ? & ? & Heq);
        [| congruence].
      destruct Hpush as [Hs | Hno]; [by left |]. right. intros ->. apply Hno. by left.
Qed.

Lemma allocatingContext_delivers :
  (∀ i t d m, ∃ tv m', createKernelOutput allocatingContext i t d m = (Normal tv, m')
                        ∧ live (data tv) m')
  ∧ (∀ t d m, ∃ tv m', createTemporaryOutput allocatingContext t d m = (Normal tv, m')
                        ∧ live (data tv) m').
Proof.
  split; [intros i t d m | intros t d m]; simpl; unfold freshOutput;
    (eexists _, _; split; [reflexivity |]; apply (gdm_create_live (foldr Z.mul 4%Z d) m)).
Qed.

Lemma createOutputs_delivered count outs indices ck ct s :
  (∀ i t d m, ∃ tv m', ck i t d m = (Normal tv, m') ∧ live (data tv) m') →
  (∀ t d m, ∃ tv m', ct t d m = (Normal tv, m') ∧ live (data tv) m') →
  length indices = length outs →
  Forall (λ index, invalidOutputIndex count index = false) indices →
  is_Some (temporaryData s) ∨ JsInt (-2) ∉ indices →
  ∃ views datas s', createOutputs count outs indices ck ct s = (Normal (views, datas), s')
                    ∧ length views = length outs.
Proof.
  intros Hck Hct. revert indices s.
  induction outs as [| o outs IH]; intros indices s Hlen Hvalid Hpush; simpl.
  { by eexists _, _, _. }
  destruct indices as [| index indices]; [done |]. injection Hlen as Hlen.
  apply Forall_cons in Hvalid as [Hv Hvalid]. simpl.
  destruct (createOutput_delivered count o index ck ct s Hck Hct Hv) as (tv & gd & s1 & H1).
  { destruct Hpush as [Hs | Hno]; [by left |]. right. intros ->. apply Hno. by left. }
  rewrite H1.
  destruct (IH indices s1 Hlen Hvalid) as (views & datas & s' & -> & Hl).
  { destruct Hpush as [Hs | Hno].
    - left. by eapply createOutput_assigned.
    - right. intros Hin. apply Hno. by right. }
  eexists _, _, _. split; [reflexivity |]. simpl. by rewrite Hl.
Qed.

Lemma defaultIndices_valid n :
  Forall (λ index, invalidOutputIndex n index = false)
    (map (λ i, JsInt (Z.of_nat i)) (seq 0 n)).
Proof.
  apply Forall_forall. intros index Hin.
  apply list_elem_of_fmap in Hin as (i & -> & Hi). apply elem_of_seq in Hi.
  unfold invalidOutputIndex. simpl.
  destruct (Z.ltb_spec (Z.of_nat i) (-2)); [lia |].
  destruct (Z.leb_spec (Z.of_nat n) (Z.of_nat i)); [lia | reflexivity].
Qed.

(** With the indices i, i+1, ... the second loop of [run] asks the
    kernel-output factory for each declared output in turn and tracks
    nothing. *)
Lemma createOutputs_in_order count outs i ck ct s :
  (∀ j t d m, ∃ tv m', ck j t d m = (Normal tv, m') ∧ live (data tv) m') →
  i + length outs ≤ count →
  ∃ views datas s',
    createOutputs count outs (map (λ j, JsInt (Z.of_nat j)) (seq i (length outs))) ck ct s
      = (Normal (views, datas), s')
    ∧ kernelOutputsInOrder ck i outs (gpuDataManager s) = (Normal views, gpuDataManager s')
    ∧ length views = length outs
    ∧ temporaryData s' = temporaryData s
    ∧ kernelPersistentData s' = kernelPersistentData s.
Proof.
  intros Hck. revert i s.
  induction outs as [| o outs IH]; intros i s Hle; simpl.
  { by eexists _, _, _. }
  simpl in Hle. unfold createOutput.
  assert (Hinv : invalidOutputIndex count (JsInt (Z.of_nat i)) = false).
  { unfold invalidOutputIndex. simpl.
    destruct (Z.ltb_spec (Z.of_nat i) (-2)); [lia |].
    destruct (Z.leb_spec (Z.of_nat count) (Z.of_nat i)); [lia | reflexivity]. }
  rewrite Hinv. simpl.
  destruct (Z.eqb_spec (Z.of_nat i) (-2)); [lia |].
  destruct (Z.eqb_spec (Z.of_nat i) (-1)); [lia |]. simpl.
  destruct (Hck (Z.of_nat i) (outDataType o) (outDims o) (gpuDataManager s))
    as (tv & m' & -> & Hlive).
  destruct (gdm_get_live _ _ Hlive) as [gd ->].
  destruct (IH (S i) (withGpuDataManager m' s)) as (views & datas & s' & -> & Hspec & Hl & Ht & Hp);
    [lia |].
  simpl in Hspec. rewrite Hspec.
  eexists _, _, _. split; [reflexivity |]. split; [reflexivity |].
  simpl. split; [by rewrite Hl |]. split; assumption.
Qed.

(** C10.  With as many inputs as the program declares, each with GPU
    data, and a kernel-output factory that delivers registered tensors,
    [run] with no requested output slot passes the output-count check and
    returns: it is [run] with the slots 0, 1, ..., n-1, for the n outputs
    the resolved program declares, and what it returns is one kernel
    output per declared output, asked of the factory with the indices 0,
    1, ..., n-1 in declaration order, none of them tracked as temporary
    or persistent. *)
Theorem run_default_output_indices
    (program : Program) (inputs : list TensorView)
    (ck : Z → Z → list Z → GpuDataManager → Completion TensorView * GpuDataManager)
    (ct : Z → list Z → GpuDataManager → Completion TensorView * GpuDataManager)
    (s : WebGpuBackend) (inputDatas : list GpuData) :
  length inputs = length (inputTypes (programMetadata program)) →
  inputGpuData (gpuDataManager s) inputs = Normal inputDatas →
  (∀ i t d m, ∃ tv m', ck i t d m = (Normal tv, m') ∧ live (data tv) m') →
  let info :=
    resolveProgramInfo
      (getArtifact (getProgramInfoUniqueKey (programMetadata program)
                      (map dims inputs) (map type inputDatas)) (programManager s))
      program in
  let n := length (outputs info) in
  run program inputs [] ck ct s
    = run program inputs (map (λ i, JsInt (Z.of_nat i)) (seq 0 n)) ck ct s
  ∧ ∃ views m' s',
      run program inputs [] ck ct s = (Normal views, s')
      ∧ kernelOutputsInOrder ck 0 (outputs info) (gpuDataManager s) = (Normal views, m')
      ∧ length views = n
      ∧ storageCache (gpuDataManager s') = storageCache m'
      ∧ temporaryData s' = temporaryData s
      ∧ kernelPersistentData s' = kernelPersistentData s.
Proof.
  intros Harity Hin Hck info n.
  assert (Hval : validatedOutputIndices [] info = map (λ i, JsInt (Z.of_nat i)) (seq 0 n)).
  { unfold validatedOutputIndices. apply imap_index. }
  split.
  { unfold run. rewrite Hin. fold info. by rewrite (validatedOutputIndices_default info). }
  destruct (createOutputs_in_order n (outputs info) 0 ck ct s Hck)
    as (views & datas & s1 & Hco & Hspec & Hlen & Ht & Hp); [fold n; lia |].
  fold n in Hco. exists views, (gpuDataManager s1).
  unfold run. rewrite Harity, Nat.eqb_refl, Hin. cbv zeta. cbn [negb]. fold info.
  rewrite Hval, length_map, length_seq. fold n. rewrite Nat.eqb_refl. cbn [negb]. rewrite Hco.
  match goal with |- context [ensureArtifact ?a ?k ?i s1] =>
    pose proof (ensureArtifact_frame a k i s1) as Hen;
    destruct (ensureArtifact a k i s1) as [a' s2] end.
  simpl in Hen. destruct Hen as (Hg2 & Ht2 & _ & _ & Hp2).
  eexists. split; [reflexivity |]. split; [exact Hspec |]. split; [exact Hlen |].
  match goal with |- context [programManager_run ?a ?i ?o ?g s2] =>
    pose proof (programManager_run_frame a i o g s2) as Hpr end.
  simpl in Hpr. destruct Hpr as (Hg' & _ & Ht' & _ & _ & Hp').
  split; [by rewrite Hg', Hg2 |]. split; congruence.
Qed.

Lemma run_default_output_indices_witness :
  run addProgram [tensorA; tensorB] []
    (createKernelOutput allocatingContext) (createTemporaryOutput allocatingContext) kernelBackend
  = run addProgram [tensorA; tensorB] [JsInt 0]
      (createKernelOutput allocatingContext) (createTemporaryOutput allocatingContext)
      kernelBackend
  ∧ ∃ s', run addProgram [tensorA; tensorB] []
            (createKernelOutput allocatingContext) (createTemporaryOutput allocatingContext)
            kernelBackend = (Normal [tensorC], s').
Proof.
  destruct (run_default_output_indices addProgram [tensorA; tensorB]
              (createKernelOutput allocatingContext) (createTemporaryOutput allocatingContext)
              kernelBackend [ {| type := 0%Z; id := 1%Z |}; {| type := 0%Z; id := 2%Z |} ]
              eq_refl)
    as (Hsame & views & m' & s' & Hrun & Hspec & _).
  - vm_compute. reflexivity.
  - apply allocatingContext_delivers.
  - split; [exact Hsame |]. exists s'. rewrite Hrun.
    assert (Hviews : Normal views = Normal [tensorC]).
    { change (Normal views) with (Normal views, m').1. rewrite <- Hspec. vm_compute. reflexivity. }
    by injection Hviews as ->.
Defined.

(** C6, as the code has it.  For a [run] whose inputs pass validation,
    with n the number of outputs of the resolved program.  A list of
    requested slots that is not empty and whose length is not n makes
    [run] throw the output-size error (a ShapeMismatch), the backend
    unchanged.  A list of length n with an index outside the declared
    range (not one of the integers -2, -1, 0, ..., n-1) makes [run]
    throw: nothing is compiled or dispatched, the recording session, the
    program cache, the kernels and the executing marker are as before,
    and tracked temporaries stay distinct and live under well-behaved
    factories.  When the factories deliver registered tensors, and
    [temporaryData] has been assigned or no temporary slot is requested,
    the error is the invalid-index error (a ShapeMismatch) for an index
    outside the declared range. *)
Theorem run_output_mismatch
    (program : Program) (inputs : list TensorView) (outputIndices : list JsNumber)
    (context : ComputeContext) (s : WebGpuBackend) (inputDatas : list GpuData) :
  length inputs = length (inputTypes (programMetadata program)) →
  inputGpuData (gpuDataManager s) inputs = Normal inputDatas →
  let info :=
    resolveProgramInfo
      (getArtifact (getProgramInfoUniqueKey (programMetadata program)
                      (map dims inputs) (map type inputDatas)) (programManager s))
      program in
  let n := length (outputs info) in
  let result :=
    run program inputs outputIndices
      (createKernelOutput context) (createTemporaryOutput context) s in
  (outputIndices ≠ [] → length outputIndices ≠ n →
   result = (Abrupt (OutputSizeMustBeEqualTo n), s)
   ∧ errorKind (OutputSizeMustBeEqualTo n) = ShapeMismatch)
  ∧ (length outputIndices = n →
     (∃ index, index ∈ outputIndices ∧ outsideDeclaredRange n index) →
     ∃ e s', result = (Abrupt e, s')
       ∧ sameSession s s'
       ∧ currentKernelId s' = currentKernelId s
       ∧ kernels s' = kernels s
       ∧ (WellBehaved context → tempsLive s → tempsLive s' ∧ grows s s')
       ∧ ((∀ i t d m, ∃ tv m', createKernelOutput context i t d m = (Normal tv, m')
                                ∧ live (data tv) m') →
          (∀ t d m, ∃ tv m', createTemporaryOutput context t d m = (Normal tv, m')
                              ∧ live (data tv) m') →
          is_Some (temporaryData s) ∨ JsInt (-2) ∉ outputIndices →
          ∃ index, index ∈ outputIndices ∧ outsideDeclaredRange n index
                   ∧ e = InvalidOutputIndex index ∧ errorKind e = ShapeMismatch)).
Proof.
  intros Harity Hin info n result.
  assert (Hrun : result =
    if negb (length (validatedOutputIndices outputIndices info) =? n)%nat
    then (Abrupt (OutputSizeMustBeEqualTo n), s)
    else match createOutputs n (outputs info) (validatedOutputIndices outputIndices info)
                 (createKernelOutput context) (createTemporaryOutput context) s with
         | (Abrupt e, s1) => (Abrupt e, s1)
         | (Normal (outputTensorViews, outputDatas), s1) =>
             let '(a, s2) :=
               ensureArtifact
                 (getArtifact (getProgramInfoUniqueKey (programMetadata program)
                      (map dims inputs) (map type inputDatas)) (programManager s))
                 (getProgramInfoUniqueKey (programMetadata program)
                      (map dims inputs) (map type inputDatas)) info s1 in
             (Normal outputTensorViews,
              programManager_run a inputDatas outputDatas
                (dispatchGroup (programInfo a) inputs) s2)
         end).
  { unfold result, run. rewrite Harity, Nat.eqb_refl, Hin. reflexivity. }
  split.
  - intros Hne Hlen. split; [| reflexivity]. rewrite Hrun.
    rewrite (validatedOutputIndices_nonempty _ _ Hne).
    by destruct (Nat.eqb_spec (length outputIndices) n).
  - intros Hlen (bad & Hbadin & Hbad). rewrite Hrun.
    assert (Hex : Exists (λ index, invalidOutputIndex n index = true) outputIndices).
    { apply Exists_exists. exists bad. split; [exact Hbadin |].
      by apply invalidOutputIndex_outside. }
    rewrite validatedOutputIndices_nonempty by (intros ->; by apply elem_of_nil in Hbadin).
    rewrite Hlen, Nat.eqb_refl. simpl.
    destruct (createOutputs_invalid n (outputs info) outputIndices
                (createKernelOutput context) (createTemporaryOutput context) s Hlen Hex)
      as (e & s' & Hco & Hwhich).
    destruct (createOutputs_frame _ _ _ _ _ _ _ _ Hco) as (Hss & Hc & Hk).
    rewrite Hco. exists e, s'. split; [reflexivity |].
    split; [exact Hss |]. split; [exact Hc |]. split; [exact Hk |]. split.
    + intros HW Htl. by destruct (createOutputs_grows _ _ _ _ _ _ _ HW Htl Hco) as (? & ? & _).
    + intros Hck Hct Hpush. destruct (Hwhich Hck Hct Hpush) as (index & Hidx & Hinv & ->).
      exists index. split; [exact Hidx |]. split; [| done].
      by apply invalidOutputIndex_outside.
Qed.

Lemma run_output_mismatch_witness :
  run addProgram [tensorA; tensorB] [JsInt 0; JsInt 0]
    (createKernelOutput allocatingContext) (createTemporaryOutput allocatingContext) kernelBackend
  = (Abrupt (OutputSizeMustBeEqualTo 1), kernelBackend)
  ∧ ∃ e s', run addProgram [tensorA; tensorB] [JsInt 5]
              (createKernelOutput allocatingContext) (createTemporaryOutput allocatingContext)
              kernelBackend = (Abrupt e, s')
            ∧ errorKind e = ShapeMismatch.
Proof.
  split.
  - refine (proj1 (proj1 (run_output_mismatch addProgram [tensorA; tensorB] [JsInt 0; JsInt 0]
             allocatingContext kernelBackend
             [ {| type := 0%Z; id := 1%Z |}; {| type := 0%Z; id := 2%Z |} ] eq_refl _) _ _)).
    + vm_compute. reflexivity.
    + discriminate.
    + vm_compute. lia.
  - destruct (proj2 (run_output_mismatch addProgram [tensorA; tensorB] [JsInt 5]
             allocatingContext kernelBackend
             [ {| type := 0%Z; id := 1%Z |}; {| type := 0%Z; id := 2%Z |} ] eq_refl
             ltac:(vm_compute; reflexivity)))
      as (e & s' & Hrun & _ & _ & _ & _ & Herr).
    + vm_compute. reflexivity.
    + exists (JsInt 5). split; [by left |]. intros z [= <-]. vm_compute. right. discriminate.
    + exists e, s'. split; [exact Hrun |].
      destruct (Herr (proj1 allocatingContext_delivers) (proj2 allocatingContext_delivers))
        as (_ & _ & _ & _ & Hkind); [| exact Hkind].
      right. intros Hin. apply list_elem_of_singleton in Hin. discriminate.
Defined.

(** C6 as stated fails: with no requested slot and one declared output
    the counts differ, and [run] returns. *)
Lemma run_without_slots_is_no_mismatch :
  length ([] : list JsNumber) ≠ length (outputs addInfo)
  ∧ ∃ s', run addProgram [tensorA; tensorB] []
            (createKernelOutput allocatingContext) (createTemporaryOutput allocatingContext)
            kernelBackend = (Normal [tensorC], s').
Proof.
  split; [simpl; lia |]. eexists. vm_compute. reflexivity.
Qed.

(** ** Strings and separators *)

Lemma append_inv_head p s1 s2 : p +:+ s1 = p +:+ s2 → s1 = s2.
Proof. induction p as [| a p IH]; simpl; [done |]. intros [= H]. by apply IH. Qed.

Lemma avoids_app c s1 s2 : avoids c s1 → avoids c s2 → avoids c (s1 +:+ s2).
Proof. induction s1 as [| a s1 IH]; simpl; [done |]. intros [? ?] ?. split; auto. Qed.

Lemma split_at_separator c s1 t1 s2 t2 :
  avoids c s1 → avoids c s2 →
  s1 +:+ String c t1 = s2 +:+ String c t2 → s1 = s2 ∧ t1 = t2.
Proof.
  revert s2. induction s1 as [| a s1 IH]; intros [| b s2]; simpl.
  - intros _ _ [= ->]. done.
  - intros _ [Hb _] [= <- _]. done.
  - intros [Ha _] _ [= -> _]. done.
  - intros [_ H1] [_ H2] [= -> H]. destruct (IH s2 H1 H2 H) as [-> ->]. done.
Qed.

Lemma no_separator_inside c s1 s2 t : avoids c s1 → s1 ≠ s2 +:+ String c t.
Proof.
  revert s2. induction s1 as [| a s1 IH]; intros [| b s2]; simpl; try done.
  - intros [Ha _] [= -> _]. done.
  - intros [_ H1] [= _ H]. by apply (IH s2 H1).
Qed.

Lemma join_cons2 c x y l :
  join (String c "") (x :: y :: l) = x +:+ String c (join (String c "") (y :: l)).
Proof. reflexivity. Qed.

Lemma join_inj_same_length c l1 l2 :
  Forall (avoids c) l1 → Forall (avoids c) l2 →
  length l1 = length l2 →
  join (String c "") l1 = join (String c "") l2 → l1 = l2.
Proof.
  revert l2. induction l1 as [| x l1 IH]; intros [| y l2] H1 H2 Hlen; try done.
  apply Forall_cons in H1 as [Hx H1]. apply Forall_cons in H2 as [Hy H2].
  injection Hlen as Hlen.
  destruct l1 as [| x' l1], l2 as [| y' l2]; try done.
  - simpl. by intros ->.
  - rewrite !join_cons2. intros H.
    apply split_at_separator in H as [-> H]; [| done..].
    f_equal. by apply IH.
Qed.

Lemma join_inj_nonempty c l1 l2 :
  Forall (λ s, avoids c s ∧ s ≠ "") l1 → Forall (λ s, avoids c s ∧ s ≠ "") l2 →
  join (String c "") l1 = join (String c "") l2 → l1 = l2.
Proof.
  revert l2. induction l1 as [| x l1 IH]; intros [| y l2] H1 H2; try done.
  - apply Forall_cons in H2 as [[_ Hy] _]. destruct l2; simpl; [congruence |].
    destruct y; [done | discriminate].
  - apply Forall_cons in H1 as [[_ Hx] _]. destruct l1; simpl; [congruence |].
    destruct x; [done | discriminate].
  - apply Forall_cons in H1 as [[Hx Hxn] H1]. apply Forall_cons in H2 as [[Hy Hyn] H2].
    destruct l1 as [| x' l1], l2 as [| y' l2].
    + simpl. by intros ->.
    + rewrite join_cons2. simpl. intros H. by apply no_separator_inside in H.
    + rewrite join_cons2. simpl. intros H. symmetry in H. by apply no_separator_inside in H.
    + rewrite !join_cons2. intros H.
      apply split_at_separator in H as [-> H]; [| done..].
      f_equal. by apply IH.
Qed.

Lemma join_avoids c sep l :
  avoids c sep → Forall (avoids c) l → avoids c (join sep l).
Proof.
  intros Hsep. induction l as [| x l IH]; intros Hl; [done |].
  apply Forall_cons in Hl as [Hx Hl]. destruct l as [| y l]; [done |].
  change (join sep (x :: y :: l)) with (x +:+ sep +:+ join sep (y :: l)).
  apply avoids_app; [done |]. apply avoids_app; [done |]. by apply IH.
Qed.

Lemma pretty_N_go_avoids c x s :
  (∀ d, pretty_N_char d ≠ c) → avoids c s → avoids c (pretty_N_go x s).
Proof.
  intros Hc. revert s. induction (N.lt_wf_0 x) as [x _ IH]; intros s Hs.
  assert (x = 0 ∨ 0 < x)%N as [-> | Hpos] by lia.
  - by rewrite pretty_N_go_0.
  - rewrite pretty_N_go_step by done. apply IH; [by apply N.div_lt |].
    split; [apply Hc | exact Hs].
Qed.

Lemma pretty_N_go_nonempty x s : s ≠ "" → pretty_N_go x s ≠ "".
Proof.
  revert s. induction (N.lt_wf_0 x) as [x _ IH]; intros s Hs.
  assert (x = 0 ∨ 0 < x)%N as [-> | Hpos] by lia.
  - by rewrite pretty_N_go_0.
  - rewrite pretty_N_go_step by done. apply IH; [by apply N.div_lt | done].
Qed.

Lemma pretty_N_avoids c (x : N) :
  (∀ d, pretty_N_char d ≠ c) → avoids c (pretty x) ∧ pretty x ≠ "".
Proof.
  intros Hc. unfold pretty, pretty_N. case_decide as Hx.
  - split; [| done]. split; [| done]. apply (Hc 0%N).
  - split; [by apply pretty_N_go_avoids |].
    rewrite pretty_N_go_step by lia. by apply pretty_N_go_nonempty.
Qed.

Lemma pretty_Z_avoids c (z : Z) :
  (∀ d, pretty_N_char d ≠ c) → c ≠ "-"%char →
  avoids c (pretty z) ∧ pretty z ≠ "".
Proof.
  intros Hc Hdash. unfold pretty, pretty_Z. destruct z as [| p | p].
  - split; [| done]. split; [| done]. apply (Hc 0%N).
  - apply (pretty_N_avoids c (N.pos p) Hc).
  - split; [| done]. simpl. split; [done |]. apply (pretty_N_avoids c (N.pos p) Hc).
Qed.

Lemma digits_are_not c :
  c = ","%char ∨ c = "_"%char ∨ c = ";"%char → ∀ d, pretty_N_char d ≠ c.
Proof.
  intros Hc d. unfold pretty_N_char.
  destruct Hc as [-> | [-> | ->]]; repeat case_match; discriminate.
Qed.

Lemma shape_string_inj (d1 d2 : list Z) :
  join "," (map pretty d1) = join "," (map pretty d2) → d1 = d2.
Proof.
  intros H. apply (inj (fmap pretty)).
  apply (join_inj_nonempty ","%char); [| | exact H];
    apply Forall_forall; intros x Hx; apply list_elem_of_fmap in Hx as (z & -> & _);
    apply pretty_Z_avoids; (apply digits_are_not; auto) || discriminate.
Qed.

Lemma shape_string_avoids c (d : list Z) :
  c = "_"%char ∨ c = ";"%char → avoids c (join "," (map pretty d)).
Proof.
  intros Hc. apply join_avoids.
  - destruct Hc as [-> | ->]; split; done.
  - apply Forall_forall. intros x Hx. apply list_elem_of_fmap in Hx as (z & -> & _).
    apply pretty_Z_avoids; [apply digits_are_not | ]; destruct Hc as [-> | ->];
      auto; discriminate.
Qed.







(** Without the restriction two identities can share a key. *)
Example key_collision :
  getProgramInfoUniqueKey {| name := "a[b]"; cacheHint := None; inputTypes := [] |} [] []
  = getProgramInfoUniqueKey {| name := "a"; cacheHint := Some "b"; inputTypes := [] |} [] [].
Proof. reflexivity. Qed.

(** ** The program cache *)

Lemma key_of_identity m m' shapes types :
  name m' = name m → cacheHint m' = cacheHint m →
  getProgramInfoUniqueKey m' shapes types = getProgramInfoUniqueKey m shapes types.
Proof. intros Hn Hc. unfold getProgramInfoUniqueKey. by rewrite Hn, Hc. Qed.

Lemma run_programManager_abrupt program inputs outputIndices ck ct s e s' :
  run program inputs outputIndices ck ct s = (Abrupt e, s') →
  programManager s' = programManager s.
Proof.
  unfold run. destruct (negb _); [by intros [= _ <-] |].
  destruct (inputGpuData _ _) as [inputDatas | e0]; [| by intros [= _ <-]].
  destruct (negb _); [by intros [= _ <-] |].
  match goal with |- context [createOutputs ?c ?o ?i ck ct s] =>
    destruct (createOutputs c o i ck ct s) as [r1 s1] eqn:H1 end.
  apply createOutputs_frame in H1 as ((_ & Hpm & _) & _).
  destruct r1 as [[views datas] | e1]; [| by intros [= _ <-]].
  by destruct (ensureArtifact _ _ _ s1).
Qed.

Lemma run_programManager_normal program inputs outputIndices ck ct s views s' :
  run program inputs outputIndices ck ct s = (Normal views, s') →
  ∃ inputDatas,
    inputGpuData (gpuDataManager s) inputs = Normal inputDatas
    ∧ let key := getProgramInfoUniqueKey (programMetadata program)
                   (map dims inputs) (map type inputDatas) in
      let info := resolveProgramInfo (getArtifact key (programManager s)) program in
      programManager s' =
      match getArtifact key (programManager s) with
      | Some a => noteDispatch a (programManager s)
      | None =>
          noteDispatch (build info (programManager s)).1
            (setArtifact key (build info (programManager s)).1
               (build info (programManager s)).2)
      end.
Proof.
  unfold run. destruct (negb _); [done |].
  destruct (inputGpuData _ _) as [inputDatas | e0]; [| done].
  destruct (negb _); [done |].
  match goal with |- context [createOutputs ?c ?o ?i ck ct s] =>
    destruct (createOutputs c o i ck ct s) as [r1 s1] eqn:H1 end.
  apply createOutputs_frame in H1 as ((_ & Hpm & _) & _).
  destruct r1 as [[views1 datas] | e1]; [| done].
  intros H. exists inputDatas. split; [reflexivity |]. simpl.
  unfold ensureArtifact in H.
  destruct (getArtifact _ (programManager s)) as [a |] eqn:Hart.
  - injection H as <- <-.
    match goal with |- context [programManager_run ?a ?i ?o ?g s1] =>
      pose proof (programManager_run_frame a i o g s1) as Hpr end.
    simpl in Hpr. destruct Hpr as (_ & -> & _). by rewrite Hpm.
  - simpl in H. injection H as <- <-.
    match goal with |- context [programManager_run ?a ?i ?o ?g ?x] =>
      pose proof (programManager_run_frame a i o g x) as Hpr end.
    simpl in Hpr. destruct Hpr as (_ & -> & _). simpl. by rewrite Hpm.
Qed.






(** ** Initialization *)

Lemma deviceDescriptor_limits adapter timestampQuery :
  requiredLimits (deviceDescriptor adapter timestampQuery) = adapterLimits adapter.
Proof. unfold deviceDescriptor. simpl. by destruct (adapterLimits adapter). Qed.

(** C9, as the code has it.  The onnxjs [initialize] never throws: it
    returns false when WebGPU is unavailable, when no adapter is
    obtained, and when acquiring the adapter or the device throws;
    otherwise it returns true, with the device the adapter granted.  The
    JSEP [initialize] returns on success, with that device, and throws on
    each of these failures: its own error when WebGPU is unavailable or
    no adapter is obtained, the platform's when acquiring throws.  In both
    the device is requested with the adapter's own limits. *)
Theorem initialize_outcomes (threshold : nat) (p : Platform) :
  (∃ ok b, Onnxjs.initialize p = Normal (ok, b)
     ∧ match navigator_gpu p with
       | Some (Normal (Some adapter)) =>
           let timestampQuery := hasFeature "timestamp-query" adapter in
           match requestDevice adapter (deviceDescriptor adapter timestampQuery) with
           | Normal d =>
               ok = true
               ∧ ∃ backend, b = Some backend
                   ∧ Onnxjs.device backend = (if timestampQuery then createQuerySet d else d)
           | Abrupt _ => ok = false ∧ b = None
           end
       | _ => ok = false ∧ b = None
       end)
  ∧ match navigator_gpu p with
    | None => initialize threshold p = Abrupt WebGpuNotAvailable
    | Some (Abrupt e) => initialize threshold p = Abrupt e
    | Some (Normal None) => initialize threshold p = Abrupt FailedToGetGpuAdapter
    | Some (Normal (Some adapter)) =>
        let timestampQuery :=
          hasFeature "timestamp-query" adapter && String.eqb (profilingMode p) "default" in
        match requestDevice adapter (deviceDescriptor adapter timestampQuery) with
        | Abrupt e => initialize threshold p = Abrupt e
        | Normal d =>
            ∃ backend, initialize threshold p = Normal backend
              ∧ device backend = (if timestampQuery then createQuerySet d else d)
              ∧ currentKernelId backend = None
              ∧ commandEncoder backend = None
        end
    end
  ∧ ∀ adapter timestampQuery,
      requiredLimits (deviceDescriptor adapter timestampQuery) = adapterLimits adapter.
Proof.
  split; [| split; [| apply deviceDescriptor_limits]].
  - unfold Onnxjs.initialize, Onnxjs.initializeBody.
    destruct (navigator_gpu p) as [[[adapter |] | e] |]; try (eexists _, _; split; done).
    simpl. destruct (requestDevice adapter _) as [d | e]; eexists _, _; (split; [reflexivity |]).
    + split; [reflexivity |]. eexists. split; reflexivity.
    + done.
  - unfold initialize.
    destruct (navigator_gpu p) as [[[adapter |] | e] |]; try reflexivity.
    simpl. destruct (requestDevice adapter _) as [d | e]; [| reflexivity].
    eexists. split; [reflexivity |]. repeat split.
Qed.

(** C9 as stated fails: when WebGPU is unavailable, or the adapter gives
    no device, the JSEP [initialize] throws. *)
Lemma jsep_initialize_throws :
  initialize 16 noGpuPlatform = Abrupt WebGpuNotAvailable
  ∧ initialize 16 refusingPlatform = Abrupt (OtherError "device lost")
  ∧ Onnxjs.initialize noGpuPlatform = Normal (false, None)
  ∧ Onnxjs.initialize refusingPlatform = Normal (false, None).
Proof. repeat split. Qed.

Example initialize_sample :
  initialize 16 samplePlatform = Normal idleBackend
  ∧ Onnxjs.initialize samplePlatform = Normal (true, Some idleOnnxjsBackend).
Proof. split; reflexivity. Qed.

(** * Further properties *)

(** ** The recording session stays well formed *)

Lemma passState_snoc inPass cmds c :
  passState inPass (cmds ++ [c])
  = match passState inPass cmds with
    | Some st => passState st [c]
    | None => None
    end.
Proof.
  revert inPass. induction cmds as [| x cmds IH]; intros inPass; simpl.
  - reflexivity.
  - destruct x, inPass; simpl; auto.
Qed.

Lemma sessionOK_getCommandEncoder d encoder pass :
  sessionOK d encoder pass →
  match encoder with
  | Some e => sessionOK d (Some e) pass
  | None => sessionOK (createCommandEncoder d).2 (Some (createCommandEncoder d).1) pass
  end.
Proof.
  destruct encoder as [e |]; [done |].
  intros [Hq ->]. split; [exact Hq |]. simpl.
  exists []. rewrite lookup_insert_eq. split; [reflexivity |]. by left.
Qed.

Lemma sessionOK_begin d e :
  sessionOK d (Some e) None →
  sessionOK (beginComputePass e d).2 (Some e) (Some (beginComputePass e d).1).
Proof.
  intros [Hq (cmds & Hcmds & [[_ Hst] | [? _]])]; [| done].
  split; [exact Hq |]. simpl. exists (cmds ++ [BeginComputePass]).
  rewrite lookup_alter_eq, Hcmds. split; [reflexivity |]. right.
  split; [reflexivity |]. by rewrite passState_snoc, Hst.
Qed.

Lemma sessionOK_end d encoder p :
  sessionOK d encoder (Some p) → sessionOK (passEnd p d) encoder None.
Proof.
  intros [Hq Henc]. destruct encoder as [e |]; [| done].
  destruct Henc as (cmds & Hcmds & [[? _] | [[= ->] Hst]]); [done |].
  split; [exact Hq |]. simpl. exists (cmds ++ [EndPass]).
  rewrite lookup_alter_eq, Hcmds. split; [reflexivity |]. left.
  split; [reflexivity |]. by rewrite passState_snoc, Hst.
Qed.

Lemma sessionOK_dispatch d encoder p pipeline inputs outputs groups :
  sessionOK d encoder (Some p) →
  sessionOK (dispatchWorkgroups p pipeline inputs outputs groups d) encoder (Some p).
Proof.
  intros [Hq Henc]. destruct encoder as [e |]; [| done].
  destruct Henc as (cmds & Hcmds & [[? _] | [[= ->] Hst]]); [done |].
  split; [exact Hq |]. simpl.
  exists (cmds ++ [DispatchWorkgroups pipeline inputs outputs groups]).
  rewrite lookup_alter_eq, Hcmds. split; [reflexivity |]. right.
  split; [reflexivity |]. by rewrite passState_snoc, Hst.
Qed.

Lemma sessionOK_submit d e :
  sessionOK d (Some e) None →
  sessionOK (submit [(finish e d).1] (finish e d).2) None None
  ∧ closedBuffer (finish e d).1.
Proof.
  intros [Hq (cmds & Hcmds & [[_ Hst] | [? _]])]; [| done].
  assert (Hclosed : closedBuffer (finish e d).1).
  { unfold finish, recorded, closedBuffer. simpl. by rewrite Hcmds. }
  split; [| exact Hclosed]. split; [| reflexivity]. simpl.
  apply Forall_app. split; [exact Hq |]. by repeat constructor.
Qed.

Lemma getCommandEncoder_ok s :
  backendSessionOK s → backendSessionOK (getCommandEncoder s).2.
Proof.
  unfold backendSessionOK, getCommandEncoder. intros H.
  apply sessionOK_getCommandEncoder in H.
  destruct (commandEncoder s) as [e |] eqn:He; simpl; [by rewrite He | exact H].
Qed.

Lemma getCommandEncoder_open s :
  commandEncoder (getCommandEncoder s).2 = Some (getCommandEncoder s).1.
Proof. unfold getCommandEncoder. destruct (commandEncoder s) eqn:He; simpl; done. Qed.

Lemma getCommandEncoder_pass s :
  computePassEncoder (getCommandEncoder s).2 = computePassEncoder s.
Proof. unfold getCommandEncoder. destruct (commandEncoder s); reflexivity. Qed.

Lemma getComputePassEncoder_ok s :
  backendSessionOK s → backendSessionOK (getComputePassEncoder s).2.
Proof.
  intros H. unfold getComputePassEncoder.
  destruct (computePassEncoder s) as [p |] eqn:Hp; [exact H |].
  pose proof (getCommandEncoder_ok s H) as H1.
  pose proof (getCommandEncoder_open s) as He.
  pose proof (getCommandEncoder_pass s) as Hp1. rewrite Hp in Hp1.
  destruct (getCommandEncoder s) as [e s1]. simpl in *.
  unfold backendSessionOK in *. simpl. rewrite He. rewrite He, Hp1 in H1.
  by apply sessionOK_begin.
Qed.

Lemma endComputePass_ok s : backendSessionOK s → backendSessionOK (endComputePass s).
Proof.
  unfold backendSessionOK, endComputePass. intros H.
  destruct (computePassEncoder s) as [p |] eqn:Hp; simpl; [| by rewrite Hp].
  by apply sessionOK_end.
Qed.

Lemma flush_ok s : backendSessionOK s → backendSessionOK (flush s).
Proof.
  intros H. apply endComputePass_ok in H.
  pose proof (endComputePass_closed s) as Hp.
  unfold flush.
  pose proof (getCommandEncoder_ok _ H) as H1.
  pose proof (getCommandEncoder_open (endComputePass s)) as He.
  pose proof (getCommandEncoder_pass (endComputePass s)) as Hp1. rewrite Hp in Hp1.
  destruct (getCommandEncoder (endComputePass s)) as [e s2]. simpl in *.
  unfold backendSessionOK in *. rewrite He, Hp1 in H1.
  apply sessionOK_submit in H1 as [H1 _]. simpl. by rewrite Hp1.
Qed.

Lemma programManager_run_ok a inputs outputs groups s :
  backendSessionOK s → backendSessionOK (programManager_run a inputs outputs groups s).
Proof.
  intros H. unfold programManager_run.
  pose proof (getComputePassEncoder_ok s H) as H1.
  assert (Hp : computePassEncoder (getComputePassEncoder s).2
               = Some (getComputePassEncoder s).1).
  { unfold getComputePassEncoder. destruct (computePassEncoder s) eqn:E; [done |].
    by destruct (getCommandEncoder s). }
  destruct (getComputePassEncoder s) as [p s1]. simpl in *.
  match goal with |- context [if ?b then _ else _] => destruct b end;
    [apply flush_ok |];
    unfold backendSessionOK in *; simpl; rewrite Hp in *; by apply sessionOK_dispatch.
Qed.

Lemma backendSessionOK_same s s' :
  sameSession s s' → backendSessionOK s → backendSessionOK s'.
Proof. unfold backendSessionOK. intros (-> & _ & -> & -> & _). done. Qed.

Lemma run_ok program inputs outputIndices ck ct s r s' :
  run program inputs outputIndices ck ct s = (r, s') →
  backendSessionOK s → backendSessionOK s'.
Proof.
  unfold run. destruct (negb _); [by intros [= _ <-] |].
  destruct (inputGpuData _ _) as [inputDatas | e0]; [| by intros [= _ <-]].
  destruct (negb _); [by intros [= _ <-] |].
  match goal with |- context [createOutputs ?c ?o ?i ck ct s] =>
    destruct (createOutputs c o i ck ct s) as [r1 s1] eqn:H1 end.
  apply createOutputs_frame in H1 as (Hss & _).
  destruct r1 as [[views datas] | e1];
    [| intros [= _ <-]; by apply backendSessionOK_same].
  intros Hrun Hok. apply (backendSessionOK_same _ _ Hss) in Hok.
  unfold ensureArtifact in Hrun.
  destruct (getArtifact _ _); simpl in Hrun; injection Hrun as _ <-;
    by apply programManager_run_ok.
Qed.

Lemma runKernelBody_ok invoke context body s r s' :
  (∀ kernelId c x r1 x1, invoke kernelId c x = Some (r1, x1) →
                         backendSessionOK x → backendSessionOK x1) →
  runKernelBody invoke context body s = Some (r, s') →
  backendSessionOK s → backendSessionOK s'.
Proof.
  intros Hinv. revert s.
  induction body as [status | e | program inputs outputIndices k IH | kernelId context' k IH];
    intros s; simpl.
  - by intros [= _ <-].
  - by intros [= _ <-].
  - destruct (run program inputs outputIndices _ _ s) as [r1 s1] eqn:Hrun.
    intros Hbody Hok. eapply IH; [exact Hbody |]. eapply run_ok; eauto.
  - destruct (invoke kernelId context' s) as [[r1 s1] |] eqn:Hi; [| done].
    intros Hbody Hok. eapply IH; [exact Hbody |]. eapply Hinv; eauto.
Qed.

Lemma computeKernel_ok fuel kernelId context s r s' :
  computeKernel fuel kernelId context s = Some (r, s') →
  backendSessionOK s → backendSessionOK s'.
Proof.
  revert kernelId context s r s'.
  induction fuel as [| fuel IH]; intros kernelId context s r s'; [done |].
  rewrite computeKernel_unfold.
  destruct (kernels s !! kernelId) as [kernel |]; [| by intros [= _ <-]].
  destruct (currentKernelId s); [by intros [= _ <-] |].
  destruct (parseAttributes _ _ _) as [[attribute s2] | e] eqn:Hparse;
    [| by intros [= _ <-]].
  apply parseAttributes_frame in Hparse as (_ & _ & _ & _ & Hss).
  destruct (runKernelBody _ _ _ _) as [[r4 s4] |] eqn:Hbody; [| done].
  intros Hres Hok.
  assert (Hok4 : backendSessionOK s4).
  { eapply runKernelBody_ok; [| exact Hbody |].
    - intros kid c x r1 x1 Hx. by apply IH with kid c r1.
    - eapply backendSessionOK_same; [| exact Hok].
      destruct Hss as (? & ? & ? & ? & ?). simpl in *. repeat split; assumption. }
  unfold releaseTemporaryData in Hres.
  destruct (temporaryData s4) as [l |]; [| injection Hres as _ <-; exact Hok4].
  destruct (releaseEach _ _) as [[[] | e] m]; injection Hres as _ <-; exact Hok4.
Qed.

(** X1.  On a backend whose recording session is well formed, each of
    [getCommandEncoder], [getComputePassEncoder], [endComputePass],
    [flush], [run] and [computeKernel] leaves it well formed: every
    command buffer that was submitted to the device queue has each of its
    compute passes ended and its dispatches inside passes, a compute pass
    is open only on the open command encoder, and it is the one pass open
    there. *)
Theorem recording_session_stays_well_formed (s : WebGpuBackend) :
  backendSessionOK s →
  backendSessionOK (getCommandEncoder s).2
  ∧ backendSessionOK (getComputePassEncoder s).2
  ∧ backendSessionOK (endComputePass s)
  ∧ backendSessionOK (flush s)
  ∧ (∀ program inputs outputIndices ck ct r s',
       run program inputs outputIndices ck ct s = (r, s') → backendSessionOK s')
  ∧ (∀ fuel kernelId context r s',
       computeKernel fuel kernelId context s = Some (r, s') → backendSessionOK s').
Proof.
  intros H.
  split; [by apply getCommandEncoder_ok |].
  split; [by apply getComputePassEncoder_ok |].
  split; [by apply endComputePass_ok |].
  split; [by apply flush_ok |].
  split.
  - intros program inputs outputIndices ck ct r s' Hrun. eapply run_ok; eauto.
  - intros fuel kernelId context r s' Hck. eapply computeKernel_ok; eauto.
Qed.

Lemma idleBackend_ok : backendSessionOK idleBackend.
Proof. split; [constructor | reflexivity]. Qed.

Lemma recording_session_stays_well_formed_witness :
  backendSessionOK (flush idleBackend) ∧ backendSessionOK afterOuter.
Proof.
  destruct (recording_session_stays_well_formed idleBackend idleBackend_ok)
    as (_ & _ & _ & Hflush & _).
  split; [exact Hflush |].
  assert (Hk : backendSessionOK kernelBackend) by (split; [constructor | reflexivity]).
  destruct (recording_session_stays_well_formed kernelBackend Hk) as (_ & _ & _ & _ & _ & Hck).
  apply (Hck 2 1%Z allocatingContext (Normal 0%Z)). vm_compute. reflexivity.
Defined.

Lemma onnxjs_getCommandEncoder_ok t :
  onnxjsSessionOK t → onnxjsSessionOK (Onnxjs.getCommandEncoder t).2.
Proof.
  unfold onnxjsSessionOK, Onnxjs.getCommandEncoder. intros H.
  apply sessionOK_getCommandEncoder in H.
  destruct (Onnxjs.commandEncoder t) as [e |] eqn:He; simpl; [by rewrite He | exact H].
Qed.

Lemma onnxjs_getComputePassEncoder_ok t :
  onnxjsSessionOK t → onnxjsSessionOK (Onnxjs.getComputePassEncoder t).2.
Proof.
  intros H. unfold Onnxjs.getComputePassEncoder.
  destruct (Onnxjs.computePassEncoder t) as [p |] eqn:Hp; [exact H |].
  pose proof (onnxjs_getCommandEncoder_ok t H) as H1.
  unfold Onnxjs.getCommandEncoder in *.
  destruct (Onnxjs.commandEncoder t) as [e |] eqn:He; simpl in *;
    unfold onnxjsSessionOK in *; simpl in *.
  - rewrite He, Hp in H1. rewrite He. by apply sessionOK_begin.
  - rewrite Hp in H1. by apply sessionOK_begin.
Qed.

Lemma onnxjs_endComputePass_ok t :
  onnxjsSessionOK t → onnxjsSessionOK (Onnxjs.endComputePass t).
Proof.
  unfold onnxjsSessionOK, Onnxjs.endComputePass. intros H.
  destruct (Onnxjs.computePassEncoder t) as [p |] eqn:Hp; simpl; [| by rewrite Hp].
  by apply sessionOK_end.
Qed.

(** X2.  The onnxjs backend keeps its recording session well formed
    through [getCommandEncoder], [getComputePassEncoder], [endComputePass]
    and [flush].  On a well-formed session [flush] returns exactly when a
    command encoder is open, and then the command buffer it adds to the
    device queue has every compute pass ended; with no encoder open it
    throws and submits nothing. *)
Theorem onnxjs_session_stays_well_formed (t : Onnxjs.WebGpuBackend) :
  onnxjsSessionOK t →
  onnxjsSessionOK (Onnxjs.getCommandEncoder t).2
  ∧ onnxjsSessionOK (Onnxjs.getComputePassEncoder t).2
  ∧ onnxjsSessionOK (Onnxjs.endComputePass t)
  ∧ onnxjsSessionOK (Onnxjs.flush t).2
  ∧ (isNormal (Onnxjs.flush t).1 = true ↔ is_Some (Onnxjs.commandEncoder t))
  ∧ (Onnxjs.commandEncoder t = None →
     queue (Onnxjs.device (Onnxjs.flush t).2) = queue (Onnxjs.device t))
  ∧ (∀ e, Onnxjs.commandEncoder t = Some e →
          ∃ buffer, closedBuffer buffer
            ∧ queue (Onnxjs.device (Onnxjs.flush t).2)
              = queue (Onnxjs.device t) ++ [[buffer]]).
Proof.
  intros H.
  split; [by apply onnxjs_getCommandEncoder_ok |].
  split; [by apply onnxjs_getComputePassEncoder_ok |].
  pose proof (onnxjs_endComputePass_ok t H) as H1.
  split; [exact H1 |].
  pose proof (onnxjs_endComputePass_closed t) as Hp.
  pose proof (onnxjs_endComputePass_commandEncoder t) as He.
  pose proof (onnxjs_endComputePass_queue t) as Hq.
  unfold Onnxjs.flush. unfold onnxjsSessionOK in H1.
  destruct (Onnxjs.commandEncoder (Onnxjs.endComputePass t)) as [e |] eqn:He1.
  - rewrite Hp in H1. apply sessionOK_submit in H1 as [H1 Hclosed]. simpl.
    split; [unfold onnxjsSessionOK; simpl; by rewrite Hp |]. rewrite <- He.
    split; [split; eauto |]. split; [done |].
    intros e' [= <-]. eexists. split; [exact Hclosed |]. by rewrite <- Hq.
  - simpl. split; [unfold onnxjsSessionOK; by rewrite He1 |]. rewrite <- He.
    split; [split; [done | by intros [? ?]] |]. split; [done | done].
Qed.

Lemma onnxjs_session_stays_well_formed_witness :
  onnxjsSessionOK (Onnxjs.flush recordingOnnxjsBackend).2
  ∧ isNormal (Onnxjs.flush recordingOnnxjsBackend).1 = true.
Proof.
  assert (H : onnxjsSessionOK recordingOnnxjsBackend).
  { split; [constructor |]. simpl. eexists. split; [vm_compute; reflexivity |].
    right. split; reflexivity. }
  destruct (onnxjs_session_stays_well_formed recordingOnnxjsBackend H)
    as (_ & _ & _ & Hok & Hnormal & _).
  split; [exact Hok |]. apply Hnormal. simpl. eauto.
Defined.

(** ** The accessors open at most one encoder and one pass *)

Lemma getCommandEncoder_twice s :
  getCommandEncoder (getCommandEncoder s).2 = getCommandEncoder s.
Proof.
  unfold getCommandEncoder at 2 3.
  destruct (commandEncoder s) as [e |] eqn:He; simpl.
  - unfold getCommandEncoder. by rewrite He.
  - reflexivity.
Qed.

Lemma getComputePassEncoder_twice s :
  getComputePassEncoder (getComputePassEncoder s).2 = getComputePassEncoder s.
Proof.
  unfold getComputePassEncoder at 2 3.
  destruct (computePassEncoder s) as [p |] eqn:Hp; simpl.
  - unfold getComputePassEncoder. by rewrite Hp.
  - by destruct (getCommandEncoder s).
Qed.

(** X3.  [getCommandEncoder] and [getComputePassEncoder] are lazy: a
    second call returns the handle of the first and changes nothing, an
    open command encoder is never replaced (by either accessor), opening
    a compute pass opens it on the backend's command encoder, and neither
    accessor submits anything.  [endComputePass] twice is [endComputePass]
    once. *)
Theorem accessors_are_lazy (s : WebGpuBackend) :
  getCommandEncoder (getCommandEncoder s).2 = getCommandEncoder s
  ∧ getComputePassEncoder (getComputePassEncoder s).2 = getComputePassEncoder s
  ∧ commandEncoder (getCommandEncoder s).2 = Some (getCommandEncoder s).1
  ∧ computePassEncoder (getComputePassEncoder s).2 = Some (getComputePassEncoder s).1
  ∧ (∀ e, commandEncoder s = Some e →
          getCommandEncoder s = (e, s)
          ∧ commandEncoder (getComputePassEncoder s).2 = Some e)
  ∧ (computePassEncoder s = None →
     commandEncoder (getComputePassEncoder s).2 = Some (getComputePassEncoder s).1)
  ∧ queue (device (getCommandEncoder s).2) = queue (device s)
  ∧ queue (device (getComputePassEncoder s).2) = queue (device s)
  ∧ endComputePass (endComputePass s) = endComputePass s.
Proof.
  split; [apply getCommandEncoder_twice |].
  split; [apply getComputePassEncoder_twice |].
  split; [apply getCommandEncoder_open |].
  assert (Hq : queue (device (getCommandEncoder s).2) = queue (device s)).
  { unfold getCommandEncoder. by destruct (commandEncoder s). }
  split; [| split; [| split; [| split; [exact Hq | split]]]].
  - unfold getComputePassEncoder. destruct (computePassEncoder s) eqn:E; [done |].
    by destruct (getCommandEncoder s).
  - intros e He. split; [unfold getCommandEncoder; by rewrite He |].
    unfold getComputePassEncoder, getCommandEncoder. rewrite He.
    by destruct (computePassEncoder s).
  - intros Hp. unfold getComputePassEncoder. rewrite Hp.
    pose proof (getCommandEncoder_open s) as He.
    destruct (getCommandEncoder s) as [e s1]. simpl in *. exact He.
  - unfold getComputePassEncoder. destruct (computePassEncoder s); [done |].
    destruct (getCommandEncoder s) as [e s1]. simpl in *. exact Hq.
  - apply endComputePass_idle, endComputePass_closed.
Qed.

(** ** Creating and releasing kernels *)

Lemma withKernels_same s : withKernels (kernels s) s = s.
Proof. by destruct s. Qed.

Lemma releaseKernel_unknown kernelId s :
  kernels s !! kernelId = None →
  kernelPersistentData s !! Some kernelId = None →
  releaseKernel kernelId s = (Normal tt, s).
Proof.
  intros Hk Hp. unfold releaseKernel. rewrite Hp.
  by rewrite delete_id, withKernels_same.
Qed.

(** X4.  For an id that names no kernel and owns no persistent data:
    [releaseKernel] returns and changes nothing; [createKernel] throws the
    not-implemented error, backend unchanged, for a name the resolve rules
    do not know, and for a known name registers the kernel under the id,
    attribute unparsed, other kernels untouched, after which
    [releaseKernel] gives the backend back as it was. *)
Theorem createKernel_releaseKernel_round_trip
    (rules : string → option (RunFunction * option AttributeParser))
    (name : string) (kernelId : Z) (attribute : Attribute) (s : WebGpuBackend) :
  kernels s !! kernelId = None →
  kernelPersistentData s !! Some kernelId = None →
  releaseKernel kernelId s = (Normal tt, s)
  ∧ match rules name with
    | None =>
        createKernel rules name kernelId attribute s = (Abrupt (KernelNotImplemented name), s)
        ∧ errorKind (KernelNotImplemented name) = NotImplemented
    | Some op =>
        ∃ s1, createKernel rules name kernelId attribute s = (Normal tt, s1)
          ∧ kernels s1 !! kernelId = Some (name, op.1, (op.2, attribute))
          ∧ (∀ j, j ≠ kernelId → kernels s1 !! j = kernels s !! j)
          ∧ releaseKernel kernelId s1 = (Normal tt, s)
    end.
Proof.
  intros Hk Hp. split; [by apply releaseKernel_unknown |].
  unfold createKernel. destruct (rules name) as [op |]; [| done].
  eexists. split; [reflexivity |]. simpl.
  split; [apply lookup_insert_eq |].
  split; [intros j Hj; by apply lookup_insert_ne |].
  unfold releaseKernel. simpl. rewrite Hp. simpl.
  rewrite delete_insert_id by exact Hk. by destruct s.
Qed.

Lemma createKernel_releaseKernel_round_trip_witness :
  releaseKernel 9 kernelBackend = (Normal tt, kernelBackend)
  ∧ ∃ s1, createKernel sampleRules "Add" 9 "" kernelBackend = (Normal tt, s1)
          ∧ releaseKernel 9 s1 = (Normal tt, kernelBackend).
Proof.
  destruct (createKernel_releaseKernel_round_trip sampleRules "Add" 9 "" kernelBackend)
    as (Hrel & s1 & Hc & _ & _ & Hr).
  - vm_compute. reflexivity.
  - reflexivity.
  - split; [exact Hrel |]. exists s1. split; assumption.
Defined.

(** ** Attribute parsing *)

Lemma computeKernel_kernels fuel kernelId context s kernel attribute s2 :
  WellBehaved context →
  kernels s !! kernelId = Some kernel →
  currentKernelId s = None →
  parseAttributes kernelId kernel (withCurrentKernelId (Some kernelId) s) = Normal (attribute, s2) →
  ∃ r s4 s',
    computeKernel (S (S fuel)) kernelId context s = Some (r, s')
    ∧ runKernelBody (computeKernel (S fuel)) context (kernelEntry kernel context attribute)
        (withTemporaryData (Some []) s2) = Some (r, s4)
    ∧ kernels s' = kernels s2
    ∧ currentKernelId s' = None
    ∧ temporaryData s' = Some [].
Proof.
  intros HW Hk Hc Hparse.
  destruct (computeKernel_enters fuel _ _ _ _ _ _ HW Hk Hc Hparse)
    as (r & s4 & s' & Hbody & Hrel & Hck & Htl4 & Hg4 & _).
  destruct (releaseTemporaryData_ok s4 Htl4) as (s'' & Hrel' & Hcur & Htmp & _ & _ & Hkern & _).
  rewrite Hrel in Hrel'. injection Hrel' as <-.
  exists r, s4, s'. split; [exact Hck |]. split; [exact Hbody |].
  split; [| done]. rewrite Hkern. by destruct Hg4 as (_ & -> & _).
Qed.

(** X5.  The attribute parser runs once.  An invocation that finds the
    attribute unparsed gives its entry the parser's result, stores that
    result in the kernel and drops the parser, leaving the other kernels
    alone; the next invocation of the instance gives its entry the stored
    result, not the parser applied again. *)
Theorem attribute_is_parsed_once
    (fuel : nat) (kernelId : Z) (context : ComputeContext) (s : WebGpuBackend)
    (name : string) (entry : RunFunction) (parse : AttributeParser)
    (attribute parsed : Attribute) :
  WellBehaved context →
  kernels s !! kernelId = Some ((name, entry, (Some parse, attribute)) : KernelInfo) →
  currentKernelId s = None →
  parse attribute = Normal parsed →
  ∃ r s' t4,
    computeKernel (S (S fuel)) kernelId context s = Some (r, s')
    ∧ runKernelBody (computeKernel (S fuel)) context (entry context parsed)
        (withTemporaryData (Some [])
           (withKernels (<[kernelId := ((name, entry, (None, parsed)) : KernelInfo)]> (kernels s))
              (withCurrentKernelId (Some kernelId) s)))
      = Some (r, t4)
    ∧ kernels s' !! kernelId = Some ((name, entry, (None, parsed)) : KernelInfo)
    ∧ (∀ j, j ≠ kernelId → kernels s' !! j = kernels s !! j)
    ∧ ∃ r2 s'' u4,
        computeKernel (S (S fuel)) kernelId context s' = Some (r2, s'')
        ∧ runKernelBody (computeKernel (S fuel)) context (entry context parsed)
            (withTemporaryData (Some []) (withCurrentKernelId (Some kernelId) s'))
          = Some (r2, u4)
        ∧ kernels s'' = kernels s'.
Proof.
  intros HW Hk Hc Hp.
  assert (Hparse : parseAttributes kernelId (name, entry, (Some parse, attribute))
                     (withCurrentKernelId (Some kernelId) s)
                   = Normal (parsed,
                       withKernels (<[kernelId := (name, entry, (None, parsed))]> (kernels s))
                         (withCurrentKernelId (Some kernelId) s))).
  { unfold parseAttributes. by rewrite Hp. }
  destruct (computeKernel_kernels fuel _ _ _ _ _ _ HW Hk Hc Hparse)
    as (r & s4 & s' & Hck & Hbody & Hkern & Hcur & _).
  simpl in Hkern.
  assert (Hk' : kernels s' !! kernelId = Some ((name, entry, (None, parsed)) : KernelInfo)).
  { rewrite Hkern. apply lookup_insert_eq. }
  exists r, s', s4. split; [exact Hck |]. split; [exact Hbody |].
  split; [exact Hk' |].
  split; [intros j Hj; rewrite Hkern; by apply lookup_insert_ne |].
  assert (Hparse' : parseAttributes kernelId (name, entry, (None, parsed))
                      (withCurrentKernelId (Some kernelId) s')
                    = Normal (parsed, withCurrentKernelId (Some kernelId) s')) by reflexivity.
  destruct (computeKernel_kernels fuel _ _ _ _ _ _ HW Hk' Hcur Hparse')
    as (r2 & u4 & s'' & Hck2 & Hbody2 & Hkern2 & _).
  exists r2, s'', u4. split; [exact Hck2 |]. split; [exact Hbody2 |]. exact Hkern2.
Qed.

Lemma attribute_is_parsed_once_witness :
  ∃ r s', computeKernel 2 5 allocatingContext parsingBackend = Some (r, s')
          ∧ kernels s' !! 5%Z = Some ("Parse", innerEntry, (None, "parsed")).
Proof.
  destruct (attribute_is_parsed_once 0 5 allocatingContext parsingBackend
              "Parse" innerEntry (λ _, Normal "parsed") "raw" "parsed"
              allocatingContext_WellBehaved)
    as (r & s' & _ & Hck & _ & Hk & _).
  - vm_compute. reflexivity.
  - reflexivity.
  - reflexivity.
  - exists r, s'. split; assumption.
Defined.

(** X6.  When the attribute parser throws, the invocation throws what it
    threw and ends with the executing marker set to the instance and the
    kernels as they were; from then on every invocation of a registered
    instance is rejected as recursive, the backend unchanged. *)
Theorem parser_failure_leaves_marker_set
    (fuel : nat) (kernelId : Z) (context : ComputeContext) (s : WebGpuBackend)
    (name : string) (entry : RunFunction) (parse : AttributeParser)
    (attribute : Attribute) (e : Error) :
  kernels s !! kernelId = Some ((name, entry, (Some parse, attribute)) : KernelInfo) →
  currentKernelId s = None →
  parse attribute = Abrupt e →
  ∃ s1, computeKernel (S fuel) kernelId context s = Some (Abrupt e, s1)
    ∧ currentKernelId s1 = Some kernelId
    ∧ kernels s1 = kernels s
    ∧ ∀ fuel' j context' kernel,
        kernels s1 !! j = Some kernel →
        computeKernel (S fuel') j context' s1
        = Some (Abrupt (KernelCalledRecursively (kernelName kernel)), s1).
Proof.
  intros Hk Hc Hp. eexists. split; [by eapply computeKernel_parser_throws |].
  split; [reflexivity |]. split; [reflexivity |].
  intros fuel' j context' kernel Hj. by apply computeKernel_rejected with kernelId.
Qed.

Lemma parser_failure_leaves_marker_set_witness :
  ∃ s1, computeKernel 1 6 allocatingContext parsingBackend
        = Some (Abrupt (OtherError "bad attribute"), s1)
        ∧ computeKernel 1 2 allocatingContext s1
          = Some (Abrupt (KernelCalledRecursively "Inner"), s1).
Proof.
  destruct (parser_failure_leaves_marker_set 0 6 allocatingContext parsingBackend
              "Throw" innerEntry (λ _, Abrupt (OtherError "bad attribute")) "raw"
              (OtherError "bad attribute"))
    as (s1 & Hck & _ & Hk & Hnext).
  - vm_compute. reflexivity.
  - reflexivity.
  - reflexivity.
  - exists s1. split; [exact Hck |].
    apply (Hnext 0 2%Z allocatingContext innerKernel). rewrite Hk. vm_compute. reflexivity.
Defined.

(** X7.  [computeKernel] empties the list of tracked temporaries before
    the entry starts, without releasing them: a live buffer tracked as
    temporary when the invocation begins (by a [run] made outside any
    invocation) is still live when it has ended, and is tracked no
    longer. *)
Theorem earlier_temporaries_are_dropped_unreleased
    (fuel : nat) (kernelId : Z) (context : ComputeContext) (s : WebGpuBackend)
    (kernel : KernelInfo) (attribute : Attribute) (s2 : WebGpuBackend)
    (temporaries : list GpuData) (d : GpuData) :
  WellBehaved context →
  kernels s !! kernelId = Some kernel →
  currentKernelId s = None →
  parseAttributes kernelId kernel (withCurrentKernelId (Some kernelId) s) = Normal (attribute, s2) →
  temporaryData s = Some temporaries →
  d ∈ temporaries →
  live (id d) (gpuDataManager s) →
  ∃ r s', computeKernel (S (S fuel)) kernelId context s = Some (r, s')
    ∧ temporaryData s' = Some []
    ∧ live (id d) (gpuDataManager s').
Proof.
  intros HW Hk Hc Hparse Htemps Hd Hlive.
  destruct (computeKernel_enters fuel _ _ _ _ _ _ HW Hk Hc Hparse)
    as (r & s4 & s' & Hbody & Hrel & Hck & Htl4 & Hg4 & _).
  destruct (releaseTemporaryData_ok s4 Htl4) as (s'' & Hrel' & _ & Htmp & _ & Hsame & _).
  rewrite Hrel in Hrel'. injection Hrel' as <-.
  destruct (parseAttributes_frame _ _ _ _ _ Hparse) as (Hg2 & _).
  simpl in Hg2.
  destruct Hg4 as (_ & _ & Hkeep & (more & Hmore & Hfresh) & _). simpl in *.
  exists r, s'. split; [exact Hck |]. split; [exact Htmp |].
  unfold live. rewrite Hsame.
  - apply Hkeep. by rewrite Hg2.
  - unfold tracked. rewrite Hmore. simpl.
    intros Hin. apply list_elem_of_fmap in Hin as (d' & Hid & Hd').
    apply (Hfresh d' Hd'). rewrite <- Hid, Hg2. exact Hlive.
Qed.

Lemma earlier_temporaries_are_dropped_unreleased_witness :
  ∃ r s', computeKernel 2 2 allocatingContext
            (withTemporaryData (Some [ {| type := 0%Z; id := 1%Z |} ]) kernelBackend) = Some (r, s')
          ∧ temporaryData s' = Some []
          ∧ live 1 (gpuDataManager s').
Proof.
  apply (earlier_temporaries_are_dropped_unreleased 0 2 allocatingContext
           (withTemporaryData (Some [ {| type := 0%Z; id := 1%Z |} ]) kernelBackend)
           innerKernel ""
           (withCurrentKernelId (Some 2%Z)
              (withTemporaryData (Some [ {| type := 0%Z; id := 1%Z |} ]) kernelBackend))
           [ {| type := 0%Z; id := 1%Z |} ] {| type := 0%Z; id := 1%Z |}
           allocatingContext_WellBehaved).
  - vm_compute. reflexivity.
  - reflexivity.
  - reflexivity.
  - reflexivity.
  - by left.
  - vm_compute. eauto.
Defined.

(** ** More on [run] *)

Lemma inputGpuData_missing m pre t post :
  (∀ x, x ∈ pre → live (data x) m) →
  ¬ live (data t) m →
  inputGpuData m (pre ++ t :: post) = Abrupt (NoGpuDataForInput (data t)).
Proof.
  intros Hpre Ht. induction pre as [| x pre IH]; simpl.
  - unfold gdm_get. destruct (storageCache m !! data t) eqn:E; [| reflexivity].
    exfalso. apply Ht. unfold live. eauto.
  - destruct (gdm_get_live (data x) m) as [gd ->]; [apply Hpre; by left |].
    rewrite IH; [reflexivity |]. intros y Hy. apply Hpre. by right.
Qed.

(** X8.  A [run] with the right number of inputs, one of which has no GPU
    data in the registry, throws the no-GPU-data error (a NotFound) for
    the first such input and leaves the backend as it was. *)
Theorem run_input_without_gpu_data
    (program : Program) (pre : list TensorView) (t : TensorView) (post : list TensorView)
    (outputIndices : list JsNumber)
    (ck : Z → Z → list Z → GpuDataManager → Completion TensorView * GpuDataManager)
    (ct : Z → list Z → GpuDataManager → Completion TensorView * GpuDataManager)
    (s : WebGpuBackend) :
  length (pre ++ t :: post) = length (inputTypes (programMetadata program)) →
  (∀ x, x ∈ pre → live (data x) (gpuDataManager s)) →
  ¬ live (data t) (gpuDataManager s) →
  run program (pre ++ t :: post) outputIndices ck ct s
    = (Abrupt (NoGpuDataForInput (data t)), s)
  ∧ errorKind (NoGpuDataForInput (data t)) = NotFound.
Proof.
  intros Hlen Hpre Ht. split; [| reflexivity].
  unfold run. rewrite Hlen, Nat.eqb_refl. simpl.
  by rewrite (inputGpuData_missing _ _ _ _ Hpre Ht).
Qed.

Lemma run_input_without_gpu_data_witness :
  run addProgram [tensorA; tensorC] [JsInt 0]
    (createKernelOutput allocatingContext) (createTemporaryOutput allocatingContext) kernelBackend
  = (Abrupt (NoGpuDataForInput 3), kernelBackend).
Proof.
  apply (run_input_without_gpu_data addProgram [tensorA] tensorC [] [JsInt 0]
           (createKernelOutput allocatingContext) (createTemporaryOutput allocatingContext)
           kernelBackend eq_refl).
  - intros x Hx. apply list_elem_of_singleton in Hx. subst x. vm_compute. eauto.
  - vm_compute. by intros [? ?].
Defined.

Lemma pushed_nil o : pushed o o [].
Proof. destruct o; simpl; [| done]. eexists. split; [reflexivity | by rewrite app_nil_r]. Qed.

Lemma pushed_trans a b c x y : pushed a b x → pushed b c y → pushed a c (x ++ y).
Proof.
  unfold pushed. destruct a as [l |].
  - intros (l1 & -> & H1) (l2 & -> & H2). exists l2. split; [done |].
    by rewrite H2, H1, app_assoc.
  - intros (-> & ->) (-> & ->). done.
Qed.

Lemma createOutput_step count o index ck ct s tensorView gpuData s1 :
  createOutput count o index ck ct s = (Normal (tensorView, gpuData), s1) →
  currentKernelId s1 = currentKernelId s
  ∧ pushed (temporaryData s) (temporaryData s1)
      (if indexIs (-2) index then [data tensorView] else [])
  ∧ map id (default [] (kernelPersistentData s1 !! currentKernelId s))
    = map id (default [] (kernelPersistentData s !! currentKernelId s))
      ++ (if indexIs (-1) index then [data tensorView] else [])
  ∧ (∀ k, k ≠ currentKernelId s → kernelPersistentData s1 !! k = kernelPersistentData s !! k).
Proof.
  unfold createOutput. destruct (invalidOutputIndex count index) eqn:Hinv; [done |].
  destruct index as [z |]; [| done]. simpl.
  match goal with |- context [let '(_, _) := ?c in _] => destruct c as [created m] end.
  destruct created as [tv | e]; [| done].
  destruct (gdm_get (data tv) m) as [gd |] eqn:Hget; [| done].
  apply gdm_get_Some in Hget as [_ Hid].
  destruct (Z.eqb_spec z (-2)) as [-> | Hne2]; simpl.
  - unfold pushTemporary. simpl. destruct (temporaryData s) as [l |] eqn:Htemp; [| done].
    intros [= <- <- <-]. simpl.
    split; [reflexivity |]. split.
    { eexists. split; [reflexivity |]. rewrite map_app. simpl. by rewrite Hid. }
    split; [by rewrite app_nil_r | done].
  - intros [= <- <- <-].
    destruct (Z.eqb_spec z (-1)) as [-> | Hne1]; simpl.
    + split; [reflexivity |]. split; [apply pushed_nil |].
      unfold pushPersistent. simpl. split.
      * rewrite lookup_insert_eq. simpl. rewrite map_app. simpl. by rewrite Hid.
      * intros k Hk. by rewrite lookup_insert_ne.
    + split; [reflexivity |]. split; [apply pushed_nil |].
      split; [by rewrite app_nil_r | done].
Qed.

Lemma createOutputs_steps count outs indices ck ct s views datas s' :
  createOutputs count outs indices ck ct s = (Normal (views, datas), s') →
  length indices = length outs →
  currentKernelId s' = currentKernelId s
  ∧ pushed (temporaryData s) (temporaryData s') (markedSlots (-2) indices views)
  ∧ map id (default [] (kernelPersistentData s' !! currentKernelId s))
    = map id (default [] (kernelPersistentData s !! currentKernelId s))
      ++ markedSlots (-1) indices views
  ∧ (∀ k, k ≠ currentKernelId s → kernelPersistentData s' !! k = kernelPersistentData s !! k).
Proof.
  revert indices s views datas s'.
  induction outs as [| o outs IH]; intros indices s views datas s'; simpl.
  { intros [= <- <- <-] Hlen. destruct indices; [| done]. simpl.
    split; [done |]. split; [apply pushed_nil |]. by rewrite !app_nil_r. }
  destruct indices as [| index indices]; [done |]. simpl.
  destruct (createOutput count o index ck ct s) as [r1 s1] eqn:H1.
  destruct r1 as [[tv gd] | e]; [| done].
  destruct (createOutputs count outs indices ck ct s1) as [r2 s2] eqn:H2.
  destruct r2 as [[views2 datas2] | e]; [| done].
  intros [= <- <- <-] [= Hlen].
  destruct (createOutput_step _ _ _ _ _ _ _ _ _ H1) as (Hc1 & Ht1 & Hp1 & Ho1).
  destruct (IH _ _ _ _ _ H2 Hlen) as (Hc2 & Ht2 & Hp2 & Ho2).
  rewrite Hc1 in Hc2, Hp2, Ho2.
  split; [exact Hc2 |]. simpl.
  split; [by eapply pushed_trans |].
  split; [by rewrite Hp2, Hp1, app_assoc |].
  intros k Hk. rewrite Ho2 by exact Hk. by apply Ho1.
Qed.

Lemma markedSlots_default marker n views :
  (marker < 0)%Z →
  markedSlots marker (map (λ i, JsInt (Z.of_nat i)) (seq 0 n)) views = [].
Proof.
  intros Hneg. generalize 0. revert views.
  induction n as [| n IH]; intros views start; simpl; [reflexivity |].
  destruct views as [| v views]; [reflexivity |].
  destruct (Z.eqb_spec (Z.of_nat start) marker); [lia |]. simpl. apply IH.
Qed.

(** X9.  When [run] returns, the buffers it has added to the tracked
    temporaries are exactly those of the tensors it returns for the slots
    requested with -2, in slot order (there is no such slot when
    [temporaryData] is still [undefined]), and the buffers it has added to
    the persistent list of the executing kernel are exactly those of the
    slots requested with -1; the persistent lists of other kernels are
    untouched.  Kernel outputs are tracked in neither. *)
Theorem run_tracks_exactly_the_marked_slots
    (program : Program) (inputs : list TensorView) (outputIndices : list JsNumber)
    (ck : Z → Z → list Z → GpuDataManager → Completion TensorView * GpuDataManager)
    (ct : Z → list Z → GpuDataManager → Completion TensorView * GpuDataManager)
    (s s' : WebGpuBackend) (views : list TensorView) :
  run program inputs outputIndices ck ct s = (Normal views, s') →
  pushed (temporaryData s) (temporaryData s') (markedSlots (-2) outputIndices views)
  ∧ map id (default [] (kernelPersistentData s' !! currentKernelId s))
    = map id (default [] (kernelPersistentData s !! currentKernelId s))
      ++ markedSlots (-1) outputIndices views
  ∧ ∀ k, k ≠ currentKernelId s → kernelPersistentData s' !! k = kernelPersistentData s !! k.
Proof.
  unfold run. destruct (negb _); [done |].
  destruct (inputGpuData _ _) as [inputDatas | e0]; [| done].
  match goal with |- context [validatedOutputIndices outputIndices ?i] => set (info := i) end.
  destruct (Nat.eqb_spec (length (validatedOutputIndices outputIndices info))
              (length (outputs info))) as [Hlen | ?]; [| done]. simpl.
  destruct (createOutputs _ _ _ ck ct s) as [r1 s1] eqn:H1.
  destruct r1 as [[views1 datas] | e1]; [| done].
  destruct (createOutputs_steps _ _ _ _ _ _ _ _ _ H1 Hlen) as (_ & Ht & Hp & Ho).
  match goal with |- context [ensureArtifact ?a ?k ?i s1] =>
    pose proof (ensureArtifact_frame a k i s1) as Hen;
    destruct (ensureArtifact a k i s1) as [a' s2] end.
  simpl in Hen. destruct Hen as (_ & Ht2 & _ & _ & Hp2).
  intros [= <- <-].
  match goal with |- context [programManager_run ?a ?i ?o ?g s2] =>
    pose proof (programManager_run_frame a i o g s2) as Hpr end.
  simpl in Hpr. destruct Hpr as (_ & _ & Ht' & _ & _ & Hp').
  rewrite Ht', Hp', Ht2, Hp2.
  assert (Hsame : ∀ marker, (marker < 0)%Z →
            markedSlots marker (validatedOutputIndices outputIndices info) views1
            = markedSlots marker outputIndices views1).
  { intros marker Hneg. destruct outputIndices as [| i rest]; [| reflexivity].
    unfold validatedOutputIndices. rewrite imap_index.
    by rewrite markedSlots_default. }
  rewrite <- !Hsame by lia. done.
Qed.

Lemma run_tracks_exactly_the_marked_slots_witness :
  ∃ temporaries,
    temporaryData
      (run addProgram [tensorA; tensorB] [JsInt (-2)]
         (createKernelOutput allocatingContext)
         (createTemporaryOutput allocatingContext) busyBackend).2 = Some temporaries
    ∧ map id temporaries = [1%Z; 3%Z].
Proof.
  refine (proj1 (run_tracks_exactly_the_marked_slots addProgram [tensorA; tensorB]
                   [JsInt (-2)] (createKernelOutput allocatingContext)
                   (createTemporaryOutput allocatingContext) busyBackend _ [tensorC] _)).
  vm_compute. reflexivity.
Defined.

(** X10.  [run] returns whenever the number of inputs is the program's
    arity, every input has GPU data, the requested slots are none or as
    many as the resolved program's outputs, each one of the integers -2,
    -1, 0, ..., n-1, the temporary marker -2 is requested only once
    [temporaryData] has been assigned, and the output factories deliver
    registered tensors.  It then returns one tensor per declared output,
    the program is in the cache under the key of the call, that cached
    program is the one dispatched, once, and a program was compiled
    exactly when the key was not in the cache.  (The loader's [get] and
    the program's [dispatchGroup] are functions of the model: they
    return.) *)
Theorem run_returns_on_a_valid_call
    (program : Program) (inputs : list TensorView) (outputIndices : list JsNumber)
    (ck : Z → Z → list Z → GpuDataManager → Completion TensorView * GpuDataManager)
    (ct : Z → list Z → GpuDataManager → Completion TensorView * GpuDataManager)
    (s : WebGpuBackend) (inputDatas : list GpuData) :
  length inputs = length (inputTypes (programMetadata program)) →
  inputGpuData (gpuDataManager s) inputs = Normal inputDatas →
  let key := getProgramInfoUniqueKey (programMetadata program)
               (map dims inputs) (map type inputDatas) in
  let info := resolveProgramInfo (getArtifact key (programManager s)) program in
  let n := length (outputs info) in
  outputIndices = [] ∨ length outputIndices = n →
  Forall (withinDeclaredRange n) outputIndices →
  is_Some (temporaryData s) ∨ JsInt (-2) ∉ outputIndices →
  (∀ i t d m, ∃ tv m', ck i t d m = (Normal tv, m') ∧ live (data tv) m') →
  (∀ t d m, ∃ tv m', ct t d m = (Normal tv, m') ∧ live (data tv) m') →
  ∃ views s' a,
    run program inputs outputIndices ck ct s = (Normal views, s')
    ∧ length views = n
    ∧ getArtifact key (programManager s') = Some a
    ∧ dispatched (programManager s') = dispatched (programManager s) ++ [computePipeline a]
    ∧ match getArtifact key (programManager s) with
      | Some a0 => a = a0 ∧ builds (programManager s') = builds (programManager s)
      | None => builds (programManager s') = S (builds (programManager s))
      end.
Proof.
  intros Harity Hin key info n Hcount Hrange Hpush Hck Hct.
  assert (Hvalid : Forall (λ index, invalidOutputIndex n index = false) outputIndices).
  { eapply Forall_impl; [exact Hrange |]. intros index. apply invalidOutputIndex_within. }
  assert (Hlen : length (validatedOutputIndices outputIndices info) = n
                 ∧ Forall (λ index, invalidOutputIndex n index = false)
                     (validatedOutputIndices outputIndices info)
                 ∧ (is_Some (temporaryData s)
                    ∨ JsInt (-2) ∉ validatedOutputIndices outputIndices info)).
  { destruct outputIndices as [| i rest].
    - unfold validatedOutputIndices. rewrite imap_index.
      split; [by rewrite length_map, length_seq |]. split; [apply defaultIndices_valid |].
      right. intros Hin2. apply list_elem_of_fmap in Hin2 as (j & Hj & _).
      injection Hj as Hj. lia.
    - destruct Hcount as [? | Hcount]; [done |]. split; [exact Hcount |]. split; assumption. }
  destruct Hlen as (Hlen & Hvalid' & Hpush').
  destruct (createOutputs_delivered n (outputs info)
              (validatedOutputIndices outputIndices info) ck ct s Hck Hct Hlen Hvalid' Hpush')
    as (views & datas & s1 & Hco & Hviews).
  assert (Hrun : ∃ s', run program inputs outputIndices ck ct s = (Normal views, s')).
  { unfold run. rewrite Harity, Nat.eqb_refl, Hin. simpl. fold key. fold info. fold n.
    rewrite Hlen, Nat.eqb_refl. simpl. rewrite Hco.
    destruct (ensureArtifact _ _ _ s1). eauto. }
  destruct Hrun as [s' Hrun].
  destruct (run_programManager_normal _ _ _ _ _ _ _ _ Hrun) as (inputDatas0 & Hin0 & Hpm).
  rewrite Hin in Hin0. injection Hin0 as <-. simpl in Hpm. fold key in Hpm. fold info in Hpm.
  destruct (getArtifact key (programManager s)) as [a0 |] eqn:Hart.
  - exists views, s', a0. split; [exact Hrun |]. split; [exact Hviews |].
    rewrite Hpm. simpl. split; [exact Hart |]. done.
  - eexists views, s', _. split; [exact Hrun |]. split; [exact Hviews |].
    rewrite Hpm. simpl. split; [unfold getArtifact; simpl; apply lookup_insert_eq |]. done.
Qed.

Lemma run_returns_on_a_valid_call_witness :
  ∃ views s', run addProgram [tensorA; tensorB] [JsInt (-1)]
                (createKernelOutput allocatingContext)
                (createTemporaryOutput allocatingContext) kernelBackend = (Normal views, s')
              ∧ length views = 1.
Proof.
  destruct (run_returns_on_a_valid_call addProgram [tensorA; tensorB] [JsInt (-1)]
              (createKernelOutput allocatingContext) (createTemporaryOutput allocatingContext)
              kernelBackend
              [ {| type := 0%Z; id := 1%Z |}; {| type := 0%Z; id := 2%Z |} ] eq_refl)
    as (views & s' & a & Hrun & Hlen & _).
  - vm_compute. reflexivity.
  - right. vm_compute. reflexivity.
  - constructor; [| constructor]. exists (-1)%Z. split; [reflexivity |]. vm_compute.
    split; [discriminate | reflexivity].
  - right. intros Hin. apply list_elem_of_singleton in Hin. discriminate.
  - apply allocatingContext_delivers.
  - apply allocatingContext_delivers.
  - exists views, s'. split; assumption.
Defined.

Lemma createOutput_extends count o index ck ct s r s1 :
  createOutput count o index ck ct s = (r, s1) →
  (∃ more, temporaryData s1 = (λ l, l ++ more) <$> temporaryData s)
  ∧ (∀ k l, kernelPersistentData s !! k = Some l →
            ∃ more, kernelPersistentData s1 !! k = Some (l ++ more)).
Proof.
  assert (Hsame : ∀ x : WebGpuBackend,
            temporaryData x = temporaryData s →
            kernelPersistentData x = kernelPersistentData s →
            (∃ more, temporaryData x = (λ l, l ++ more) <$> temporaryData s)
            ∧ (∀ k l, kernelPersistentData s !! k = Some l →
                      ∃ more, kernelPersistentData x !! k = Some (l ++ more))).
  { intros x -> ->. split; [exists []; by rewrite extend_nil |].
    intros k l Hl. exists []. by rewrite app_nil_r. }
  assert (Hpersist : ∀ gd x,
            kernelPersistentData x = kernelPersistentData s →
            currentKernelId x = currentKernelId s →
            ∀ k l, kernelPersistentData s !! k = Some l →
                   ∃ more, kernelPersistentData (pushPersistent gd x) !! k = Some (l ++ more)).
  { intros gd x Hx Hcx k l Hl. unfold pushPersistent. simpl. rewrite Hx, Hcx.
    destruct (decide (currentKernelId s = k)) as [-> | Hne].
    - rewrite lookup_insert_eq, Hl. simpl. eexists. reflexivity.
    - rewrite lookup_insert_ne by exact Hne. exists []. by rewrite app_nil_r. }
  unfold createOutput. destruct (invalidOutputIndex count index).
  { intros [= _ <-]. by apply Hsame. }
  match goal with |- context [let '(_, _) := ?c in _] => destruct c as [created m] end.
  destruct created as [tv | e]; [| intros [= _ <-]; by apply Hsame].
  destruct (gdm_get (data tv) m) as [gd |]; [| intros [= _ <-]; by apply Hsame].
  destruct (indexValue index =? -2)%Z; simpl.
  - unfold pushTemporary. simpl.
    destruct (temporaryData s) as [l0 |] eqn:Htemp; [| intros [= _ <-]; apply Hsame; by simpl].
    intros [= _ <-].
    destruct (indexValue index =? -1)%Z; simpl.
    + split; [exists [gd]; reflexivity |]. by apply Hpersist.
    + split; [exists [gd]; reflexivity |]. intros k l Hl. exists []. by rewrite app_nil_r.
  - intros [= _ <-].
    destruct (indexValue index =? -1)%Z; simpl.
    + split; [exists []; simpl; by rewrite extend_nil |]. by apply Hpersist.
    + by apply Hsame.
Qed.

Lemma createOutputs_extends count outs indices ck ct s r s' :
  createOutputs count outs indices ck ct s = (r, s') →
  (∃ more, temporaryData s' = (λ l, l ++ more) <$> temporaryData s)
  ∧ (∀ k l, kernelPersistentData s !! k = Some l →
            ∃ more, kernelPersistentData s' !! k = Some (l ++ more)).
Proof.
  revert indices s r s'. induction outs as [| o outs IH]; intros indices s r s'; simpl.
  { intros [= _ <-]. split; [exists []; by rewrite extend_nil |].
    intros k l Hl. exists []. by rewrite app_nil_r. }
  destruct (createOutput count o (hd JsNonInteger indices) ck ct s) as [r1 s1] eqn:H1.
  destruct (createOutput_extends _ _ _ _ _ _ _ _ H1) as ((t1 & Ht1) & Hp1).
  destruct r1 as [[tv gd] | e]; [| intros [= _ <-]; eauto].
  destruct (createOutputs count outs (tl indices) ck ct s1) as [r2 s2] eqn:H2.
  destruct (IH _ _ _ _ H2) as ((t2 & Ht2) & Hp2).
  assert ((∃ more, temporaryData s2 = (λ l, l ++ more) <$> temporaryData s)
          ∧ (∀ k l, kernelPersistentData s !! k = Some l →
                    ∃ more, kernelPersistentData s2 !! k = Some (l ++ more))) as Hres.
  { split; [exists (t1 ++ t2); by rewrite Ht2, Ht1, extend_app |].
    intros k l Hl. destruct (Hp1 k l Hl) as [m1 Hm1]. destruct (Hp2 k _ Hm1) as [m2 Hm2].
    exists (m1 ++ m2). by rewrite app_assoc. }
  destruct r2 as [[views datas] | e]; by intros [= _ <-].
Qed.

(** X11.  Whatever [run] returns or throws, and whatever the output
    factories do, it leaves the kernels and the executing marker as they
    were, only appends to the tracked temporaries ([temporaryData] stays
    [undefined] if it was) and to the persistent lists, and only adds to
    the program cache: a cached program is never replaced or removed. *)
Theorem run_only_adds
    (program : Program) (inputs : list TensorView) (outputIndices : list JsNumber)
    (ck : Z → Z → list Z → GpuDataManager → Completion TensorView * GpuDataManager)
    (ct : Z → list Z → GpuDataManager → Completion TensorView * GpuDataManager)
    (s s' : WebGpuBackend) (r : Completion (list TensorView)) :
  run program inputs outputIndices ck ct s = (r, s') →
  kernels s' = kernels s
  ∧ currentKernelId s' = currentKernelId s
  ∧ (∃ more, temporaryData s' = (λ temporaries, temporaries ++ more) <$> temporaryData s)
  ∧ (∀ k l, kernelPersistentData s !! k = Some l →
            ∃ more, kernelPersistentData s' !! k = Some (l ++ more))
  ∧ (∀ key a, getArtifact key (programManager s) = Some a →
              getArtifact key (programManager s') = Some a).
Proof.
  intros Hrun.
  assert (Hcache : ∀ key a, getArtifact key (programManager s) = Some a →
                            getArtifact key (programManager s') = Some a).
  { intros key a Ha. destruct r as [views | e].
    - destruct (run_programManager_normal _ _ _ _ _ _ _ _ Hrun) as (ids & _ & Hpm).
      simpl in Hpm. rewrite Hpm. clear Hpm.
      set (key0 := getProgramInfoUniqueKey (programMetadata program)
                     (map dims inputs) (map type ids)).
      destruct (getArtifact key0 (programManager s)) as [a0 |] eqn:Hart; [exact Ha |].
      unfold getArtifact in *. simpl.
      rewrite lookup_insert_ne; [exact Ha |]. intros <-. congruence.
    - by rewrite (run_programManager_abrupt _ _ _ _ _ _ _ _ Hrun). }
  revert Hrun. unfold run.
  assert (Hrefl : kernels s = kernels s ∧ currentKernelId s = currentKernelId s
                  ∧ (∃ more, temporaryData s = (λ l, l ++ more) <$> temporaryData s)
                  ∧ (∀ k l, kernelPersistentData s !! k = Some l →
                            ∃ more, kernelPersistentData s !! k = Some (l ++ more))).
  { split; [done |]. split; [done |]. split; [exists []; by rewrite extend_nil |].
    intros k l Hl. exists []. by rewrite app_nil_r. }
  destruct (negb _); [intros [= _ <-]; by destruct Hrefl as (? & ? & ? & ?) |].
  destruct (inputGpuData _ _) as [inputDatas | e0];
    [| intros [= _ <-]; by destruct Hrefl as (? & ? & ? & ?)].
  destruct (negb _); [intros [= _ <-]; by destruct Hrefl as (? & ? & ? & ?) |].
  match goal with |- context [createOutputs ?c ?o ?i ck ct s] =>
    destruct (createOutputs c o i ck ct s) as [r1 s1] eqn:H1 end.
  destruct (createOutputs_frame _ _ _ _ _ _ _ _ H1) as (_ & Hc & Hk).
  destruct (createOutputs_extends _ _ _ _ _ _ _ _ H1) as (Ht & Hp).
  destruct r1 as [[views datas] | e1]; [| intros [= _ <-]; done].
  match goal with |- context [ensureArtifact ?a ?k ?i s1] =>
    pose proof (ensureArtifact_frame a k i s1) as Hen;
    destruct (ensureArtifact a k i s1) as [a' s2] end.
  simpl in Hen. destruct Hen as (_ & Ht2 & Hc2 & Hk2 & Hp2).
  intros [= _ <-].
  match goal with |- context [programManager_run ?a ?i ?o ?g s2] =>
    pose proof (programManager_run_frame a i o g s2) as Hpr end.
  simpl in Hpr. destruct Hpr as (_ & _ & Ht' & Hc' & Hk' & Hp').
  rewrite Ht', Hc', Hk', Hp', Ht2, Hc2, Hk2, Hp2. done.
Qed.

Lemma run_only_adds_witness :
  kernels afterFirstRun = kernels kernelBackend
  ∧ currentKernelId afterFirstRun = currentKernelId kernelBackend.
Proof.
  destruct (run_only_adds addProgram [tensorA; tensorB] [JsInt 0]
              (createKernelOutput allocatingContext) (createTemporaryOutput allocatingContext)
              kernelBackend afterFirstRun (Normal [tensorC]))
    as (Hk & Hc & _).
  - vm_compute. reflexivity.
  - split; assumption.
Defined.

(** ** The cache key tells shapes and types apart *)

(** X12.  For one program name and cache hint, the cache key determines
    the shapes and the GPU data types of the inputs: two calls with as
    many types as shapes that get the same key have the same shapes, in
    order, and the same types.  So a program compiled for some input
    shapes and types is never found under the key of others. *)
Theorem key_determines_shapes_and_types
    (m : ProgramMetadata) (shapes shapes' : list (list Z)) (types types' : list GpuDataType) :
  length shapes = length types →
  length shapes' = length types' →
  getProgramInfoUniqueKey m shapes types = getProgramInfoUniqueKey m shapes' types' →
  shapes = shapes' ∧ types = types'.
Proof.
  intros Hlen Hlen'. unfold getProgramInfoUniqueKey.
  set (prefix := if truthy (cacheHint m) then _ else _).
  intros H. apply append_inv_head in H. simpl in H. injection H as H.
  apply (split_at_separator ";"%char) in H as [Hshapes Htypes].
  - assert (Ht : types = types').
    { apply (inj (fmap pretty)).
      apply (join_inj_nonempty "_"%char); [| | exact Htypes];
        apply Forall_forall; intros x Hx; apply list_elem_of_fmap in Hx as (z & -> & _);
        apply pretty_Z_avoids; (apply digits_are_not; auto) || discriminate. }
    split; [| exact Ht]. subst types'.
    apply (join_inj_same_length "_"%char) in Hshapes.
    + revert Hshapes. clear. revert shapes'.
      induction shapes as [| d shapes IH]; intros [| d' shapes']; simpl; try done.
      intros [= Hd Hrest]. f_equal; [by apply shape_string_inj | by apply IH].
    + apply Forall_forall. intros x Hx. apply list_elem_of_fmap in Hx as (d & -> & _).
      apply shape_string_avoids. by left.
    + apply Forall_forall. intros x Hx. apply list_elem_of_fmap in Hx as (d & -> & _).
      apply shape_string_avoids. by left.
    + rewrite !length_map. congruence.
  - apply join_avoids; [split; done |].
    apply Forall_forall. intros x Hx. apply list_elem_of_fmap in Hx as (d & -> & _).
    apply shape_string_avoids. by right.
  - apply join_avoids; [split; done |].
    apply Forall_forall. intros x Hx. apply list_elem_of_fmap in Hx as (d & -> & _).
    apply shape_string_avoids. by right.
Qed.

Lemma key_determines_shapes_and_types_witness :
  getProgramInfoUniqueKey (metadata addInfo) [[2; 3]; [2; 3]]%Z [0; 0]%Z
  ≠ getProgramInfoUniqueKey (metadata addInfo) [[2; 3]; [23]]%Z [0; 0]%Z.
Proof.
  intros H.
  destruct (key_determines_shapes_and_types (metadata addInfo)
              [[2; 3]; [2; 3]]%Z [[2; 3]; [23]]%Z [0; 0]%Z [0; 0]%Z eq_refl eq_refl H)
    as [Hs _].
  discriminate Hs.
Defined.

(** ** Initialization asks for no more than the adapter has *)

Lemma deviceDescriptor_features adapter timestampQuery :
  (timestampQuery = true → hasFeature "timestamp-query" adapter = true) →
  ∀ f, f ∈ requiredFeatures (deviceDescriptor adapter timestampQuery) →
       f ∈ adapterFeatures adapter.
Proof.
  intros Hflag f. unfold deviceDescriptor. simpl. destruct timestampQuery.
  - intros Hf. apply list_elem_of_singleton in Hf. subst f.
    specialize (Hflag eq_refl). unfold hasFeature in Hflag. by apply bool_decide_eq_true in Hflag.
  - intros Hf. by apply elem_of_nil in Hf.
Qed.

(** X13.  Both [initialize] functions ask the adapter only for its own
    limits and for features it has: with an adapter that grants a device
    to every such request, both succeed.  The JSEP backend then has
    profiling enabled exactly when the adapter has timestamp queries and
    the profiling mode is 'default', the onnxjs backend exactly when the
    adapter has timestamp queries, and each holds a query set exactly when
    profiling is enabled. *)
Theorem initialize_succeeds_with_a_granting_adapter
    (threshold : nat) (p : Platform) (adapter : GPUAdapter) :
  navigator_gpu p = Some (Normal (Some adapter)) →
  (∀ d, requiredLimits d = adapterLimits adapter →
        (∀ f, f ∈ requiredFeatures d → f ∈ adapterFeatures adapter) →
        isNormal (requestDevice adapter d) = true) →
  (∃ backend, initialize threshold p = Normal backend
     ∧ profilingEnabled backend
       = hasFeature "timestamp-query" adapter && String.eqb (profilingMode p) "default"
     ∧ (is_Some (profilingQuerySet backend) ↔ profilingEnabled backend = true))
  ∧ (∃ backend, Onnxjs.initialize p = Normal (true, Some backend)
       ∧ Onnxjs.supportProfiling backend = hasFeature "timestamp-query" adapter
       ∧ (is_Some (Onnxjs.querySet backend) ↔ Onnxjs.supportProfiling backend = true)).
Proof.
  intros Hgpu Hgrant. split.
  - unfold initialize. rewrite Hgpu.
    set (flag := hasFeature "timestamp-query" adapter && String.eqb (profilingMode p) "default").
    assert (Hflag : flag = hasFeature "timestamp-query" adapter
                           && String.eqb (profilingMode p) "default") by reflexivity.
    assert (Hok : isNormal (requestDevice adapter (deviceDescriptor adapter flag)) = true).
    { apply Hgrant; [apply deviceDescriptor_limits |].
      apply deviceDescriptor_features. unfold flag. by intros [? _]%andb_true_iff. }
    clearbody flag.
    destruct (requestDevice adapter (deviceDescriptor adapter flag)) as [d | e]; [| done].
    eexists. split; [reflexivity |]. simpl. split; [reflexivity |]. clear Hflag.
    destruct flag; split; first [done | by eauto | by intros [? ?]].
  - unfold Onnxjs.initialize, Onnxjs.initializeBody. rewrite Hgpu.
    set (flag := hasFeature "timestamp-query" adapter).
    assert (Hok : isNormal (requestDevice adapter (deviceDescriptor adapter flag)) = true).
    { apply Hgrant; [apply deviceDescriptor_limits |]. by apply deviceDescriptor_features. }
    assert (Hflag : flag = hasFeature "timestamp-query" adapter) by reflexivity.
    clearbody flag.
    destruct (requestDevice adapter (deviceDescriptor adapter flag)) as [d | e]; [| done].
    eexists. split; [reflexivity |]. simpl. split; [reflexivity |]. clear Hflag.
    destruct flag; split; first [done | by eauto | by intros [? ?]].
Qed.

Lemma initialize_succeeds_with_a_granting_adapter_witness :
  isNormal (initialize 16 samplePlatform) = true
  ∧ ∃ backend, Onnxjs.initialize samplePlatform = Normal (true, Some backend).
Proof.
  destruct (initialize_succeeds_with_a_granting_adapter 16 samplePlatform sampleAdapter eq_refl)
    as ((b & Hb & _) & (b' & Hb' & _)).
  - intros d _ _. reflexivity.
  - split; [by rewrite Hb | eauto].
Defined.

(** ** A failed [releaseKernel] *)

Lemma gdm_release_shrinks i m r m' :
  gdm_release i m = (r, m') → ∀ j, live j m' → live j m.
Proof.
  unfold gdm_release. destruct (storageCache m !! i) eqn:E; intros [= _ <-]; [| done].
  intros j. unfold live. simpl. destruct (decide (i = j)) as [-> | Hne].
  - rewrite lookup_delete_eq. by intros [? ?].
  - by rewrite lookup_delete_ne.
Qed.

Lemma releaseEach_shrinks datas m r m' :
  releaseEach datas m = (r, m') → ∀ j, live j m' → live j m.
Proof.
  revert m. induction datas as [| d datas IH]; intros m; simpl.
  - by intros [= _ <-].
  - destruct (gdm_release (id d) m) as [[size | e] m1] eqn:H1.
    + intros H j Hj. eapply gdm_release_shrinks; [exact H1 |]. by eapply IH.
    + intros [= _ <-]. by eapply gdm_release_shrinks.
Qed.

Lemma releaseEach_abrupt datas m e m' :
  releaseEach datas m = (Abrupt e, m') →
  ∃ d rest, datas = d :: rest ∧ ¬ live (id d) m'.
Proof.
  destruct datas as [| d rest]; simpl; [done |].
  destruct (gdm_release (id d) m) as [[size | e1] m1] eqn:H1.
  - intros H. exists d, rest. split; [reflexivity |]. intros Hlive.
    apply (releaseEach_shrinks _ _ _ _ H) in Hlive.
    revert H1 Hlive. unfold gdm_release, live.
    destruct (storageCache m !! id d); intros [= _ <-]; simpl.
    rewrite lookup_delete_eq. by intros [? ?].
  - intros [= _ <-]. exists d, rest. split; [reflexivity |].
    revert H1. unfold gdm_release, live.
    destruct (storageCache m !! id d) eqn:E; intros [= _ <-].
    rewrite E. by intros [? ?].
Qed.

(** X14.  [releaseKernel] is not undone when it throws: if releasing one
    of the instance's persistent buffers throws (the buffer is not in the
    registry), no buffer released before it comes back, and the instance
    and its persistent list stay registered as they were.  The next
    [releaseKernel] of the instance then throws at the first buffer of the
    list and changes nothing, and so does every one after it: the
    instance is never removed. *)
Theorem failed_releaseKernel_keeps_failing
    (kernelId : Z) (s s' : WebGpuBackend) (e : Error) :
  releaseKernel kernelId s = (Abrupt e, s') →
  kernels s' = kernels s
  ∧ kernelPersistentData s' = kernelPersistentData s
  ∧ (∀ j, live j (gpuDataManager s') → live j (gpuDataManager s))
  ∧ ∃ d rest, kernelPersistentData s !! Some kernelId = Some (d :: rest)
      ∧ releaseKernel kernelId s' = (Abrupt (ReleasingUnknownData (id d)), s').
Proof.
  unfold releaseKernel at 1.
  destruct (kernelPersistentData s !! Some kernelId) as [l |] eqn:Hl; [| done].
  destruct (releaseEach l (gpuDataManager s)) as [[[] | e1] m] eqn:Hrel; [done |].
  intros [= _ <-]. simpl.
  split; [reflexivity |]. split; [reflexivity |].
  split; [by eapply releaseEach_shrinks |].
  destruct (releaseEach_abrupt _ _ _ _ Hrel) as (d & rest & -> & Hdead).
  exists d, rest. split; [reflexivity |].
  unfold releaseKernel. simpl. rewrite Hl. simpl.
  unfold gdm_release. unfold live in Hdead.
  destruct (storageCache m !! id d) eqn:E; [exfalso; eauto |].
  by destruct s.
Qed.

Lemma failed_releaseKernel_keeps_failing_witness :
  ∃ s', releaseKernel 4 afterFree = (Abrupt (ReleasingUnknownData 3), s')
        ∧ releaseKernel 4 s' = (Abrupt (ReleasingUnknownData 3), s')
        ∧ is_Some (kernels s' !! 4%Z).
Proof.
  assert (H : releaseKernel 4 afterFree
              = (Abrupt (ReleasingUnknownData 3), (releaseKernel 4 afterFree).2))
    by (vm_compute; reflexivity).
  destruct (failed_releaseKernel_keeps_failing 4 afterFree _ _ H)
    as (Hk & _ & _ & d & rest & Hl & Hagain).
  exists (releaseKernel 4 afterFree).2. split; [exact H |]. split.
  - rewrite Hagain. assert (Hd : Some (d :: rest) = Some [bufferC]).
    { rewrite <- Hl. vm_compute. reflexivity. }
    by injection Hd as -> _.
  - rewrite Hk. vm_compute. eauto.
Defined.

(** ** A [run] that throws *)

(** X15.  A [run] that throws has compiled nothing, recorded nothing and
    submitted nothing, whichever check or output factory made it throw:
    the device, the program manager with its cache, the open command and
    compute pass encoders and the pending-dispatch counter are as they
    were before the call. *)
Theorem failed_run_records_nothing
    (program : Program) (inputs : list TensorView) (outputIndices : list JsNumber)
    (ck : Z → Z → list Z → GpuDataManager → Completion TensorView * GpuDataManager)
    (ct : Z → list Z → GpuDataManager → Completion TensorView * GpuDataManager)
    (s s' : WebGpuBackend) (e : Error) :
  run program inputs outputIndices ck ct s = (Abrupt e, s') →
  device s' = device s
  ∧ programManager s' = programManager s
  ∧ commandEncoder s' = commandEncoder s
  ∧ computePassEncoder s' = computePassEncoder s
  ∧ pendingDispatchNumber s' = pendingDispatchNumber s.
Proof.
  unfold run.
  destruct (negb (length inputs =? length (inputTypes (programMetadata program)))%nat).
  { by intros [= _ <-]. }
  destruct (inputGpuData (gpuDataManager s) inputs) as [inputDatas | e0]; [| by intros [= _ <-]].
  set (key0 := getProgramInfoUniqueKey (programMetadata program)
                 (map dims inputs) (map type inputDatas)).
  set (info := resolveProgramInfo (getArtifact key0 (programManager s)) program).
  simpl.
  destruct (negb (length (validatedOutputIndices outputIndices info) =? length (outputs info))%nat).
  { by intros [= _ <-]. }
  destruct (createOutputs (length (outputs info)) (outputs info)
              (validatedOutputIndices outputIndices info) ck ct s) as [r1 s1] eqn:Hout.
  destruct (createOutputs_frame _ _ _ _ _ _ _ _ Hout) as (Hss & _ & _).
  destruct r1 as [[views datas] | e1].
  - destruct (ensureArtifact (getArtifact key0 (programManager s)) key0 info s1). done.
  - intros [= _ <-]. exact Hss.
Qed.

Lemma failed_run_records_nothing_witness :
  (run addProgram [tensorA; tensorB] [JsInt 7]
     (createKernelOutput allocatingContext) (createTemporaryOutput allocatingContext)
     kernelBackend).1 = Abrupt (InvalidOutputIndex (JsInt 7))
  ∧ programManager
      (run addProgram [tensorA; tensorB] [JsInt 7]
         (createKernelOutput allocatingContext) (createTemporaryOutput allocatingContext)
         kernelBackend).2 = programManager kernelBackend.
Proof.
  split; [vm_compute; reflexivity |].
  eapply (failed_run_records_nothing addProgram [tensorA; tensorB] [JsInt 7]
            (createKernelOutput allocatingContext) (createTemporaryOutput allocatingContext)
            kernelBackend _ (InvalidOutputIndex (JsInt 7))).
  vm_compute. reflexivity.
Defined.
